(* ===== verification/_CoqProject ===== *)
-Q . S2P
Prelude.v
PyStr.v
Image.v
Atlas.v
Pattern.v
Packer.v
Slicer.v
Frames.v
AllowList.v
Pipeline.v
