(* ===== verification/Prelude.v ===== *)
(** * DawnLike atlas generators (src/art/gen_*.py): a verification library

    The repository's art pipeline cuts the DawnLike 16 x 16 tile sheets into
    single tiles and packs them into texture atlases with a JSON coordinate
    map for the Godot game. Three scripts do this, each in the same shape:
    a [main] walks the sheets, a per-sheet [process_*_png] crops every grid
    cell, drops the transparent ones and saves the rest under a counter name
    into a temporary directory (inside a [try/except Exception] that prints
    the error and goes on), then [create_atlas] filters the saved tiles
    against an allow list (names used in map_renderer.gd, or listed in
    monsters.csv or items.csv), pairs the two animation frames of each
    character, sizes a power-of-two canvas, pastes the tiles row by row,
    adds a debug tile and a watermark and writes the PNG and the JSON. A
    fourth script, gen_ui.py, copies GUI0.png onto a 512 x 512 canvas and
    watermarks it. The development models these parts as follows; the
    files are listed in dependency order.

    - Prelude.v (this file): Python exceptions; the monad [PyM S A] of
      state and exceptions, where an exception keeps the state reached
      before it, as a file written before a raise stays written; [py_for]
      and [py_fold] for [for] loops; Python's [range]; float [/],
      [math.sqrt] and [math.ceil] on primitive IEEE doubles; ordered dict
      writes ([insert_all], last write wins); ASCII [str] helpers
      ([lower], [Path.stem], [int]); the hint databases [pyrun]/[pyrw].
    - PyStr.v: the Python library on ASCII [str] the scripts call:
      [strip], [split(sep)], [join], [int(s)] with sign and underscores,
      the code-point order of [<], and the stable [sorted]/[list.sort]
      with a key, as an insertion sort.
    - Image.v: RGBA images with [crop]/[paste]/[getdata];
      [is_tile_transparent] (all three scripts, e.g. gen_world.py 110-127)
      with its float ratio against [TRANSPARENCY_THRESHOLD = 0.1];
      [Image.open] as a [source] that may be undecodable; the temporary
      directory as a [gmap] from names to tiles together with the log of
      reported errors ([workspace]); the per-sheet [try/except]
      ([guard_sheet]).
    - Atlas.v: [calculate_optimal_atlas_size] and [next_power_of_2] of the
      three scripts, with the configuration of each ([SPRITE_WIDTH],
      [SPRITE_HEIGHT], the 256 floor of gen_characters.py and gen_items.py)
      as a [ConfigOk] class instance.
    - Pattern.v: [process_floor_wall_png] of gen_world.py (181-319): the
      tag tables of [get_pattern_map_for_tile_type], the block selection
      with and without a used-name set, the 7 x 3 block loop and its skips.
    - Slicer.v: the other extraction loops, [process_ground_png],
      [process_decor_png], [process_tile_png], [process_doors_png]
      (gen_world.py), [process_item_png] (gen_items.py) and
      [process_character_png] with [extract_character_name]
      (gen_characters.py), all as [py_fold] of one shared loop body
      [counted_cell] over [grid_positions].
    - Packer.v: [create_debug_tile], the placement loop, the watermark
      (text measured and drawn through the [Font] class, which stands for
      PIL's default font; [FontLaws] states that drawing stays in the text
      box), the allow-list filters and [create_atlas] of gen_world.py and
      gen_items.py with the files they write.
    - Frames.v: [collect_sprite_pairs] (dash split, [int] of the frame,
      [defaultdict] grouping in listing order), [create_double_width_sprite]
      and [create_atlas] of gen_characters.py with its sorted group loop.
    - AllowList.v: the two [read_allowed_sprite_names_from_csv] readers,
      from the records [csv.reader] yields, through a model of
      [csv.DictReader] (which gives [None] for the fields a short record
      lacks), and [extract_used_tile_names] with [re.findall] of its
      pattern, by well-founded recursion with Equations.
    - Pipeline.v: [main] of the four scripts: directory and sheet checks
      with their exits, the sheet loops, the sorted listing of the
      temporary directory (the order of [glob] is a parameter) and the
      call of [create_atlas]; a path is represented by its file name.

    Theorems, by group. Refinement: each imperative extraction loop equals
    a list comprehension of the tiles it saves ([floor_wall_entries],
    [counted_entries]), from which the names and contents of the saved
    files follow, in both directions (every saved tile is a kept cell with
    its name, every kept cell with a used name is saved). Functional:
    [extract_character_name] follows its regular expression, and the frame
    pairing keeps groups of one or two frames only. Equivalence: the float
    code of the transparency test and of the atlas size equals exact
    integer arithmetic on the inputs the scripts meet, and the output of
    gen_world.py and gen_items.py does not depend on the order [glob]
    lists the temporary directory in. Bounds: atlas sides are powers of
    two and every cell lies inside. Round trip: a sprite read back from
    the written PNG at the JSON coordinates is the sprite, away from the
    watermark (for the characters: frame 0 in the left half, frame 1 in
    the right half); the tile names [process_character_png] prints are
    parsed back by [collect_sprite_pairs]; the names of map_renderer.gd are
    read back by the regex scan; ui.png holds GUI0.png. Composition: the
    [main] of gen_world.py, gen_items.py and gen_characters.py ends
    normally and its JSON keys are exactly the kept tiles (for the
    characters: the kept groups of one or two frames) of the temporary
    directory plus ["debug"], for sheets PIL can or cannot open. Errors:
    the [NameError] of the undefined [limit_msg], [ValueError] of [int] on
    a bad frame field, [AttributeError] of [None.strip()] on a short CSV
    record anywhere in the file, and the exits of [main]. Findings worth a
    look are proved as theorems too: the watermark drawn over the debug
    cell of a full world atlas, the Wall/Floor sheets of fewer than six
    rows that yield nothing (the example of the specification), the
    [NameError] of every character sheet, the wrong grouping of character
    names with a dash, the crash on a short CSV record, and the comments on
    [SET_THIS_TO_FALSE_TO_GET_ALL_TILES] and
    [SET_THIS_TO_FALSE_TO_GET_ALL_ITEMS] (first 7 blocks, 10 sprites per
    item type), which the code does not do when the allow list is read.

    Bounds of the exhaustive checks. The float/integer agreement of the
    transparency test is checked for every pixel count up to 256, the size
    of a 16 x 16 tile, which is all [is_tile_transparent] meets through
    [grid_tile]. The float/integer agreement of the atlas size is checked
    for 1 to 16384 sprites; DawnLike has a few thousand tiles, and 16384
    sprites of 32 x 16 already make a 4096 x 2048 canvas. There is no fuel:
    every loop is a [for] over a finite list, and the one loop that is not
    structural, the scan of [re.findall], is defined by Equations on the
    length of the text, which every step shortens.

    Not modelled: [find_project_root] and [change_to_project_root], which
    only search the file system and change directory, [ensure_output_directory]
    and the printing; the splitting of CSV text into records, UTF-8
    decoding, PNG decoding and encoding and glyph rendering are library
    code, taken as records, decoded images and the [Font] class. The
    regular-expression engine is modelled only for the one pattern the
    scripts use. *)

From stdpp Require Export base list gmap strings pretty.
From Stdlib Require Export ZArith Lia Ascii.
From Stdlib Require Export PrimFloat SpecFloat FloatOps Uint63.

(** This file holds what the components share: the exceptions the Python
    scripts can raise, a small state-and-exception monad in which a raised
    exception keeps the state changes made before it (a file written before
    an exception stays written), Python's [range], the float operations of
    [math.sqrt], [math.ceil] and [/] on integers, and the integer lemmas the
    packer and the classifier use. *)

Declare Scope py_scope.
Delimit Scope py_scope with py.
Open Scope Z_scope.

(** ** Python exceptions *)

Inductive exn :=
| ZeroDivisionError
| ValueError (msg : string)
| OverflowError (msg : string)
| NameError (name : string)
| UnidentifiedImageError (path : string)
| FileNotFoundError (path : string)
| AttributeError (msg : string).

#[export] Instance exn_eq_dec : EqDecision exn.
Proof. solve_decision. Defined.

(** ** The state-and-exception monad *)

Definition PyM (S A : Type) : Type := S -> S * (exn + A).

Definition ret {S A} (a : A) : PyM S A := fun s => (s, inr a).
Definition raise {S A} (e : exn) : PyM S A := fun s => (s, inl e).
Definition bind {S A B} (m : PyM S A) (k : A -> PyM S B) : PyM S B :=
  fun s => match m s with
           | (s', inl e) => (s', inl e)
           | (s', inr a) => k a s'
           end.
Definition get {S} : PyM S S := fun s => (s, inr s).
Definition put {S} (s : S) : PyM S unit := fun _ => (s, inr tt).
Definition modify {S} (f : S -> S) : PyM S unit := fun s => (f s, inr tt).
(** A value of the sum type [exn + A] (a fallible pure computation) lifted. *)
Definition lift {S A} (r : exn + A) : PyM S A := fun s => (s, r).
(** [try: m except Exception as e: h e]. *)
Definition try_except {S A} (m : PyM S A) (h : exn -> PyM S A) : PyM S A :=
  fun s => match m s with
           | (s', inl e) => h e s'
           | ok => ok
           end.

Notation "x <- m ;; k" := (bind m (fun x => k))
  (at level 100, m at level 99, right associativity) : py_scope.
Notation "m ;; k" := (bind m (fun _ : unit => k))
  (at level 100, right associativity) : py_scope.
Open Scope py_scope.

(** Binding a fallible pure computation ([exn + A]). *)
Definition sbind {A B} (m : exn + A) (k : A -> exn + B) : exn + B :=
  match m with inl e => inl e | inr a => k a end.
Notation "'let?' x ':=' m 'in' k" := (sbind m (fun x => k))
  (at level 10, x name, m at level 100, k at level 200) : py_scope.

(** [for x in xs: body x]. *)
Fixpoint py_for {S A} (xs : list A) (body : A -> PyM S unit) : PyM S unit :=
  match xs with
  | [] => ret tt
  | x :: xs' => body x ;; py_for xs' body
  end.

(** A loop that updates a local variable ([acc]) as it goes. *)
Fixpoint py_fold {S A B} (xs : list A) (acc : B) (body : B -> A -> PyM S B) : PyM S B :=
  match xs with
  | [] => ret acc
  | x :: xs' => acc' <- body acc x ;; py_fold xs' acc' body
  end.

(** Python's [range(a, b)]: empty when [b <= a]. *)
Fixpoint range_from (a : Z) (count : nat) : list Z :=
  match count with
  | O => []
  | S c => a :: range_from (a + 1) c
  end.
Definition range (a b : Z) : list Z := range_from a (Z.to_nat (b - a)).

(** ** Python floats
    A Python [float] is an IEEE-754 binary64, which is Rocq's primitive
    [float]. [float(z)] rounds to nearest; [of_uint63] does the same for
    [0 <= z < 2^63], the only integers the scripts convert (pixel and sprite
    counts). *)

Definition float_of_Z (z : Z) : float :=
  if z <? 0 then PrimFloat.opp (PrimFloat.of_uint63 (Uint63.of_Z (- z)))
  else PrimFloat.of_uint63 (Uint63.of_Z z).

(** [a / b] on Python integers: the correctly rounded quotient, which is the
    float quotient of the converted operands when both are below 2^53. *)
Definition py_truediv (a b : Z) : exn + float :=
  if b =? 0 then inl ZeroDivisionError
  else inr (PrimFloat.div (float_of_Z a) (float_of_Z b)).

(** [a // b] and [a % b] on Python integers: floor division, as [Z.div] and
    [Z.modulo]; a zero divisor raises. *)
Definition py_floordiv (a b : Z) : exn + Z := if b =? 0 then inl ZeroDivisionError else inr (a / b).
Definition py_mod (a b : Z) : exn + Z := if b =? 0 then inl ZeroDivisionError else inr (a mod b).

(** Ceiling division on integers. *)
Definition cdiv (a b : Z) : Z := (a + b - 1) / b.

(** [math.ceil(x)] for a float [x]; infinities and NaN raise as in CPython. *)
Definition py_ceil (f : float) : exn + Z :=
  match Prim2SF f with
  | S754_zero _ => inr 0
  | S754_infinity _ => inl (OverflowError "cannot convert float infinity to integer")
  | S754_nan => inl (ValueError "cannot convert float NaN to integer")
  | S754_finite false m e =>
      inr (if 0 <=? e then Zpos m * 2 ^ e else cdiv (Zpos m) (2 ^ (- e)))
  | S754_finite true m e =>
      inr (- (if 0 <=? e then Zpos m * 2 ^ e else Zpos m / 2 ^ (- e)))
  end.

(** [math.sqrt(n)] for a Python integer [n]: a negative argument raises. *)
Definition py_sqrt (n : Z) : exn + float :=
  if n <? 0 then inl (ValueError "math domain error")
  else inr (PrimFloat.sqrt (float_of_Z n)).

(** ** Automation *)

Create HintDb pyrun discriminated.
Create Rewrite HintDb pyrw.

(** Closing a goal about a concrete finite computation by evaluation. *)
Ltac eval_close := vm_compute; reflexivity.

(** ** Shared lemmas *)

Section Monad.
Context {S : Type}.

Lemma run_bind {A B} (m : PyM S A) (k : A -> PyM S B) s :
  bind m k s = match m s with (s', inl e) => (s', inl e) | (s', inr a) => k a s' end.
Proof. reflexivity. Qed.

Lemma run_bind_ok {A B} (m : PyM S A) (k : A -> PyM S B) s s' a :
  m s = (s', inr a) -> bind m k s = k a s'.
Proof. intros H. unfold bind. by rewrite H. Qed.

Lemma run_bind_err {A B} (m : PyM S A) (k : A -> PyM S B) s s' e :
  m s = (s', inl e) -> bind m k s = (s', inl e).
Proof. intros H. unfold bind. by rewrite H. Qed.

Lemma py_for_app {A} (xs ys : list A) (body : A -> PyM S unit) s :
  py_for (xs ++ ys) body s = bind (py_for xs body) (fun _ => py_for ys body) s.
Proof.
  revert s. induction xs as [|x xs IH]; intros s; [done|].
  simpl. rewrite !run_bind. destruct (body x s) as [s' [e|[]]]; [done|].
  by rewrite IH, run_bind.
Qed.

(** A loop whose body never raises runs as a [fold_left] of the body's
    state transformer. *)
Lemma py_for_total {A} (xs : list A) (body : A -> PyM S unit) (f : A -> S -> S) s :
  (forall x s0, x ∈ xs -> body x s0 = (f x s0, inr tt)) ->
  py_for xs body s = (fold_left (fun acc x => f x acc) xs s, inr tt).
Proof.
  revert s. induction xs as [|x xs IH]; intros s Hb; [done|].
  simpl. rewrite (run_bind_ok _ _ _ (f x s) tt) by (apply Hb; set_solver).
  apply IH. intros y s0 Hy. apply Hb. set_solver.
Qed.

(** A loop whose body never raises and keeps an invariant [P] of the state
    ends normally with [P] still true. *)
Lemma py_for_inv {A} (P : S -> Prop) (xs : list A) (body : A -> PyM S unit) s :
  P s -> (forall x s0, x ∈ xs -> P s0 -> (body x s0).2 = inr tt /\ P (body x s0).1) ->
  (py_for xs body s).2 = inr tt /\ P (py_for xs body s).1.
Proof.
  revert s. induction xs as [|x xs IH]; intros s Hs Hb; [by split|].
  destruct (Hb x s ltac:(set_solver) Hs) as [Hr HP].
  destruct (body x s) as [s' r] eqn:E. simpl in Hr, HP. subst r.
  simpl. rewrite (run_bind_ok _ _ _ s' tt E). apply IH; [done|].
  intros y s0 Hy. apply Hb. set_solver.
Qed.
End Monad.

#[export] Hint Rewrite @run_bind : pyrw.

Lemma range_from_seqZ (a : Z) (c : nat) : range_from a c = seqZ a (Z.of_nat c).
Proof.
  revert a. induction c as [|c IH]; intros a; [done|].
  rewrite seqZ_cons by lia. simpl. rewrite IH. do 2 f_equal; lia.
Qed.

Lemma length_range_from (a : Z) (n : nat) : length (range_from a n) = n.
Proof. revert a. induction n; intros a; simpl; auto. Qed.

Lemma range_seqZ (a b : Z) : range a b = seqZ a (b - a).
Proof.
  unfold range. rewrite range_from_seqZ.
  destruct (decide (b - a <= 0)).
  - by rewrite !seqZ_nil by lia.
  - f_equal. lia.
Qed.

Lemma elem_of_range (a b k : Z) : k ∈ range a b <-> a <= k < b.
Proof. rewrite range_seqZ, elem_of_seqZ. lia. Qed.

Lemma length_range (a b : Z) : length (range a b) = Z.to_nat (b - a).
Proof. rewrite range_seqZ. apply length_seqZ. Qed.

Lemma cdiv_spec (a b : Z) : 0 < b -> b * (cdiv a b - 1) < a <= b * cdiv a b.
Proof.
  intros Hb. unfold cdiv.
  pose proof (Z.div_mod (a + b - 1) b ltac:(lia)).
  pose proof (Z.mod_pos_bound (a + b - 1) b Hb). lia.
Qed.

Lemma cdiv_pos (a b : Z) : 0 < a -> 0 < b -> 0 < cdiv a b.
Proof. intros Ha Hb. pose proof (cdiv_spec a b Hb). nia. Qed.

Lemma div_lt_cdiv (i n b : Z) : 0 < b -> 0 <= i < n -> i / b < cdiv n b.
Proof.
  intros Hb Hi. pose proof (cdiv_spec n b Hb).
  apply Z.div_lt_upper_bound; lia.
Qed.

#[export] Hint Resolve cdiv_pos div_lt_cdiv : pyrun.

(** An exhaustive boolean check over [range a b] (run by [vm_compute])
    gives the property at every integer of the range. *)
Lemma forallb_range (f : Z -> bool) (a b : Z) :
  forallb f (range a b) = true -> forall k, a <= k < b -> f k = true.
Proof.
  intros Hall k Hk. apply (proj1 (forallb_forall f (range a b)) Hall).
  apply list_elem_of_In, elem_of_range. lia.
Qed.

(** Nested [for] loops are one loop over the flattened list. *)
Lemma py_for_concat {S A B} (xs : list A) (f : A -> list B) (body : B -> PyM S unit) s :
  py_for (concat (map f xs)) body s = py_for xs (fun x => py_for (f x) body) s.
Proof.
  revert s. induction xs as [|x xs IH]; intros s; [done|].
  simpl. rewrite py_for_app, !run_bind. destruct (py_for (f x) body s) as [s' [e|[]]]; [done|].
  apply IH.
Qed.

(** ** Dictionaries written in order: the last write of a key wins *)

Definition insert_all {K V} `{Countable K} (m : gmap K V) (kvs : list (K * V)) : gmap K V :=
  fold_left (fun acc kv => <[kv.1 := kv.2]> acc) kvs m.

Section InsertAll.
Context {K V : Type} `{EqDec_K : EqDecision K} `{Cnt_K : !Countable K}.

Lemma insert_all_app (m : gmap K V) l1 l2 :
  insert_all m (l1 ++ l2) = insert_all (insert_all m l1) l2.
Proof. unfold insert_all. by rewrite fold_left_app. Qed.

Lemma lookup_insert_all_notin (m : gmap K V) kvs k :
  k ∉ kvs.*1 -> insert_all m kvs !! k = m !! k.
Proof.
  revert m. induction kvs as [|[k' v'] kvs IH]; intros m Hk; [done|].
  simpl in *. rewrite IH by set_solver. apply lookup_insert_ne. set_solver.
Qed.

(** The value of a key is that of its last occurrence. *)
Lemma lookup_insert_all_last (m : gmap K V) l1 l2 k v :
  k ∉ l2.*1 -> insert_all m (l1 ++ (k, v) :: l2) !! k = Some v.
Proof.
  intros Hk. rewrite insert_all_app. simpl.
  rewrite lookup_insert_all_notin by done. apply lookup_insert_eq.
Qed.

Lemma lookup_insert_all_Some (m : gmap K V) kvs k v :
  insert_all m kvs !! k = Some v -> (k, v) ∈ kvs \/ ((k ∉ kvs.*1) /\ m !! k = Some v).
Proof.
  revert m. induction kvs as [|[k' v'] kvs IH]; intros m Hl; [right; split; [set_solver|done]|].
  simpl in Hl. destruct (IH _ Hl) as [Hin|[Hnin Hm]]; [left; set_solver|].
  destruct (decide (k = k')) as [->|Hne].
  - rewrite lookup_insert_eq in Hm. injection Hm as ->. left. set_solver.
  - rewrite lookup_insert_ne in Hm by congruence. right. set_solver.
Qed.

Lemma dom_insert_all (m : gmap K V) kvs :
  dom (insert_all m kvs) = dom m ∪ list_to_set kvs.*1.
Proof.
  revert m. induction kvs as [|[k v] kvs IH]; intros m; simpl; [set_solver|].
  rewrite IH, dom_insert_L. set_solver.
Qed.

Lemma lookup_insert_all_NoDup (m : gmap K V) kvs k v :
  NoDup kvs.*1 -> (k, v) ∈ kvs -> insert_all m kvs !! k = Some v.
Proof.
  intros Hnd Hin. apply list_elem_of_split in Hin as (l1 & l2 & ->).
  apply lookup_insert_all_last. rewrite fmap_app in Hnd. simpl in Hnd.
  apply NoDup_app in Hnd as (_ & _ & Hnd). by apply NoDup_cons in Hnd as [? _].
Qed.
End InsertAll.

Lemma omap_concat_map {A B} (g : A -> option B) (xs : list A) :
  omap g xs = concat (map (fun x => option_list (g x)) xs).
Proof.
  induction xs as [|x xs IH]; [done|]. simpl. rewrite <- IH. by destruct (g x).
Qed.

(** ** ASCII strings as Python's [str] *)

Definition is_digit (c : ascii) : bool :=
  (48 <=? nat_of_ascii c)%nat && (nat_of_ascii c <=? 57)%nat.

(** [str.lower()] on ASCII letters. *)
Definition ascii_lower (c : ascii) : ascii :=
  if (65 <=? nat_of_ascii c)%nat && (nat_of_ascii c <=? 90)%nat
  then ascii_of_nat (nat_of_ascii c + 32) else c.
Definition str_lower (s : string) : string :=
  String.string_of_list_ascii (map ascii_lower (String.list_ascii_of_string s)).

(** [int(s)] for a string of decimal digits. *)
Definition parse_digits (s : string) : Z :=
  fold_left (fun acc c => acc * 10 + (Z.of_nat (nat_of_ascii c) - 48))
            (String.list_ascii_of_string s) 0.

(** [PurePath.stem]: the name without its last suffix, where the last dot
    is neither the first nor the last character. *)
Fixpoint last_dot_from (i : nat) (l : list ascii) (found : option nat) : option nat :=
  match l with
  | [] => found
  | c :: l' => last_dot_from (S i) l' (if Ascii.eqb c "." then Some i else found)
  end.
Definition path_stem (name : string) : string :=
  let l := String.list_ascii_of_string name in
  match last_dot_from 0 l None with
  | Some i => if (0 <? i)%nat && (i <? length l - 1)%nat then String.string_of_list_ascii (take i l) else name
  | None => name
  end.

Lemma string_app_assoc (a b c : string) : a +:+ b +:+ c = (a +:+ b) +:+ c.
Proof.
  induction a as [|x a IH]; [done|].
  change (String x (a +:+ b +:+ c) = String x ((a +:+ b) +:+ c)). by rewrite IH.
Qed.

(** A one-character string in front: [String.append] is [simpl never]. *)
Lemma string_char_app (c : ascii) (t : string) : String c "" +:+ t = String c t.
Proof. reflexivity. Qed.

Lemma string_app_inv_l (s a b : string) : s +:+ a = s +:+ b -> a = b.
Proof. induction s as [|c s IH]; simpl; [done|]. intros [= H]. by apply IH. Qed.
