(* ===== verification/PyStr.v ===== *)
(** * Python [str] builtins and [sorted] on ASCII strings

    What the scripts call of Python's string and list library, modelled on
    ASCII [string]s: [str.isspace] and [str.strip()], [str.split(sep)] with a
    one-character separator, [sep.join(parts)], [int(s)] in base 10, the
    code-point order of [<] on [str], and the stable [list.sort] /
    [sorted] with a key. These are library semantics: the file is shared by
    the models of [collect_sprite_pairs], the CSV allow-list readers and the
    sorted directory listings. *)

From stdpp Require Import sorting.
From S2P Require Import Prelude.

Local Open Scope string_scope.

(** ** Whitespace and [strip] *)

(** [str.isspace] on one ASCII character: [\t \n \v \f \r], the four
    separators [\x1c]-[\x1f] and the space. *)
Definition py_isspace (c : ascii) : bool :=
  let n := nat_of_ascii c in ((9 <=? n) && (n <=? 13) || (28 <=? n) && (n <=? 32))%nat.

Fixpoint py_lstrip (s : string) : string :=
  match s with
  | String c r => if py_isspace c then py_lstrip r else s
  | EmptyString => EmptyString
  end.

Fixpoint py_rstrip (s : string) : string :=
  match s with
  | EmptyString => EmptyString
  | String c r =>
      let r' := py_rstrip r in
      if String.eqb r' "" && py_isspace c then "" else String c r'
  end.

(** [s.strip()]. *)
Definition py_strip (s : string) : string := py_rstrip (py_lstrip s).

(** ** [split] and [join] *)

(** [s.split(sep)]: the pieces between the separators, empty ones
    included, so [""] gives [[""]]. *)
Fixpoint py_split (s : string) (sep : ascii) : list string :=
  match s with
  | EmptyString => [""]
  | String c r =>
      let rest := py_split r sep in
      if Ascii.eqb c sep then "" :: rest
      else match rest with
           | p :: ps => String c p :: ps
           | [] => [String c ""]
           end
  end.

(** [sep.join(parts)]. *)
Definition py_join (sep : string) (parts : list string) : string := String.concat sep parts.

(** Every character of [s] passes [f]. *)
Fixpoint str_all (f : ascii -> bool) (s : string) : bool :=
  match s with
  | EmptyString => true
  | String c r => f c && str_all f r
  end.

Definition has_char (sep : ascii) (s : string) : bool :=
  negb (str_all (fun c => negb (Ascii.eqb c sep)) s).

(** ** [int(s)] *)

Definition digit_val (c : ascii) : Z := Z.of_nat (nat_of_ascii c) - 48.

(** Decimal digits with single underscores between them; [prev] says the
    last character read was a digit. *)
Fixpoint digits_us (acc : Z) (prev : bool) (s : string) : option Z :=
  match s with
  | EmptyString => if prev then Some acc else None
  | String c r =>
      if is_digit c then digits_us (acc * 10 + digit_val c) true r
      else if prev && Ascii.eqb c "_" then digits_us acc false r
      else None
  end.

(** [int(s)]: surrounding whitespace, an optional sign, then digits;
    anything else raises [ValueError]. *)
Definition py_int (s : string) : exn + Z :=
  let t := py_strip s in
  let r := match t with
           | String c r =>
               if Ascii.eqb c "+" then digits_us 0 false r
               else if Ascii.eqb c "-" then option_map Z.opp (digits_us 0 false r)
               else digits_us 0 false t
           | EmptyString => None
           end in
  match r with
  | Some n => inr n
  | None => inl (ValueError "invalid literal for int() with base 10")
  end.

(** ** Order and sorting *)

(** [a <= b] on [str]: code points, lexicographically. *)
Definition py_str_le (a b : string) : bool := String.leb a b.

(** [list.sort(key=...)] and [sorted(...)] are stable: the model is the
    insertion sort that puts each element after the ones not greater. *)
Fixpoint insert_by {A} (le : A -> A -> bool) (x : A) (l : list A) : list A :=
  match l with
  | [] => [x]
  | y :: r => if le y x then y :: insert_by le x r else x :: y :: r
  end.

Definition sort_by {A} (le : A -> A -> bool) (l : list A) : list A :=
  fold_left (fun acc x => insert_by le x acc) l [].

(** ** Lemmas *)

Lemma py_split_nil s sep : py_split s sep <> [].
Proof.
  induction s as [|c r IH]; simpl; [done|].
  destruct (Ascii.eqb c sep); [done|]. by destruct (py_split r sep).
Qed.

Lemma concat_cons (sep p : string) (ps : list string) :
  ps <> [] -> String.concat sep (p :: ps) = p +:+ sep +:+ String.concat sep ps.
Proof. by destruct ps. Qed.

(** [sep.join(s.split(sep)) == s]. *)
Lemma py_split_join s sep : py_join (String sep "") (py_split s sep) = s.
Proof.
  unfold py_join. induction s as [|c r IH]; [done|]. simpl.
  pose proof (py_split_nil r sep) as Hne.
  destruct (Ascii.eqb c sep) eqn:E.
  - apply Ascii.eqb_eq in E as ->. rewrite concat_cons by done. simpl. by rewrite IH.
  - destruct (py_split r sep) as [|p ps]; [done|].
    rewrite <- IH. by destruct ps.
Qed.

Lemma py_split_no_sep s sep : has_char sep s = false -> py_split s sep = [s].
Proof.
  unfold has_char. rewrite negb_false_iff.
  induction s as [|c r IH]; simpl; [done|].
  intros [Hc Hr]%andb_prop. apply negb_true_iff in Hc. rewrite Hc, IH by done. done.
Qed.

(** Splitting [a ++ sep ++ b] where [a] has no separator. *)
Lemma py_split_app a b sep :
  has_char sep a = false -> py_split (a +:+ String sep b) sep = a :: py_split b sep.
Proof.
  unfold has_char. rewrite negb_false_iff.
  induction a as [|c r IH]; simpl.
  - by rewrite Ascii.eqb_refl.
  - intros [Hc Hr]%andb_prop. apply negb_true_iff in Hc. rewrite Hc, IH by done. done.
Qed.

Lemma py_strip_id s :
  str_all (fun c => negb (py_isspace c)) s = true -> py_strip s = s.
Proof.
  unfold py_strip. intros Hs.
  assert (Hl : py_lstrip s = s).
  { destruct s as [|c r]; [done|]. simpl in *. apply andb_prop in Hs as [Hc _].
    apply negb_true_iff in Hc. by rewrite Hc. }
  rewrite Hl. clear Hl. induction s as [|c r IH]; [done|].
  simpl in *. apply andb_prop in Hs as [Hc Hr]. apply negb_true_iff in Hc.
  rewrite IH, Hc by done. by rewrite andb_false_r.
Qed.

Lemma str_all_impl (f g : ascii -> bool) s :
  (forall c, f c = true -> g c = true) -> str_all f s = true -> str_all g s = true.
Proof.
  intros Hfg. induction s as [|c r IH]; simpl; [done|].
  intros [Hc Hr]%andb_prop. by rewrite Hfg, IH.
Qed.

Lemma is_digit_not_space c : is_digit c = true -> negb (py_isspace c) = true.
Proof.
  unfold is_digit, py_isspace. cbv zeta. intros [H1 _]%andb_prop. apply Nat.leb_le in H1.
  rewrite (proj2 (Nat.leb_gt _ 13)), (proj2 (Nat.leb_gt _ 32)) by lia.
  by rewrite !andb_false_r.
Qed.

Lemma pretty_N_char_digit d :
  (d < 10)%N -> is_digit (pretty_N_char d) = true /\ digit_val (pretty_N_char d) = Z.of_N d.
Proof.
  intros Hd. assert (d = 0 \/ d = 1 \/ d = 2 \/ d = 3 \/ d = 4 \/ d = 5 \/ d = 6 \/ d = 7
                     \/ d = 8 \/ d = 9)%N as Hcases by lia.
  by repeat destruct Hcases as [->|Hcases]; [..|subst].
Qed.

Lemma pretty_N_go_digits x s :
  str_all is_digit s = true -> str_all is_digit (pretty_N_go x s) = true.
Proof.
  revert s. induction (N.lt_wf_0 x) as [x _ IH]; intros s Hs.
  destruct (decide (x = 0)%N) as [->|Hx]; [by rewrite pretty_N_go_0|].
  rewrite pretty_N_go_step by lia. apply IH; [apply N.div_lt; lia|].
  simpl. rewrite Hs, andb_true_r. apply pretty_N_char_digit, N.mod_lt. lia.
Qed.

(** Reading the digits [pretty_N_go] puts in front of [s] shifts the value
    read so far and adds [x]. *)
Lemma pretty_N_go_value x s acc b :
  (0 < x)%N ->
  exists k, 0 <= k /\
    digits_us acc b (pretty_N_go x s) = digits_us (acc * 10 ^ k + Z.of_N x) true s.
Proof.
  revert s acc b. induction (N.lt_wf_0 x) as [x _ IH]; intros s acc b Hx.
  rewrite pretty_N_go_step by done.
  pose proof (N.div_mod x 10 ltac:(lia)) as Hdm. pose proof (N.mod_lt x 10 ltac:(lia)) as Hm.
  destruct (pretty_N_char_digit (x mod 10) Hm) as [Hd Hv].
  destruct (decide (x / 10 = 0)%N) as [Hq|Hq].
  - rewrite Hq, pretty_N_go_0. exists 1. simpl. rewrite Hd, Hv. split; [lia|]. do 2 f_equal. lia.
  - destruct (IH (x / 10)%N ltac:(apply N.div_lt; lia) (String (pretty_N_char (x mod 10)) s)
                acc b ltac:(lia)) as (k & Hk & ->).
    exists (k + 1). simpl. rewrite Hd, Hv. split; [lia|]. f_equal.
    rewrite Z.pow_add_r by lia. lia.
Qed.

(** [int(str(n)) == n] for [n >= 0]. *)
Lemma py_int_pretty (n : Z) : 0 <= n -> py_int (pretty n) = inr n.
Proof.
  intros Hn. destruct n as [|p|p]; [done| |lia].
  change (pretty (Z.pos p)) with (pretty_N_go (N.pos p) "").
  destruct (pretty_N_go_value (N.pos p) "" 0 false ltac:(lia)) as (k & _ & Hv).
  rewrite Z.mul_0_l, Z.add_0_l in Hv.
  pose proof (pretty_N_go_digits (N.pos p) "" eq_refl) as Hdig.
  unfold py_int. rewrite py_strip_id by (eapply str_all_impl; [apply is_digit_not_space|done]).
  destruct (pretty_N_go (N.pos p) "") as [|c r]; [done|].
  simpl in Hdig. apply andb_prop in Hdig as [Hc _].
  assert (Hplus : Ascii.eqb c "+" = false) by (destruct (Ascii.eqb_spec c "+"); subst; done).
  assert (Hminus : Ascii.eqb c "-" = false) by (destruct (Ascii.eqb_spec c "-"); subst; done).
  rewrite Hplus, Hminus, Hv. done.
Qed.

(** ** The stable sort *)

Section SortBy.
Context {A : Type} (le : A -> A -> bool).

Lemma insert_by_perm x l : insert_by le x l ≡ₚ x :: l.
Proof.
  induction l as [|y l IH]; simpl; [done|].
  destruct (le y x); [|done]. rewrite IH. apply perm_swap.
Qed.

Lemma sort_by_perm l : sort_by le l ≡ₚ l.
Proof.
  unfold sort_by. cut (forall acc, fold_left (fun acc x => insert_by le x acc) l acc ≡ₚ acc ++ l).
  { intros H. apply H. }
  induction l as [|x l IH]; intros acc; simpl; [by rewrite app_nil_r|].
  rewrite IH, insert_by_perm. simpl. apply Permutation_middle.
Qed.

Context (le_total : forall a b, le a b = false -> le b a = true).

Lemma insert_by_sorted x l :
  Sorted (fun a b => le a b = true) l -> Sorted (fun a b => le a b = true) (insert_by le x l).
Proof.
  induction 1 as [|y l Hl IH Hhd]; simpl; [by repeat constructor|].
  destruct (le y x) eqn:Hyx.
  - constructor; [done|]. destruct l as [|z l]; simpl in *; [by constructor|].
    inversion Hhd; subst. destruct (le z x); constructor; auto.
  - constructor; [by constructor|]. constructor. by apply le_total.
Qed.

Lemma sort_by_sorted l : Sorted (fun a b => le a b = true) (sort_by le l).
Proof.
  unfold sort_by. cut (forall acc, Sorted (fun a b => le a b = true) acc ->
    Sorted (fun a b => le a b = true) (fold_left (fun acc x => insert_by le x acc) l acc)).
  { intros H. by apply H. }
  induction l as [|x l IH]; intros acc Hacc; simpl; [done|]. by apply IH, insert_by_sorted.
Qed.
End SortBy.

Lemma pretty_digits (n : Z) : 0 <= n -> str_all is_digit (pretty n) = true.
Proof.
  intros Hn. destruct n as [|p|p]; [done| |lia].
  change (pretty (Z.pos p)) with (pretty_N_go (N.pos p) ""). by apply pretty_N_go_digits.
Qed.

(** A string of digits has no separator such as ["-"] or [","]. *)
Lemma digits_no_char (sep : ascii) s :
  is_digit sep = false -> str_all is_digit s = true -> has_char sep s = false.
Proof.
  intros Hsep Hs. unfold has_char. apply negb_false_iff. revert Hs.
  apply str_all_impl. intros c Hc. apply negb_true_iff.
  destruct (Ascii.eqb_spec c sep); congruence.
Qed.

(** ** The order on [str] *)

Lemma ascii_compare_trans_lt a b c :
  Ascii.compare a b = Lt -> Ascii.compare b c = Lt -> Ascii.compare a c = Lt.
Proof. unfold Ascii.compare. rewrite !N.compare_lt_iff. lia. Qed.

Lemma str_compare_trans a b c :
  String.compare a b <> Gt -> String.compare b c <> Gt -> String.compare a c <> Gt.
Proof.
  revert b c. induction a as [|x a IH]; intros [|y b] [|z c]; simpl; try done.
  destruct (Ascii.compare x y) eqn:Exy; destruct (Ascii.compare y z) eqn:Eyz; try done.
  - apply Ascii.compare_eq_iff in Exy, Eyz. subst. unfold Ascii.compare at 1. rewrite N.compare_refl.
    apply IH.
  - apply Ascii.compare_eq_iff in Exy. subst. by rewrite Eyz.
  - apply Ascii.compare_eq_iff in Eyz. subst. by rewrite Exy.
  - by rewrite (ascii_compare_trans_lt _ _ _ Exy Eyz).
Qed.

Lemma py_str_le_trans a b c : py_str_le a b = true -> py_str_le b c = true -> py_str_le a c = true.
Proof.
  unfold py_str_le, String.leb. intros Hab Hbc.
  destruct (String.compare a c) eqn:E; try done.
  exfalso. apply (str_compare_trans a b c); [by destruct (String.compare a b)|by destruct (String.compare b c)|done].
Qed.

Lemma py_str_le_total a b : py_str_le a b = false -> py_str_le b a = true.
Proof. unfold py_str_le. destruct (String.leb_total a b) as [H|H]; congruence. Qed.

Lemma list_ascii_of_string_app a b :
  String.list_ascii_of_string (a +:+ b) = (String.list_ascii_of_string a ++ String.list_ascii_of_string b)%list.
Proof.
  induction a as [|c a IH]; [done|].
  change (c :: String.list_ascii_of_string (a +:+ b) =
          c :: (String.list_ascii_of_string a ++ String.list_ascii_of_string b))%list. by rewrite IH.
Qed.

Lemma string_app_inv_r a b s : a +:+ s = b +:+ s -> a = b.
Proof.
  intros E. apply (f_equal String.list_ascii_of_string) in E. rewrite !list_ascii_of_string_app in E.
  apply app_inv_tail in E. rewrite <- (String.string_of_list_ascii_of_string a), E.
  apply String.string_of_list_ascii_of_string.
Qed.

(** Sorting by a total order that is antisymmetric on the list gives one
    result for every order of the input. *)
Lemma sort_by_unique (le : string -> string -> bool) (l1 l2 : list string) :
  (forall a b c, le a b = true -> le b c = true -> le a c = true) ->
  (forall a b, le a b = false -> le b a = true) ->
  (forall a b, le a b = true -> le b a = true -> a = b) ->
  l1 ≡ₚ l2 -> sort_by le l1 = sort_by le l2.
Proof.
  intros Htrans Htot Hanti Hp.
  assert (Transitive (fun a b => le a b = true)) by (intros a b c; apply Htrans).
  apply (Sorted_unique_strong (fun a b => le a b = true)).
  - intros x1 x2 _ _. apply Hanti.
  - by apply sort_by_sorted.
  - by apply sort_by_sorted.
  - by rewrite !sort_by_perm.
Qed.
