(* ===== verification/Image.v ===== *)
(** * Images and the transparency test (TileSlicer primitives)

    PIL images in RGBA mode, as the generators use them: [Image.new],
    [crop], [paste], [getdata], and [is_tile_transparent], which is the same
    function in gen_world.py, gen_characters.py and gen_items.py. The
    conversion [.convert('RGBA')] is a decoding step of PIL and is taken as
    done: an [image] here is already RGBA. *)

From S2P Require Import Prelude.

Record pixel := mkPixel { red : Z; green : Z; blue : Z; alpha : Z }.

#[export] Instance pixel_eq_dec : EqDecision pixel.
Proof. solve_decision. Defined.

Definition transparent : pixel := mkPixel 0 0 0 0.

(** An image: its size and its pixels, read through [getpixel]. *)
Record image := mkImage { width : Z; height : Z; px : Z -> Z -> pixel }.

Definition in_bounds (img : image) (x y : Z) : bool :=
  (0 <=? x) && (x <? width img) && (0 <=? y) && (y <? height img).

Definition getpixel (img : image) (x y : Z) : pixel :=
  if in_bounds img x y then px img x y else transparent.

(** [Image.new('RGBA', (w, h), color)]. *)
Definition image_new (w h : Z) (color : pixel) : image :=
  mkImage w h (fun _ _ => color).

(** [image.crop((left, top, right, bottom))]: the part of the box outside the
    source reads as transparent, as PIL fills it with zeros. *)
Definition crop (img : image) (left top right bottom : Z) : image :=
  mkImage (right - left) (bottom - top) (fun x y => getpixel img (left + x) (top + y)).

(** [dst.paste(src, (x, y))] with no mask: the pixels of [src] replace those
    of [dst] (alpha included) where they overlap; [dst] keeps its size. *)
Definition paste (dst src : image) (x y : Z) : image :=
  mkImage (width dst) (height dst)
    (fun i j => if (x <=? i) && (i <? x + width src) && (y <=? j) && (j <? y + height src)
                then getpixel src (i - x) (j - y) else px dst i j).

(** [list(image.getdata())]: the pixels in row-major order. *)
Definition getdata (img : image) : list pixel :=
  concat (map (fun y => map (fun x => getpixel img x y) (range 0 (width img)))
              (range 0 (height img))).

(** [TRANSPARENCY_THRESHOLD = 0.1], the binary64 nearest to 1/10. *)
#[warnings="-inexact-float"]
Definition TRANSPARENCY_THRESHOLD : float := 0.1%float.

Definition TILE_SIZE : Z := 16.

Definition non_transparent_count (pixels : list pixel) : Z :=
  Z.of_nat (length (List.filter (fun p => 0 <? alpha p) pixels)).

(** [is_tile_transparent(image_tile)]: true when the tile is skipped. The
    ratio is a float division, which raises on a tile with no pixel. *)
Definition is_tile_transparent (tile : image) : exn + bool :=
  let pixels := getdata tile in
  let total_pixels := Z.of_nat (length pixels) in
  match py_truediv (non_transparent_count pixels) total_pixels with
  | inl e => inl e
  | inr ratio => inr (PrimFloat.ltb ratio TRANSPARENCY_THRESHOLD)
  end.

(** ** Source sheets and the temporary directory *)

(** A source PNG as [Image.open] finds it: a decodable image or a file PIL
    cannot read (it raises). *)
Inductive source := Png (img : image) | Unreadable.

Definition image_open (path : string) (src : source) : exn + image :=
  match src with Png img => inr img | Unreadable => inl (UnidentifiedImageError path) end.

(** What a run writes as it goes: the sprite files of the temporary
    directory, by file stem ([f"{stem}.png"]), and the per-sheet errors the
    [except Exception as e: print(f"Error processing {png_path}: {e}")]
    handlers report. *)
Record workspace := mkWorkspace {
  temp_dir : gmap string image;
  errors : list (string * exn)
}.

(** [tile.save(temp_dir / f"{stem}.png", 'PNG')]: an existing file of the
    same name is overwritten. *)
Definition save_tile (stem : string) (tile : image) : PyM workspace unit :=
  modify (fun w => mkWorkspace (<[stem := tile]> (temp_dir w)) (errors w)).

(** The [try: ... except Exception as e:] around each sheet: the files saved
    before the exception stay, and the error is reported. *)
Definition guard_sheet (path : string) (body : PyM workspace unit) : PyM workspace unit :=
  try_except body (fun e => modify (fun w => mkWorkspace (temp_dir w) (errors w ++ [(path, e)]))).

(** [left = col * TILE_SIZE; top = row * TILE_SIZE; image.crop(...)]. *)
Definition grid_tile (img : image) (row col : Z) : image :=
  let left := col * TILE_SIZE in
  let top := row * TILE_SIZE in
  crop img left top (left + TILE_SIZE) (top + TILE_SIZE).

(** ** Lemmas *)

Lemma getpixel_crop img l t r b x y :
  0 <= x < r - l -> 0 <= y < b - t ->
  getpixel (crop img l t r b) x y = getpixel img (l + x) (t + y).
Proof.
  intros Hx Hy. unfold getpixel at 1, in_bounds. simpl.
  replace ((0 <=? x) && (x <? r - l) && (0 <=? y) && (y <? b - t)) with true
    by (symmetry; repeat rewrite andb_true_iff; lia). done.
Qed.

Lemma getpixel_paste_in dst src x y i j :
  0 <= i < width dst -> 0 <= j < height dst ->
  x <= i < x + width src -> y <= j < y + height src ->
  getpixel (paste dst src x y) i j = getpixel src (i - x) (j - y).
Proof.
  intros Hi Hj Hx Hy. unfold getpixel at 1, in_bounds. simpl.
  replace ((0 <=? i) && (i <? width dst) && (0 <=? j) && (j <? height dst)) with true
    by (symmetry; repeat rewrite andb_true_iff; lia).
  replace ((x <=? i) && (i <? x + width src) && (y <=? j) && (j <? y + height src)) with true
    by (symmetry; repeat rewrite andb_true_iff; lia). done.
Qed.

Lemma getpixel_paste_out dst src x y i j :
  ~ (x <= i < x + width src /\ y <= j < y + height src) ->
  getpixel (paste dst src x y) i j = getpixel dst i j.
Proof.
  intros Hout. unfold getpixel, in_bounds. simpl.
  destruct ((x <=? i) && (i <? x + width src) && (y <=? j) && (j <? y + height src)) eqn:E.
  - repeat rewrite andb_true_iff in E. lia.
  - done.
Qed.

Lemma length_getdata img :
  0 <= width img -> 0 <= height img ->
  Z.of_nat (length (getdata img)) = width img * height img.
Proof.
  intros Hw Hh. unfold getdata. rewrite length_concat, map_map.
  erewrite (map_ext _ (fun _ => Z.to_nat (width img))).
  2:{ intros y. by rewrite length_map, length_range, Z.sub_0_r. }
  rewrite sum_list_fmap_const, length_range, Z.sub_0_r. lia.
Qed.

Lemma non_transparent_count_bounds (pixels : list pixel) :
  0 <= non_transparent_count pixels <= Z.of_nat (length pixels).
Proof.
  unfold non_transparent_count. pose proof (filter_length_le (fun p => 0 <? alpha p) pixels). lia.
Qed.

Lemma grid_tile_size img row col :
  width (grid_tile img row col) = TILE_SIZE /\ height (grid_tile img row col) = TILE_SIZE.
Proof. unfold grid_tile, TILE_SIZE. simpl. lia. Qed.

(** The float test of [is_tile_transparent] against the exact test
    [count / total < 1/10], for every pixel count of every tile of at most
    256 pixels (the 16 x 16 crops of all three scripts): checked by
    evaluation. *)
Definition ratio_agrees (total count : Z) : bool :=
  match py_truediv count total with
  | inr ratio => Bool.eqb (PrimFloat.ltb ratio TRANSPARENCY_THRESHOLD) (10 * count <? total)
  | inl _ => false
  end.

Lemma ratio_table :
  forallb (fun total => forallb (ratio_agrees total) (range 0 (total + 1))) (range 1 257) = true.
Proof. vm_compute. reflexivity. Qed.

Lemma length_getdata_pos img :
  0 < width img -> 0 < height img ->
  0 < Z.of_nat (length (getdata img)).
Proof. intros. rewrite length_getdata by lia. lia. Qed.

(** A tile of at most 256 pixels is skipped exactly when fewer than a tenth
    of its pixels have a nonzero alpha: the float comparison with [0.1]
    never differs from the exact one. *)
Lemma is_tile_transparent_ratio (tile : image) :
  0 < width tile -> 0 < height tile -> width tile * height tile <= 256 ->
  is_tile_transparent tile =
    inr (10 * non_transparent_count (getdata tile) <? width tile * height tile).
Proof.
  intros Hw Hh Hsz.
  pose proof (length_getdata tile ltac:(lia) ltac:(lia)) as Hlen.
  pose proof (non_transparent_count_bounds (getdata tile)) as Hc.
  pose proof (forallb_range _ _ _ ratio_table (width tile * height tile) ltac:(nia)) as Ht.
  simpl in Ht. rewrite <- Hlen in Ht |- *.
  pose proof (forallb_range _ _ _ Ht (non_transparent_count (getdata tile)) ltac:(lia)) as Hr.
  unfold ratio_agrees, is_tile_transparent in *.
  destruct (py_truediv _ _); [discriminate|].
  by apply Bool.eqb_prop in Hr as ->.
Qed.

(** Writing a list of files into the temporary directory, in order. *)
Definition ws_save_all (w : workspace) (kvs : list (string * image)) : workspace :=
  mkWorkspace (insert_all (temp_dir w) kvs) (errors w).

Lemma ws_save_all_app w l1 l2 : ws_save_all (ws_save_all w l1) l2 = ws_save_all w (l1 ++ l2).
Proof. unfold ws_save_all. simpl. by rewrite insert_all_app. Qed.

(** A loop whose body saves the files [h x] and never raises saves the
    concatenation, in loop order. *)
Lemma py_for_saves {A} (xs : list A) (body : A -> PyM workspace unit)
    (h : A -> list (string * image)) w :
  (forall x w0, x ∈ xs -> body x w0 = (ws_save_all w0 (h x), inr tt)) ->
  py_for xs body w = (ws_save_all w (concat (map h xs)), inr tt).
Proof.
  intros Hb. rewrite (py_for_total xs body (fun x w0 => ws_save_all w0 (h x))) by done.
  f_equal. revert w. induction xs as [|x xs IH]; intros w.
  - by destruct w.
  - simpl. rewrite IH by (intros; apply Hb; set_solver). by rewrite ws_save_all_app.
Qed.

Lemma save_tile_run stem tile w :
  save_tile stem tile w = (ws_save_all w [(stem, tile)], inr tt).
Proof. reflexivity. Qed.

Lemma ret_tt_run w : @ret workspace unit tt w = (ws_save_all w [], inr tt).
Proof. by destruct w. Qed.

Lemma guard_sheet_ok path body w w' :
  body w = (w', inr tt) -> guard_sheet path body w = (w', inr tt).
Proof. intros H. unfold guard_sheet, try_except. by rewrite H. Qed.

(** The exact test on a grid tile, from the float one. *)
Lemma grid_tile_transparent img row col :
  is_tile_transparent (grid_tile img row col) =
    inr (10 * non_transparent_count (getdata (grid_tile img row col)) <? 256).
Proof.
  destruct (grid_tile_size img row col) as [Hw Hh].
  rewrite is_tile_transparent_ratio; rewrite ?Hw, ?Hh; done.
Qed.

#[export] Hint Resolve getpixel_crop getpixel_paste_in getpixel_paste_out : pyrun.


(** A 16 x 16 tile is kept when at least a tenth of its pixels are visible. *)
Definition tile_kept (tile : image) : bool :=
  256 <=? 10 * non_transparent_count (getdata tile).

Lemma grid_tile_transparent_kept img row col :
  is_tile_transparent (grid_tile img row col) = inr (negb (tile_kept (grid_tile img row col))).
Proof.
  rewrite grid_tile_transparent. unfold tile_kept. do 2 f_equal.
  destruct (Z.ltb_spec (10 * non_transparent_count (getdata (grid_tile img row col))) 256),
           (Z.leb_spec 256 (10 * non_transparent_count (getdata (grid_tile img row col)))); lia.
Qed.

(** C7: a 16 x 16 cell of a sheet is skipped ([is_tile_transparent] is
    true) exactly when at most 25 of its 256 pixels have a nonzero alpha,
    i.e. when fewer than 10% are visible: Python's float ratio test agrees
    with the exact one. *)
Theorem grid_tile_skipped_iff (img : image) (row col : Z) :
  is_tile_transparent (grid_tile img row col) =
    inr (non_transparent_count (getdata (grid_tile img row col)) <=? 25).
Proof.
  rewrite grid_tile_transparent. do 2 f_equal.
  apply Bool.eq_true_iff_eq. rewrite Z.ltb_lt, Z.leb_le. lia.
Qed.
