(* ===== verification/Atlas.v ===== *)
(** * AtlasPacker: atlas size, placement and coordinate map

    [calculate_optimal_atlas_size], [next_power_of_2], [create_debug_tile]
    and the placement loop of [create_atlas], as written in gen_world.py,
    gen_characters.py and gen_items.py. The three copies differ only in the
    sprite size and in the 256-pixel floor (characters and items have it,
    world does not): one definition takes these as an [atlas_config]. *)

From S2P Require Import Prelude Image.

(** ** Sizes *)

(** Python's [int.bit_length()]. *)
Definition bit_length (n : Z) : Z := if n =? 0 then 0 else Z.log2 (Z.abs n) + 1.

(** [def next_power_of_2(n): return 1 << (n - 1).bit_length()]. *)
Definition next_power_of_2 (n : Z) : Z := Z.shiftl 1 (bit_length (n - 1)).

Record atlas_config := {
  SPRITE_WIDTH : Z;
  SPRITE_HEIGHT : Z;
  MIN_ATLAS_SIZE : option Z
}.

Definition world_config : atlas_config :=
  {| SPRITE_WIDTH := 16; SPRITE_HEIGHT := 16; MIN_ATLAS_SIZE := None |}.
Definition characters_config : atlas_config :=
  {| SPRITE_WIDTH := 32; SPRITE_HEIGHT := 16; MIN_ATLAS_SIZE := Some 256 |}.
Definition items_config : atlas_config :=
  {| SPRITE_WIDTH := 16; SPRITE_HEIGHT := 16; MIN_ATLAS_SIZE := Some 256 |}.

Definition apply_min_size (cfg : atlas_config) (d : Z) : Z :=
  match MIN_ATLAS_SIZE cfg with Some m => Z.max d m | None => d end.

(** [calculate_optimal_atlas_size(num_sprites)]: [math.ceil(math.sqrt(n))]
    sprites per row and [math.ceil(n / sprites_per_row)] rows, computed in
    floats as Python does, each side rounded up to a power of two and, where
    the script has it, to at least [MIN_ATLAS_SIZE]. *)
Definition calculate_optimal_atlas_size (cfg : atlas_config) (num_sprites : Z)
  : exn + (Z * Z * Z) :=
  let? root := py_sqrt num_sprites in
  let? sprites_per_row := py_ceil root in
  let atlas_width := sprites_per_row * SPRITE_WIDTH cfg in
  let? q := py_truediv num_sprites sprites_per_row in
  let? rows := py_ceil q in
  let atlas_height := rows * SPRITE_HEIGHT cfg in
  let atlas_width := next_power_of_2 atlas_width in
  let atlas_height := next_power_of_2 atlas_height in
  inr (apply_min_size cfg atlas_width, apply_min_size cfg atlas_height, sprites_per_row).

(** The same layout in exact integer arithmetic. *)
Definition atlas_layout (cfg : atlas_config) (n : Z) : Z * Z * Z :=
  let spr := Z.sqrt_up n in
  (apply_min_size cfg (next_power_of_2 (spr * SPRITE_WIDTH cfg)),
   apply_min_size cfg (next_power_of_2 (cdiv n spr * SPRITE_HEIGHT cfg)),
   spr).

Definition float_layout_agrees (n : Z) : bool :=
  let spr := Z.sqrt_up n in
  match sbind (py_sqrt n) py_ceil, sbind (py_truediv n spr) py_ceil with
  | inr a, inr b => (a =? spr) && (b =? cdiv n spr)
  | _, _ => false
  end.

Lemma float_layout_table : forallb float_layout_agrees (range 1 16385) = true.
Proof. vm_compute. reflexivity. Qed.

(** ** Well-formed configurations *)

Definition is_pow2 (z : Z) : Prop := exists k, 0 <= k /\ z = 2 ^ k.

(** What the packer needs of a script's constants: positive sprite sizes and
    a floor, if any, that is itself a power of two. *)
Class ConfigOk (cfg : atlas_config) := {
  sprite_width_pos : 0 < SPRITE_WIDTH cfg;
  sprite_height_pos : 0 < SPRITE_HEIGHT cfg;
  min_size_pow2 : forall m, MIN_ATLAS_SIZE cfg = Some m -> is_pow2 m
}.

Lemma pow2_256 : is_pow2 256.
Proof. exists 8. split; [lia|reflexivity]. Qed.

#[export] Instance world_config_ok : ConfigOk world_config.
Proof. split; simpl; [lia|lia|discriminate]. Qed.
#[export] Instance characters_config_ok : ConfigOk characters_config.
Proof. split; simpl; [lia|lia|]. intros m [= <-]. apply pow2_256. Qed.
#[export] Instance items_config_ok : ConfigOk items_config.
Proof. split; simpl; [lia|lia|]. intros m [= <-]. apply pow2_256. Qed.

(** ** Lemmas on the integer layout *)

Lemma next_power_of_2_spec (n : Z) :
  1 <= n -> exists k, 0 <= k /\ next_power_of_2 n = 2 ^ k /\ n <= 2 ^ k < 2 * n.
Proof.
  intros Hn. unfold next_power_of_2, bit_length.
  destruct (Z.eqb_spec (n - 1) 0) as [E|E].
  - exists 0. rewrite Z.shiftl_1_l. split; [lia|split; [done|simpl; lia]].
  - exists (Z.log2 (n - 1) + 1). rewrite Z.shiftl_1_l, Z.abs_eq by lia.
    pose proof (Z.log2_spec (n - 1) ltac:(lia)) as [Hlo Hhi].
    pose proof (Z.log2_nonneg (n - 1)).
    rewrite Z.pow_add_r by lia. rewrite Z.pow_succ_r in Hhi by lia. lia.
Qed.

Lemma next_power_of_2_ge (n : Z) : 1 <= n -> n <= next_power_of_2 n.
Proof. intros Hn. destruct (next_power_of_2_spec n Hn) as (k & _ & -> & ? & _). lia. Qed.

Lemma apply_min_size_ge cfg d : d <= apply_min_size cfg d.
Proof. unfold apply_min_size. destruct (MIN_ATLAS_SIZE cfg); lia. Qed.

Lemma sqrt_up_pos (n : Z) : 1 <= n -> 1 <= Z.sqrt_up n.
Proof.
  intros Hn. pose proof (Z.sqrt_up_spec n ltac:(lia)). pose proof (Z.sqrt_up_nonneg n).
  destruct (decide (Z.sqrt_up n = 0)) as [E|]; [rewrite E in *; lia|lia].
Qed.

#[export] Hint Resolve next_power_of_2_ge apply_min_size_ge sqrt_up_pos : pyrun.

Section Layout.
Context (cfg : atlas_config) `{!ConfigOk cfg}.

Lemma apply_min_size_pow2 d : 1 <= d -> is_pow2 (apply_min_size cfg (next_power_of_2 d)).
Proof.
  intros Hd. destruct (next_power_of_2_spec d Hd) as (k & Hk & Hp & _).
  unfold apply_min_size. destruct (MIN_ATLAS_SIZE cfg) as [m|] eqn:Em.
  - destruct (min_size_pow2 m Em) as (j & Hj & ->). rewrite Hp.
    destruct (Z.le_ge_cases k j).
    + rewrite Z.max_r by (apply Z.pow_le_mono_r; lia). by exists j.
    + rewrite Z.max_l by (apply Z.pow_le_mono_r; lia). by exists k.
  - rewrite Hp. by exists k.
Qed.

(** [sprites_per_row * ceil(n / sprites_per_row) >= n]. *)
Lemma layout_capacity (n : Z) : 1 <= n -> n <= Z.sqrt_up n * cdiv n (Z.sqrt_up n).
Proof.
  intros Hn. pose proof (sqrt_up_pos n Hn).
  pose proof (cdiv_spec n (Z.sqrt_up n) ltac:(lia)). lia.
Qed.

Lemma cell_x_fits (n i : Z) : 1 <= n -> 0 <= i ->
  0 <= (i mod Z.sqrt_up n) * SPRITE_WIDTH cfg /\
  (i mod Z.sqrt_up n) * SPRITE_WIDTH cfg + SPRITE_WIDTH cfg <= Z.sqrt_up n * SPRITE_WIDTH cfg.
Proof.
  intros Hn Hi. pose proof sprite_width_pos. pose proof (sqrt_up_pos n Hn).
  pose proof (Z.mod_pos_bound i (Z.sqrt_up n) ltac:(lia)). nia.
Qed.

Lemma cell_y_fits (n i : Z) : 1 <= n -> 0 <= i < n ->
  0 <= (i / Z.sqrt_up n) * SPRITE_HEIGHT cfg /\
  (i / Z.sqrt_up n) * SPRITE_HEIGHT cfg + SPRITE_HEIGHT cfg
    <= cdiv n (Z.sqrt_up n) * SPRITE_HEIGHT cfg.
Proof.
  intros Hn Hi. pose proof sprite_height_pos. pose proof (sqrt_up_pos n Hn).
  pose proof (div_lt_cdiv i n (Z.sqrt_up n) ltac:(lia) Hi).
  pose proof (Z.div_pos i (Z.sqrt_up n) ltac:(lia) ltac:(lia)). nia.
Qed.
(** The cell of every index below [n] lies inside the atlas of [n] sprites. *)
Lemma layout_cell_inside (n i : Z) : 1 <= n -> 0 <= i < n ->
  0 <= (i mod Z.sqrt_up n) * SPRITE_WIDTH cfg /\
  (i mod Z.sqrt_up n) * SPRITE_WIDTH cfg + SPRITE_WIDTH cfg
    <= apply_min_size cfg (next_power_of_2 (Z.sqrt_up n * SPRITE_WIDTH cfg)) /\
  0 <= (i / Z.sqrt_up n) * SPRITE_HEIGHT cfg /\
  (i / Z.sqrt_up n) * SPRITE_HEIGHT cfg + SPRITE_HEIGHT cfg
    <= apply_min_size cfg (next_power_of_2 (cdiv n (Z.sqrt_up n) * SPRITE_HEIGHT cfg)).
Proof.
  intros Hn Hi. pose proof sprite_width_pos. pose proof sprite_height_pos.
  pose proof (sqrt_up_pos n Hn). pose proof (cdiv_pos n (Z.sqrt_up n) ltac:(lia) ltac:(lia)).
  pose proof (cell_x_fits n i Hn ltac:(lia)). pose proof (cell_y_fits n i Hn Hi).
  pose proof (next_power_of_2_ge (Z.sqrt_up n * SPRITE_WIDTH cfg) ltac:(nia)).
  pose proof (next_power_of_2_ge (cdiv n (Z.sqrt_up n) * SPRITE_HEIGHT cfg) ltac:(nia)).
  pose proof (apply_min_size_ge cfg (next_power_of_2 (Z.sqrt_up n * SPRITE_WIDTH cfg))).
  pose proof (apply_min_size_ge cfg (next_power_of_2 (cdiv n (Z.sqrt_up n) * SPRITE_HEIGHT cfg))).
  lia.
Qed.
End Layout.

(** ** Theorems *)

(** The float computation of [calculate_optimal_atlas_size] is the exact
    integer layout for every sprite count the scripts can reach. *)
Lemma calculate_optimal_atlas_size_layout cfg (n : Z) :
  1 <= n <= 16384 -> calculate_optimal_atlas_size cfg n = inr (atlas_layout cfg n).
Proof.
  intros Hn. pose proof (forallb_range _ _ _ float_layout_table n ltac:(lia)) as Ht.
  unfold float_layout_agrees in Ht. unfold calculate_optimal_atlas_size, atlas_layout.
  destruct (sbind (py_sqrt n) py_ceil) as [|a] eqn:E1; [discriminate|].
  destruct (sbind (py_truediv n (Z.sqrt_up n)) py_ceil) as [|b] eqn:E2; [discriminate|].
  apply andb_true_iff in Ht as [Ha%Z.eqb_eq Hb%Z.eqb_eq]. subst a b.
  destruct (py_sqrt n); [discriminate|]. simpl in E1 |- *. rewrite E1. simpl.
  destruct (py_truediv n (Z.sqrt_up n)); [discriminate|]. simpl in E2 |- *. by rewrite E2.
Qed.

(** C18: for 1 to 16384 sprites, the size computed with Python floats
    ([math.ceil(math.sqrt(n))], [math.ceil(n / sprites_per_row)]) is the
    exact integer one: [ceil(sqrt n)] sprites per row, [ceil(n / per_row)]
    rows. *)
Theorem calculate_optimal_atlas_size_exact cfg (n : Z) :
  1 <= n <= 16384 ->
  calculate_optimal_atlas_size cfg n =
    inr (apply_min_size cfg (next_power_of_2 (Z.sqrt_up n * SPRITE_WIDTH cfg)),
         apply_min_size cfg (next_power_of_2 (cdiv n (Z.sqrt_up n) * SPRITE_HEIGHT cfg)),
         Z.sqrt_up n).
Proof. intros Hn. by rewrite calculate_optimal_atlas_size_layout. Qed.

Lemma calculate_optimal_atlas_size_exact_witness :
  (1 <= 11 <= 16384) /\
  calculate_optimal_atlas_size world_config 11 =
    inr (apply_min_size world_config (next_power_of_2 (Z.sqrt_up 11 * 16)),
         apply_min_size world_config (next_power_of_2 (cdiv 11 (Z.sqrt_up 11) * 16)),
         Z.sqrt_up 11).
Proof. split; [lia|]. apply (calculate_optimal_atlas_size_exact world_config 11). lia. Defined.

(** C20: the atlas returned for 1 to 16384 sprites has power-of-two sides,
    and each side is at least the floor of the scripts that have one. *)
Theorem atlas_size_pow2 cfg `{!ConfigOk cfg} (n : Z) :
  1 <= n <= 16384 ->
  exists w h spr, calculate_optimal_atlas_size cfg n = inr (w, h, spr) /\
    is_pow2 w /\ is_pow2 h /\
    (forall m, MIN_ATLAS_SIZE cfg = Some m -> m <= w /\ m <= h).
Proof.
  intros Hn. rewrite calculate_optimal_atlas_size_layout by lia. unfold atlas_layout.
  pose proof sprite_width_pos. pose proof sprite_height_pos. pose proof (sqrt_up_pos n ltac:(lia)).
  pose proof (cdiv_pos n (Z.sqrt_up n) ltac:(lia) ltac:(lia)).
  eexists _, _, _. split; [reflexivity|].
  split; [apply (apply_min_size_pow2 cfg); nia|]. split; [apply (apply_min_size_pow2 cfg); nia|].
  intros m Hm. unfold apply_min_size. rewrite Hm. lia.
Qed.

Lemma atlas_size_pow2_witness :
  (1 <= 11 <= 16384) /\
  exists w h spr, calculate_optimal_atlas_size items_config 11 = inr (w, h, spr) /\
    is_pow2 w /\ is_pow2 h /\
    (forall m, MIN_ATLAS_SIZE items_config = Some m -> m <= w /\ m <= h).
Proof. split; [lia|]. apply (atlas_size_pow2 items_config 11). lia. Defined.

(** C19: with [spr] sprites per row, the cell of every index [i < n]
    ([x = (i % spr) * SPRITE_WIDTH], [y = (i // spr) * SPRITE_HEIGHT]) lies
    inside the atlas, and the rows hold all [n] sprites. *)
Theorem atlas_cells_inside cfg `{!ConfigOk cfg} (n w h spr : Z) :
  1 <= n <= 16384 ->
  calculate_optimal_atlas_size cfg n = inr (w, h, spr) ->
  n <= spr * cdiv n spr /\
  forall i, 0 <= i < n ->
    0 <= (i mod spr) * SPRITE_WIDTH cfg /\
    (i mod spr) * SPRITE_WIDTH cfg + SPRITE_WIDTH cfg <= w /\
    0 <= (i / spr) * SPRITE_HEIGHT cfg /\
    (i / spr) * SPRITE_HEIGHT cfg + SPRITE_HEIGHT cfg <= h.
Proof.
  intros Hn Hc. rewrite calculate_optimal_atlas_size_layout in Hc by lia.
  unfold atlas_layout in Hc. injection Hc as <- <- <-.
  split; [apply layout_capacity; lia|]. intros i Hi. apply (layout_cell_inside cfg); lia.
Qed.

Lemma atlas_cells_inside_witness :
  (1 <= 11 <= 16384) /\ calculate_optimal_atlas_size characters_config 11 = inr (256, 256, 4) /\
  (11 <= 4 * cdiv 11 4 /\
   forall i, 0 <= i < 11 ->
    0 <= (i mod 4) * 32 /\ (i mod 4) * 32 + 32 <= 256 /\
    0 <= (i / 4) * 16 /\ (i / 4) * 16 + 16 <= 256).
Proof.
  assert (Hc : calculate_optimal_atlas_size characters_config 11 = inr (256, 256, 4))
    by (vm_compute; reflexivity).
  split; [lia|]. split; [exact Hc|].
  exact (atlas_cells_inside characters_config 11 256 256 4 ltac:(lia) Hc).
Defined.

(** C21: [next_power_of_2 n] is the least power of two that is at least [n],
    for every [n >= 1]. *)
Theorem next_power_of_2_least (n : Z) :
  1 <= n ->
  is_pow2 (next_power_of_2 n) /\ n <= next_power_of_2 n /\
  forall q, is_pow2 q -> n <= q -> next_power_of_2 n <= q.
Proof.
  intros Hn. destruct (next_power_of_2_spec n Hn) as (k & Hk & Hp & Hlo & Hhi).
  rewrite Hp. split; [by exists k|]. split; [lia|].
  intros q (j & Hj & ->) Hq. destruct (Z.le_gt_cases k j) as [|Hlt].
  - apply Z.pow_le_mono_r; lia.
  - assert (2 ^ (j + 1) <= 2 ^ k) by (apply Z.pow_le_mono_r; lia).
    rewrite Z.pow_add_r in * by lia. lia.
Qed.

Lemma next_power_of_2_least_witness :
  (1 <= 48) /\
  (is_pow2 (next_power_of_2 48) /\ 48 <= next_power_of_2 48 /\
   forall q, is_pow2 q -> 48 <= q -> next_power_of_2 48 <= q).
Proof. split; [lia|]. apply next_power_of_2_least. lia. Defined.
