(* ===== verification/Pattern.v ===== *)
(** * PatternClassifier: wall and floor blocks of gen_world.py

    [get_pattern_map_for_tile_type] and [process_floor_wall_png]: a Floor or
    Wall sheet is cut, below its first three rows, into blocks of 7 x 3
    tiles; each kept tile of a block is named [f"{tile_type}-{block}-{tag}"]
    after its connectivity tag, and a tile whose position has no tag is
    dropped. The script holds the two tag tables twice (once in
    [get_pattern_map_for_tile_type], once inline in the block loop); both
    copies are modelled. *)

From S2P Require Import Prelude Image.

Abbreviation pattern_map := (gmap (Z * Z) string).

(** A Python dict display: later keys overwrite earlier ones. *)
Definition dict (kvs : list ((Z * Z) * string)) : pattern_map := insert_all ∅ kvs.

(** [get_pattern_map_for_tile_type(tile_type)], gen_world.py lines 77-103;
    keys are [(local_col, local_row)]. *)
Definition get_pattern_map_for_tile_type (tile_type : string) : pattern_map :=
  if String.eqb tile_type "wall" then
    dict [((0, 0), "se"); ((1, 0), "ew"); ((2, 0), "sw");
          ((3, 0), "lone"); ((4, 0), "sew");
          ((0, 1), "ns"); ((1, 1), "n");
          ((3, 1), "nse"); ((4, 1), "nsew"); ((5, 1), "nsw");
          ((0, 2), "ne"); ((2, 2), "nw");
          ((4, 2), "new")]
  else if String.eqb tile_type "floor" then
    dict [((0, 0), "se"); ((1, 0), "sew"); ((2, 0), "sw");
          ((3, 0), "s"); ((5, 0), "lone");
          ((0, 1), "nse"); ((1, 1), "nsew"); ((2, 1), "nsw"); ((3, 1), "ns");
          ((4, 1), "e"); ((5, 1), "ew"); ((6, 1), "w");
          ((0, 2), "ne"); ((1, 2), "new"); ((2, 2), "nw");
          ((3, 2), "n")]
  else ∅.

(** The inline assignment of [pattern_map] in the block loop, lines 251-274:
    for a tile type other than wall and floor the variable keeps the value
    it had before ([None] when it was never bound). *)
Definition block_pattern_map (tile_type : string) (prev : option pattern_map)
  : option pattern_map :=
  if String.eqb tile_type "wall" then
    Some (dict [((0, 0), "se"); ((1, 0), "ew"); ((2, 0), "sw");
                ((3, 0), "lone"); ((4, 0), "sew");
                ((0, 1), "ns"); ((1, 1), "n");
                ((3, 1), "nse"); ((4, 1), "nsew"); ((5, 1), "nsw");
                ((0, 2), "ne"); ((2, 2), "nw");
                ((4, 2), "new")])
  else if String.eqb tile_type "floor" then
    Some (dict [((0, 0), "se"); ((1, 0), "sew"); ((2, 0), "sw");
                ((3, 0), "s"); ((5, 0), "lone");
                ((0, 1), "nse"); ((1, 1), "nsew"); ((2, 1), "nsw"); ((3, 1), "ns");
                ((4, 1), "e"); ((5, 1), "ew"); ((6, 1), "w");
                ((0, 2), "ne"); ((1, 2), "new"); ((2, 2), "nw");
                ((3, 2), "n")])
  else prev.

(** [pattern_map.get((local_col, local_row), "unknown")]. *)
Definition pattern_at (pm : pattern_map) (local_col local_row : Z) : string :=
  default "unknown" (pm !! (local_col, local_row)).

Definition tag_is_known (pattern : string) : bool :=
  negb (String.eqb pattern "unknown") && negb (String.eqb pattern "none").

(** [f"{tile_type}-{block_idx + 1}-{pattern}"]. *)
Definition block_tile_name (tile_type : string) (block_idx : Z) (pattern : string) : string :=
  tile_type +:+ "-" +:+ pretty (block_idx + 1) +:+ "-" +:+ pattern.

(** The positions of a block in loop order: [for local_row in range(3):
    for local_col in range(7)]. *)
Definition block_positions : list (Z * Z) :=
  concat (map (fun r => map (fun c => (r, c)) (range 0 7)) (range 0 3)).

Definition SET_THIS_TO_FALSE_TO_GET_ALL_TILES : bool := true.

(** Lines 210-224: whether some tagged tile name of the block is used. *)
Definition block_used (tile_type : string) (used : gset string) (block_idx : Z) : bool :=
  let pm := get_pattern_map_for_tile_type tile_type in
  existsb (fun '(r, c) =>
             let pattern := pattern_at pm c r in
             tag_is_known pattern &&
             bool_decide (block_tile_name tile_type block_idx pattern ∈ used))
          block_positions.

(** Lines 207-231: the blocks to process. *)
Definition blocks_to_process (tile_type : string) (used : option (gset string)) (total_blocks : Z)
  : list Z :=
  match used with
  | Some u => List.filter (block_used tile_type u) (range 0 total_blocks)
  | None => if SET_THIS_TO_FALSE_TO_GET_ALL_TILES then range 0 (Z.min 7 total_blocks)
            else range 0 total_blocks
  end.

(** The value of the local [pattern_map] after the selection loop: bound by
    line 213 only when that loop ran at least once. *)
Definition selection_pattern_map (tile_type : string) (used : option (gset string))
  (total_blocks : Z) : option pattern_map :=
  match used with
  | Some _ => if 0 <? total_blocks then Some (get_pattern_map_for_tile_type tile_type) else None
  | None => None
  end.

(** One tile of a block, lines 279-314. *)
Definition process_block_tile (img : image) (rows cols : Z) (tile_type : string)
  (pm : option pattern_map) (block_idx block_row block_col : Z) (pos : Z * Z)
  : PyM workspace unit :=
  let '(local_row, local_col) := pos in
  let abs_row := block_row + local_row in
  let abs_col := block_col + local_col in
  if (rows <=? abs_row) || (cols <=? abs_col) then ret tt else
  let tile := grid_tile img abs_row abs_col in
  skip <- lift (is_tile_transparent tile) ;;
  if skip then ret tt else
  match pm with
  | None => raise (NameError "pattern_map")
  | Some pm =>
      let pattern := pattern_at pm local_col local_row in
      if String.eqb pattern "none" || String.eqb pattern "unknown" then ret tt
      else save_tile (block_tile_name tile_type block_idx pattern) tile
  end.

(** One block, lines 238-314. *)
Definition process_block (img : image) (rows cols blocks_per_row start_row : Z)
  (tile_type : string) (prev : option pattern_map) (block_idx : Z) : PyM workspace unit :=
  q <- lift (py_floordiv block_idx blocks_per_row) ;;
  r <- lift (py_mod block_idx blocks_per_row) ;;
  let block_row := q * 3 + start_row in
  let block_col := r * 7 in
  let pm := block_pattern_map tile_type prev in
  py_for block_positions
    (process_block_tile img rows cols tile_type pm block_idx block_row block_col).

(** [process_floor_wall_png(png_path, temp_dir, tile_type, used_tile_names)],
    lines 181-319. *)
Definition process_floor_wall_png (png_path : string) (src : source) (tile_type : string)
  (used : option (gset string)) : PyM workspace unit :=
  guard_sheet png_path (
    img <- lift (image_open png_path src) ;;
    let cols := width img / TILE_SIZE in
    let rows := height img / TILE_SIZE in
    let start_row := 3 in
    let available_rows := rows - start_row in
    let blocks_per_row := cols / 7 in
    let total_blocks := (available_rows / 3) * blocks_per_row in
    py_for (blocks_to_process tile_type used total_blocks)
      (process_block img rows cols blocks_per_row start_row tile_type
         (selection_pattern_map tile_type used total_blocks))).

(** ** The tiles a sheet yields, as a comprehension *)

(** The tile saved for position [(r, c)] of block [b], if any. *)
Definition block_entry (img : image) (tile_type : string) (blocks_per_row b : Z)
  (pos : Z * Z) : option (string * image) :=
  let '(r, c) := pos in
  let tile := grid_tile img ((b / blocks_per_row) * 3 + 3 + r) ((b mod blocks_per_row) * 7 + c) in
  let pattern := pattern_at (get_pattern_map_for_tile_type tile_type) c r in
  if tile_kept tile && tag_is_known pattern
  then Some (block_tile_name tile_type b pattern, tile) else None.

(** The saved tiles of block [b], in loop order. *)
Definition block_entries (img : image) (tile_type : string) (blocks_per_row b : Z)
  : list (string * image) :=
  omap (block_entry img tile_type blocks_per_row b) block_positions.

Definition sheet_blocks_per_row (img : image) : Z := (width img / TILE_SIZE) / 7.
Definition sheet_total_blocks (img : image) : Z :=
  ((height img / TILE_SIZE - 3) / 3) * sheet_blocks_per_row img.

Definition floor_wall_entries (img : image) (tile_type : string) (used : option (gset string))
  : list (string * image) :=
  concat (map (block_entries img tile_type (sheet_blocks_per_row img))
              (blocks_to_process tile_type used (sheet_total_blocks img))).

(** ** Lemmas *)

Definition wall_or_floor (tile_type : string) : Prop :=
  tile_type = "wall" \/ tile_type = "floor".

Lemma block_pattern_map_wall_or_floor tile_type prev :
  wall_or_floor tile_type ->
  block_pattern_map tile_type prev = Some (get_pattern_map_for_tile_type tile_type).
Proof. by intros [-> | ->]. Qed.

Lemma blocks_to_process_range tile_type used total b :
  b ∈ blocks_to_process tile_type used total -> 0 <= b < total.
Proof.
  unfold blocks_to_process. destruct used as [u|].
  - rewrite list_elem_of_In, filter_In, <- list_elem_of_In, elem_of_range. tauto.
  - simpl. rewrite elem_of_range. lia.
Qed.

(** Every cell of a block below [total_blocks] lies inside the grid. *)
Lemma block_cell_in_grid (rows cols b r c : Z) :
  0 <= rows -> 0 <= cols -> 0 <= b < ((rows - 3) / 3) * (cols / 7) ->
  0 <= r < 3 -> 0 <= c < 7 ->
  0 <= (b / (cols / 7)) * 3 + 3 + r < rows /\ 0 <= (b mod (cols / 7)) * 7 + c < cols.
Proof.
  intros Hr Hc Hb Hlr Hlc.
  assert (HB : 0 < cols / 7).
  { pose proof (Z.div_pos cols 7 Hc ltac:(lia)).
    destruct (Z.eq_dec (cols / 7) 0) as [E|]; [rewrite E, Z.mul_0_r in Hb; lia|lia]. }
  assert (HG : 0 < (rows - 3) / 3) by nia.
  pose proof (Z.div_lt_upper_bound b (cols / 7) ((rows - 3) / 3) HB ltac:(nia)).
  pose proof (Z.div_pos b (cols / 7) ltac:(lia) HB).
  pose proof (Z.mod_pos_bound b (cols / 7) HB).
  pose proof (Z.mul_div_le (rows - 3) 3 ltac:(lia)).
  pose proof (Z.mul_div_le cols 7 ltac:(lia)).
  split; lia.
Qed.

Lemma elem_of_block_positions r c : (r, c) ∈ block_positions -> 0 <= r < 3 /\ 0 <= c < 7.
Proof.
  unfold block_positions. intros H. apply list_elem_of_In, in_concat in H as (l & Hl & Hx).
  apply in_map_iff in Hl as (r' & <- & Hr'). apply in_map_iff in Hx as (c' & [= <- <-] & Hc').
  apply list_elem_of_In, elem_of_range in Hr', Hc'. lia.
Qed.

Section Run.
Context (img : image) (tile_type : string).
Hypothesis Hwf : wall_or_floor tile_type.
Hypothesis Hw : 0 <= width img.
Hypothesis Hh : 0 <= height img.

Lemma process_block_tile_run b pos w :
  0 <= b < sheet_total_blocks img -> pos ∈ block_positions ->
  process_block_tile img (height img / TILE_SIZE) (width img / TILE_SIZE) tile_type
    (Some (get_pattern_map_for_tile_type tile_type)) b
    ((b / sheet_blocks_per_row img) * 3 + 3) ((b mod sheet_blocks_per_row img) * 7) pos w
  = (ws_save_all w (option_list (block_entry img tile_type (sheet_blocks_per_row img) b pos)),
     inr tt).
Proof.
  intros Hb Hpos. destruct pos as [r c]. apply elem_of_block_positions in Hpos.
  unfold sheet_total_blocks, sheet_blocks_per_row in *.
  pose proof (block_cell_in_grid (height img / TILE_SIZE) (width img / TILE_SIZE) b r c
                ltac:(apply Z.div_pos; unfold TILE_SIZE; lia)
                ltac:(apply Z.div_pos; unfold TILE_SIZE; lia) Hb ltac:(lia) ltac:(lia)).
  unfold process_block_tile, block_entry.
  replace ((_ <=? _) || (_ <=? _)) with false by (symmetry; apply orb_false_iff; lia).
  rewrite run_bind. unfold lift. rewrite grid_tile_transparent.
  unfold tile_kept. destruct (Z.ltb_spec (10 * non_transparent_count
    (getdata (grid_tile img ((b / (width img / TILE_SIZE / 7)) * 3 + 3 + r)
                ((b mod (width img / TILE_SIZE / 7)) * 7 + c)))) 256).
  - rewrite (proj2 (Z.leb_gt _ _)) by lia. apply ret_tt_run.
  - rewrite (proj2 (Z.leb_le _ _)) by lia. simpl andb.
    unfold tag_is_known. set (p := pattern_at _ c r).
    destruct (String.eqb p "none"), (String.eqb p "unknown"); simpl;
      [apply ret_tt_run..|apply save_tile_run].
Qed.

Lemma sheet_blocks_per_row_pos b :
  0 <= b < sheet_total_blocks img -> 0 < sheet_blocks_per_row img.
Proof.
  intros Hb. unfold sheet_total_blocks, sheet_blocks_per_row in *.
  pose proof (Z.div_pos (width img / TILE_SIZE) 7 ltac:(apply Z.div_pos; unfold TILE_SIZE; lia) ltac:(lia)).
  destruct (Z.eq_dec (width img / TILE_SIZE / 7) 0) as [E|]; [rewrite E, Z.mul_0_r in Hb|]; lia.
Qed.

Lemma process_block_run prev b w :
  0 <= b < sheet_total_blocks img ->
  process_block img (height img / TILE_SIZE) (width img / TILE_SIZE)
    (sheet_blocks_per_row img) 3 tile_type prev b w
  = (ws_save_all w (block_entries img tile_type (sheet_blocks_per_row img) b), inr tt).
Proof.
  intros Hb. pose proof (sheet_blocks_per_row_pos b Hb) as Hpos.
  unfold process_block, py_floordiv, py_mod.
  rewrite (proj2 (Z.eqb_neq _ 0)) by lia. cbn [bind lift].
  rewrite block_pattern_map_wall_or_floor by done.
  unfold block_entries. rewrite omap_concat_map.
  apply py_for_saves. intros pos w0 Hp. by apply process_block_tile_run.
Qed.

Lemma process_floor_wall_png_run path used w :
  process_floor_wall_png path (Png img) tile_type used w
  = (ws_save_all w (floor_wall_entries img tile_type used), inr tt).
Proof.
  unfold process_floor_wall_png. apply guard_sheet_ok. cbn [bind lift image_open].
  apply py_for_saves. intros b w0 Hb%blocks_to_process_range. by apply process_block_run.
Qed.
End Run.

Lemma elem_of_floor_wall_entries img tile_type used kv :
  kv ∈ floor_wall_entries img tile_type used <->
  exists b pos, b ∈ blocks_to_process tile_type used (sheet_total_blocks img) /\
    pos ∈ block_positions /\ block_entry img tile_type (sheet_blocks_per_row img) b pos = Some kv.
Proof.
  unfold floor_wall_entries, block_entries. rewrite list_elem_of_In, in_concat. split.
  - intros (l & Hl & Hkv). apply in_map_iff in Hl as (b & <- & Hb).
    apply list_elem_of_In, list_elem_of_omap in Hkv as (pos & Hpos & Hentry).
    exists b, pos. rewrite list_elem_of_In. auto.
  - intros (b & pos & Hb & Hpos & Hentry). eexists. split.
    + apply in_map_iff. exists b. split; [reflexivity|]. by apply list_elem_of_In.
    + apply list_elem_of_In, list_elem_of_omap. eauto.
Qed.

Lemma block_entry_Some img tile_type bpr b r c kv :
  block_entry img tile_type bpr b (r, c) = Some kv ->
  let tile := grid_tile img ((b / bpr) * 3 + 3 + r) ((b mod bpr) * 7 + c) in
  let pattern := pattern_at (get_pattern_map_for_tile_type tile_type) c r in
  kv = (block_tile_name tile_type b pattern, tile) /\
  tile_kept tile = true /\ tag_is_known pattern = true.
Proof.
  unfold block_entry. intros H.
  destruct (tile_kept _) eqn:E1, (tag_is_known _) eqn:E2; simpl in H; try discriminate.
  injection H as <-. auto.
Qed.

(** ** Theorems *)

(** C1: for a readable Wall or Floor sheet, [process_floor_wall_png] writes
    into the temporary directory exactly the list comprehension
    [floor_wall_entries]: for each selected block in order, for each
    position of the 7 x 3 block in row-major order, the tile named
    [f"{tile_type}-{block+1}-{tag}"] when it is kept and its position has a
    tag; it raises nothing and reports no error. *)
Theorem process_floor_wall_png_refines (img : image) (tile_type path : string)
    (used : option (gset string)) (w : workspace) :
  wall_or_floor tile_type -> 0 <= width img -> 0 <= height img ->
  process_floor_wall_png path (Png img) tile_type used w
  = (ws_save_all w (floor_wall_entries img tile_type used), inr tt).
Proof. intros. by apply process_floor_wall_png_run. Qed.

Definition opaque_sheet (w h : Z) : image := image_new w h (mkPixel 10 10 10 255).

Lemma process_floor_wall_png_refines_witness :
  (wall_or_floor "wall" /\ 0 <= width (opaque_sheet 112 96) /\ 0 <= height (opaque_sheet 112 96)) /\
  process_floor_wall_png "Wall.png" (Png (opaque_sheet 112 96)) "wall" None (mkWorkspace ∅ [])
  = (ws_save_all (mkWorkspace ∅ []) (floor_wall_entries (opaque_sheet 112 96) "wall" None), inr tt).
Proof.
  split; [split; [left; reflexivity|simpl; lia]|].
  apply process_floor_wall_png_refines; [left; reflexivity|simpl; lia..].
Defined.

(** C2: every file the Wall/Floor pass adds is a 16 x 16 cell lying inside
    the sheet, below its first three rows, at position [(r, c)] of a
    processed block [b]; at least a tenth of its pixels are visible; and it
    is named [f"{tile_type}-{b+1}-{tag}"] after the tag of its position,
    never ["unknown"]. Files already in the directory are kept. *)
Theorem floor_wall_saved_tiles (img : image) (tile_type path : string)
    (used : option (gset string)) (w : workspace) (name : string) (tile : image) :
  wall_or_floor tile_type -> 0 <= width img -> 0 <= height img ->
  temp_dir (process_floor_wall_png path (Png img) tile_type used w).1 !! name = Some tile ->
  temp_dir w !! name = Some tile \/
  exists b r c,
    let row := (b / sheet_blocks_per_row img) * 3 + 3 + r in
    let col := (b mod sheet_blocks_per_row img) * 7 + c in
    let pattern := pattern_at (get_pattern_map_for_tile_type tile_type) c r in
    b ∈ blocks_to_process tile_type used (sheet_total_blocks img) /\
    0 <= r < 3 /\ 0 <= c < 7 /\
    3 <= row < height img / TILE_SIZE /\ 0 <= col < width img / TILE_SIZE /\
    tile = grid_tile img row col /\ tile_kept tile = true /\
    name = block_tile_name tile_type b pattern /\ pattern <> "unknown".
Proof.
  intros Hwf Hw Hh H. rewrite process_floor_wall_png_run in H by done. simpl in H.
  apply lookup_insert_all_Some in H as [Hin|[_ Hold]]; [right|by left].
  apply elem_of_floor_wall_entries in Hin as (b & [r c] & Hb & Hpos & He).
  apply block_entry_Some in He as ([= -> ->] & Hkept & Hknown).
  apply elem_of_block_positions in Hpos. pose proof (blocks_to_process_range _ _ _ _ Hb).
  pose proof (sheet_blocks_per_row_pos img Hw b ltac:(lia)).
  unfold sheet_total_blocks, sheet_blocks_per_row in *.
  pose proof (block_cell_in_grid (height img / TILE_SIZE) (width img / TILE_SIZE) b r c
    ltac:(apply Z.div_pos; unfold TILE_SIZE; lia) ltac:(apply Z.div_pos; unfold TILE_SIZE; lia)
    ltac:(lia) ltac:(lia) ltac:(lia)).
  pose proof (Z.div_pos b (width img / TILE_SIZE / 7) ltac:(lia) ltac:(lia)).
  exists b, r, c. repeat split; try lia; try done.
  unfold tag_is_known in Hknown. intros Hu. rewrite Hu in Hknown. discriminate.
Qed.

Lemma floor_wall_saved_tiles_witness :
  (wall_or_floor "floor" /\ 0 <= width (opaque_sheet 112 96) /\ 0 <= height (opaque_sheet 112 96) /\
   temp_dir (process_floor_wall_png "Floor.png" (Png (opaque_sheet 112 96)) "floor" None
               (mkWorkspace ∅ [])).1 !! "floor-1-nsew" = Some (grid_tile (opaque_sheet 112 96) 4 1)) /\
  (temp_dir (mkWorkspace ∅ []) !! "floor-1-nsew" = Some (grid_tile (opaque_sheet 112 96) 4 1) \/
   exists b r c,
    let row := (b / sheet_blocks_per_row (opaque_sheet 112 96)) * 3 + 3 + r in
    let col := (b mod sheet_blocks_per_row (opaque_sheet 112 96)) * 7 + c in
    let pattern := pattern_at (get_pattern_map_for_tile_type "floor") c r in
    b ∈ blocks_to_process "floor" None (sheet_total_blocks (opaque_sheet 112 96)) /\
    0 <= r < 3 /\ 0 <= c < 7 /\
    3 <= row < height (opaque_sheet 112 96) / TILE_SIZE /\
    0 <= col < width (opaque_sheet 112 96) / TILE_SIZE /\
    grid_tile (opaque_sheet 112 96) 4 1 = grid_tile (opaque_sheet 112 96) row col /\
    tile_kept (grid_tile (opaque_sheet 112 96) 4 1) = true /\
    "floor-1-nsew" = block_tile_name "floor" b pattern /\ pattern <> "unknown").
Proof.
  assert (Hrun : temp_dir (process_floor_wall_png "Floor.png" (Png (opaque_sheet 112 96)) "floor" None
               (mkWorkspace ∅ [])).1 !! "floor-1-nsew" = Some (grid_tile (opaque_sheet 112 96) 4 1)).
  { rewrite process_floor_wall_png_run by first [right; reflexivity | simpl; lia]. vm_compute. reflexivity. }
  split; [split; [right; reflexivity|split; [simpl; lia|split; [simpl; lia|exact Hrun]]]|].
  exact (floor_wall_saved_tiles (opaque_sheet 112 96) "floor" "Floor.png" None (mkWorkspace ∅ [])
           "floor-1-nsew" _ ltac:(right; reflexivity) ltac:(simpl; lia) ltac:(simpl; lia) Hrun).
Defined.

(** A block is processed under a used-name set [u] exactly when it is one
    of the sheet's blocks and one of its tagged names is in [u]. *)
Lemma elem_of_blocks_to_process_used (tile_type : string) (u : gset string) (total b : Z) :
  b ∈ blocks_to_process tile_type (Some u) total <->
  0 <= b < total /\
  exists r c, (r, c) ∈ block_positions /\
    tag_is_known (pattern_at (get_pattern_map_for_tile_type tile_type) c r) = true /\
    block_tile_name tile_type b (pattern_at (get_pattern_map_for_tile_type tile_type) c r) ∈ u.
Proof.
  unfold blocks_to_process, block_used.
  rewrite list_elem_of_In, filter_In, <- list_elem_of_In, elem_of_range, existsb_exists.
  split.
  - intros [Hb ([r c] & Hpos & Hk)]. apply andb_true_iff in Hk as [Hk Hu].
    split; [done|]. exists r, c. rewrite list_elem_of_In. split; [done|].
    split; [done|]. by apply bool_decide_eq_true in Hu.
  - intros [Hb (r & c & Hpos & Hk & Hu)]. split; [done|].
    exists (r, c). rewrite <- list_elem_of_In. split; [done|].
    apply andb_true_iff. split; [done|]. by apply bool_decide_eq_true.
Qed.

Lemma sheet_total_blocks_short img :
  0 <= width img -> height img < 6 * TILE_SIZE -> sheet_total_blocks img <= 0.
Proof.
  intros Hw Hh. unfold sheet_total_blocks, sheet_blocks_per_row, TILE_SIZE in *.
  pose proof (Z.div_pos (width img / 16) 7 ltac:(apply Z.div_pos; lia) ltac:(lia)).
  assert (height img / 16 < 6) by (apply Z.div_lt_upper_bound; lia).
  assert ((height img / 16 - 3) / 3 < 1) by (apply Z.div_lt_upper_bound; lia).
  apply Z.mul_nonpos_nonneg; lia.
Qed.

(** C35: a Wall or Floor sheet with fewer than six rows of tiles yields no
    tile at all, whatever its pixels: the script skips its first three
    rows as reserved ([start_row = 3]) and cuts only whole 3-row blocks
    below them. The 112 x 48 Wall sheet of the example in the
    specification (section 8), said there to yield the 13 names of block
    1, is such a sheet. *)
Theorem floor_wall_short_sheet_empty (img : image) (tile_type path : string)
    (used : option (gset string)) (w : workspace) :
  wall_or_floor tile_type -> 0 <= width img -> 0 <= height img -> height img < 6 * TILE_SIZE ->
  process_floor_wall_png path (Png img) tile_type used w = (w, inr tt).
Proof.
  intros Hwf Hw Hh Hshort. rewrite process_floor_wall_png_run by done.
  pose proof (sheet_total_blocks_short img Hw Hshort).
  unfold floor_wall_entries.
  destruct (blocks_to_process tile_type used (sheet_total_blocks img)) as [|b bs] eqn:E.
  - by destruct w.
  - assert (Hin : b ∈ blocks_to_process tile_type used (sheet_total_blocks img))
      by (rewrite E; left).
    apply blocks_to_process_range in Hin. lia.
Qed.

Lemma floor_wall_short_sheet_empty_witness :
  (wall_or_floor "wall" /\ 0 <= width (opaque_sheet 112 48) /\ 0 <= height (opaque_sheet 112 48) /\
   height (opaque_sheet 112 48) < 6 * TILE_SIZE) /\
  process_floor_wall_png "Wall.png" (Png (opaque_sheet 112 48)) "wall" None (mkWorkspace ∅ [])
  = (mkWorkspace ∅ [], inr tt).
Proof.
  split; [split; [left; reflexivity|unfold TILE_SIZE; simpl; lia]|].
  apply floor_wall_short_sheet_empty; [left; reflexivity|unfold TILE_SIZE; simpl; lia..].
Defined.

(** C33: once map_renderer.gd has been read ([used_tile_names] is a set
    [u]), a Wall/Floor tile whose name is in [u] is saved whenever its
    cell is kept, in any block of the sheet, the eighth and later ones
    included. The comment on [SET_THIS_TO_FALSE_TO_GET_ALL_TILES]
    (gen_world.py line 25) says the flag limits extraction to the first 7
    blocks; the code applies that limit only when there is no used-name
    set. *)
Theorem floor_wall_used_tile_saved (img : image) (tile_type path : string) (u : gset string)
    (w : workspace) (b r c : Z) :
  wall_or_floor tile_type -> 0 <= width img -> 0 <= height img ->
  0 <= b < sheet_total_blocks img -> (r, c) ∈ block_positions ->
  tag_is_known (pattern_at (get_pattern_map_for_tile_type tile_type) c r) = true ->
  block_tile_name tile_type b (pattern_at (get_pattern_map_for_tile_type tile_type) c r) ∈ u ->
  tile_kept (grid_tile img ((b / sheet_blocks_per_row img) * 3 + 3 + r)
                           ((b mod sheet_blocks_per_row img) * 7 + c)) = true ->
  block_tile_name tile_type b (pattern_at (get_pattern_map_for_tile_type tile_type) c r)
    ∈ dom (temp_dir (process_floor_wall_png path (Png img) tile_type (Some u) w).1).
Proof.
  intros Hwf Hw Hh Hb Hpos Hk Hu Hkept. rewrite process_floor_wall_png_run by done.
  simpl. rewrite dom_insert_all. apply elem_of_union_r, elem_of_list_to_set.
  apply (list_elem_of_fmap_2 fst _ (block_tile_name tile_type b
           (pattern_at (get_pattern_map_for_tile_type tile_type) c r),
           grid_tile img ((b / sheet_blocks_per_row img) * 3 + 3 + r)
             ((b mod sheet_blocks_per_row img) * 7 + c))).
  apply elem_of_floor_wall_entries. exists b, (r, c). split; [|split; [done|]].
  - apply elem_of_blocks_to_process_used. split; [done|]. eauto.
  - unfold block_entry. by rewrite Hkept, Hk.
Qed.

Lemma floor_wall_used_tile_saved_witness :
  (wall_or_floor "wall" /\ 0 <= width (opaque_sheet 112 432) /\ 0 <= height (opaque_sheet 112 432) /\
   0 <= 7 < sheet_total_blocks (opaque_sheet 112 432) /\ (0, 0) ∈ block_positions /\
   tag_is_known (pattern_at (get_pattern_map_for_tile_type "wall") 0 0) = true /\
   block_tile_name "wall" 7 (pattern_at (get_pattern_map_for_tile_type "wall") 0 0)
     ∈ ({["wall-8-se"]} : gset string) /\
   tile_kept (grid_tile (opaque_sheet 112 432) ((7 / sheet_blocks_per_row (opaque_sheet 112 432)) * 3 + 3 + 0)
                ((7 mod sheet_blocks_per_row (opaque_sheet 112 432)) * 7 + 0)) = true) /\
  block_tile_name "wall" 7 (pattern_at (get_pattern_map_for_tile_type "wall") 0 0)
    ∈ dom (temp_dir (process_floor_wall_png "Wall.png" (Png (opaque_sheet 112 432)) "wall"
                       (Some {["wall-8-se"]}) (mkWorkspace ∅ [])).1).
Proof.
  assert (Hpos : ((0, 0) : Z * Z) ∈ block_positions)
    by (apply list_elem_of_In; vm_compute; left; reflexivity).
  assert (Hu : block_tile_name "wall" 7 (pattern_at (get_pattern_map_for_tile_type "wall") 0 0)
                 ∈ ({["wall-8-se"]} : gset string)).
  { replace (block_tile_name _ _ _) with "wall-8-se" by (vm_compute; reflexivity). set_solver. }
  assert (Hb : 0 <= 7 < sheet_total_blocks (opaque_sheet 112 432)) by (split; [lia|vm_compute; reflexivity]).
  assert (Hk : tag_is_known (pattern_at (get_pattern_map_for_tile_type "wall") 0 0) = true)
    by (vm_compute; reflexivity).
  assert (Hkept : tile_kept (grid_tile (opaque_sheet 112 432)
            ((7 / sheet_blocks_per_row (opaque_sheet 112 432)) * 3 + 3 + 0)
            ((7 mod sheet_blocks_per_row (opaque_sheet 112 432)) * 7 + 0)) = true)
    by (vm_compute; reflexivity).
  split; [split; [left; reflexivity|]; split; [simpl; lia|]; split; [simpl; lia|];
          split; [exact Hb|]; split; [exact Hpos|]; split; [exact Hk|]; split; [exact Hu|exact Hkept]|].
  apply floor_wall_used_tile_saved;
    [left; reflexivity|simpl; lia|simpl; lia|exact Hb|exact Hpos|vm_compute; reflexivity|exact Hu|].
  vm_compute. reflexivity.
Defined.
