(* ===== verification/Packer.v ===== *)
(** * AtlasPacker: placement, coordinate map, watermark and [create_atlas]

    The placement loop of [create_atlas] (the same in the three scripts),
    [create_debug_tile], the watermark drawn into the bottom-right corner,
    the allow-list filter of gen_world.py and gen_items.py, and the atlas
    and metadata files each [create_atlas] writes. Glyph rendering is PIL's:
    it is an interface ([Font]) whose one law is that text is drawn inside
    its bounding box. *)

From S2P Require Import Prelude Image Atlas.

(** ** Sprites and the placement loop *)

(** [Image.new('RGBA', (SPRITE_WIDTH, SPRITE_HEIGHT), (255, 165, 0, 255))]. *)
Definition create_debug_tile (cfg : atlas_config) : image :=
  image_new (SPRITE_WIDTH cfg) (SPRITE_HEIGHT cfg) (mkPixel 255 165 0 255).

(** The cell of the [i]-th sprite: [x = (i % sprites_per_row) * SPRITE_WIDTH],
    [y = (i // sprites_per_row) * SPRITE_HEIGHT]. *)
Definition cell_of (cfg : atlas_config) (spr i : Z) : exn + (Z * Z) :=
  let? c := py_mod i spr in
  let? r := py_floordiv i spr in
  inr (c * SPRITE_WIDTH cfg, r * SPRITE_HEIGHT cfg).

(** [for i, (sprite_name, sprite_image) in enumerate(sprites): atlas.paste(
    sprite_image, (x, y)); coordinates[sprite_name] = [x, y]], from index [i]. *)
Fixpoint place_sprites (cfg : atlas_config) (spr i : Z) (sprites : list (string * image))
  (atlas : image) (coordinates : gmap string (Z * Z)) : exn + (image * gmap string (Z * Z)) :=
  match sprites with
  | [] => inr (atlas, coordinates)
  | (sprite_name, sprite_image) :: rest =>
      let? xy := cell_of cfg spr i in
      let '(x, y) := xy in
      place_sprites cfg spr (i + 1) rest (paste atlas sprite_image x y)
        (<[sprite_name := (x, y)]> coordinates)
  end.

(** Sizing the atlas, allocating the transparent canvas and placing the
    sprites, lines 550-564 of gen_world.py. *)
Definition pack (cfg : atlas_config) (sprites : list (string * image))
  : exn + (Z * Z * image * gmap string (Z * Z)) :=
  let? dims := calculate_optimal_atlas_size cfg (Z.of_nat (length sprites)) in
  let '(atlas_width, atlas_height, sprites_per_row) := dims in
  let atlas := image_new atlas_width atlas_height transparent in
  let? placed := place_sprites cfg sprites_per_row 0 sprites atlas ∅ in
  inr (atlas_width, atlas_height, placed.1, placed.2).

(** ** The watermark *)

Definition WATERMARK : string := "DawnLike tiles by DawnBringer".
Definition MARGIN : Z := 4.

(** What the scripts use of [ImageFont.load_default()] and [ImageDraw]:
    [draw.textbbox((0, 0), text)], which older PIL lacks (the scripts then
    fall back to [font.getsize]), and [draw.text]. *)
Class Font := {
  textbbox : string -> option (Z * Z * Z * Z);
  getsize : string -> Z * Z;
  draw_text : image -> Z -> Z -> string -> pixel -> image
}.

(** Its law: the text drawn at [(x, y)] keeps the image size and changes no
    pixel outside the text's box [x + left .. x + right) x [y + top .. y + bottom)
    (with [getsize]'s box [(0, 0, w, h)] where [textbbox] is missing). *)
Definition text_box `{Font} (text : string) : Z * Z * Z * Z :=
  match textbbox text with Some b => b | None => let '(w, h) := getsize text in (0, 0, w, h) end.

Class FontLaws `{Font} := {
  draw_text_size : forall img x y t c,
    width (draw_text img x y t c) = width img /\ height (draw_text img x y t c) = height img;
  draw_text_local : forall img x y t c i j,
    let '(l, tp, r, b) := text_box t in
    ~ (x + l <= i < x + r /\ y + tp <= j < y + b) ->
    getpixel (draw_text img x y t c) i j = getpixel img i j
}.

Section Watermark.
Context `{Font}.

(** Lines 567-584 of gen_world.py: the text size, its position
    [atlas_width - text_w - margin], a black outline drawn at the eight
    neighbouring offsets ([if dx or dy]), then the white text. *)
Definition text_size (text : string) : Z * Z :=
  match textbbox text with
  | Some (l, t, r, b) => (r - l, b - t)
  | None => getsize text
  end.

Definition watermark_position (atlas : image) (text : string) : Z * Z :=
  let '(text_w, text_h) := text_size text in
  (width atlas - text_w - MARGIN, height atlas - text_h - MARGIN).

Definition outline_offsets : list (Z * Z) :=
  concat (map (fun dx => omap (fun dy => if negb (dx =? 0) || negb (dy =? 0)
                                          then Some (dx, dy) else None) [-1; 0; 1])
              [-1; 0; 1]).

Definition add_watermark (atlas : image) (text : string) : image :=
  let '(x, y) := watermark_position atlas text in
  let outlined := fold_left (fun img '(dx, dy) =>
                    draw_text img (x + dx) (y + dy) text (mkPixel 0 0 0 255))
                    outline_offsets atlas in
  draw_text outlined x y text (mkPixel 255 255 255 255).
End Watermark.

(** ** Allow-list filters *)

(** The filter loop of [create_atlas]: a sprite is kept when [keep] holds of
    its name; the order is kept and nothing is renamed. *)
Definition filter_sprites (keep : string -> bool) (sprites : list (string * image))
  : list (string * image) :=
  List.filter (fun s => keep s.1) sprites.

(** gen_world.py line 539: [if used_tile_names is not None and sprite_name
    not in used_tile_names: continue]. *)
Definition world_keep (used_tile_names : option (gset string)) (sprite_name : string) : bool :=
  match used_tile_names with
  | None => true
  | Some u => bool_decide (sprite_name ∈ u)
  end.

Definition SET_THIS_TO_FALSE_TO_GET_ALL_ITEMS : bool := true.

(** gen_items.py line 203: [if SET_THIS_TO_FALSE_TO_GET_ALL_ITEMS and
    sprite_name not in allowed_sprite_names: continue]. *)
Definition items_keep (allowed_sprite_names : gset string) (sprite_name : string) : bool :=
  negb (SET_THIS_TO_FALSE_TO_GET_ALL_ITEMS && negb (bool_decide (sprite_name ∈ allowed_sprite_names))).

(** ** The files [create_atlas] writes *)

(** [json_data]: the sizing fields and the [name -> [x, y]] map. *)
Record atlas_metadata := mkMetadata {
  meta_sizes : list (string * Z);
  meta_sprites : gmap string (Z * Z)
}.

Inductive output_file := PngFile (img : image) | JsonFile (meta : atlas_metadata).

(** [OUTPUT_DIR], by file name; a write replaces the file. *)
Abbreviation output_dir := (gmap string output_file).

Definition write_output (name : string) (f : output_file) : PyM output_dir unit :=
  modify (fun o => <[name := f]> o).

Section CreateAtlas.
Context `{Font}.

(** [create_atlas(sprite_files, used_tile_names)] of gen_world.py, lines
    531-599; [sprite_files] are the sorted temporary files, by stem, with
    the image [Image.open(...).convert('RGBA')] reads back. *)
Definition create_atlas_world (sprite_files : list (string * image))
  (used_tile_names : option (gset string)) : PyM output_dir bool :=
  let filtered_sprite_files := filter_sprites (world_keep used_tile_names) sprite_files in
  let debug_tile := create_debug_tile world_config in
  write_output "debug.png" (PngFile debug_tile) ;;
  let filtered_sprite_files := filtered_sprite_files ++ [("debug", debug_tile)] in
  packed <- lift (pack world_config filtered_sprite_files) ;;
  let '(atlas_width, atlas_height, atlas, coordinates) := packed in
  let atlas := add_watermark atlas WATERMARK in
  write_output "world_tiles.png" (PngFile atlas) ;;
  write_output "world_tiles.json"
    (JsonFile (mkMetadata [("tileSize", SPRITE_WIDTH world_config)] coordinates)) ;;
  ret true.

(** [create_atlas(sprite_files)] of gen_items.py, lines 192-261; the allow
    list is [read_allowed_sprite_names_from_csv()], read first (it raises
    when items.csv is missing). *)
Definition create_atlas_items (sprite_files : list (string * image))
  (read_allowed : exn + gset string) : PyM output_dir bool :=
  allowed_sprite_names <- lift read_allowed ;;
  let filtered_sprite_files := filter_sprites (items_keep allowed_sprite_names) sprite_files in
  let debug_tile := create_debug_tile items_config in
  write_output "debug.png" (PngFile debug_tile) ;;
  let filtered_sprite_files := filtered_sprite_files ++ [("debug", debug_tile)] in
  packed <- lift (pack items_config filtered_sprite_files) ;;
  let '(atlas_width, atlas_height, atlas, coordinates) := packed in
  let atlas := add_watermark atlas WATERMARK in
  write_output "item_sprites.png" (PngFile atlas) ;;
  write_output "item_sprites.json"
    (JsonFile (mkMetadata [("spriteSize", SPRITE_WIDTH items_config)] coordinates)) ;;
  ret true.
End CreateAtlas.

(** ** Lemmas *)

(** The sprites of the loop with their cells, from index [i]. *)
Fixpoint placements (cfg : atlas_config) (spr i : Z) (l : list (string * image))
  : list (string * image * (Z * Z)) :=
  match l with
  | [] => []
  | (n, img) :: rest =>
      (n, img, ((i mod spr) * SPRITE_WIDTH cfg, (i / spr) * SPRITE_HEIGHT cfg))
        :: placements cfg spr (i + 1) rest
  end.

Definition paste_all (atlas : image) (ps : list (string * image * (Z * Z))) : image :=
  fold_left (fun a p => paste a p.1.2 p.2.1 p.2.2) ps atlas.

Definition coords_of (ps : list (string * image * (Z * Z))) : list (string * (Z * Z)) :=
  map (fun p => (p.1.1, p.2)) ps.

Definition covers (p : string * image * (Z * Z)) (i j : Z) : Prop :=
  p.2.1 <= i < p.2.1 + width p.1.2 /\ p.2.2 <= j < p.2.2 + height p.1.2.

Lemma cell_of_ok cfg spr i :
  spr <> 0 -> cell_of cfg spr i = inr ((i mod spr) * SPRITE_WIDTH cfg, (i / spr) * SPRITE_HEIGHT cfg).
Proof. intros. unfold cell_of, py_mod, py_floordiv. by rewrite (proj2 (Z.eqb_neq _ _)). Qed.

Lemma place_sprites_ok cfg spr i l atlas coords :
  spr <> 0 ->
  place_sprites cfg spr i l atlas coords =
    inr (paste_all atlas (placements cfg spr i l),
         insert_all coords (coords_of (placements cfg spr i l))).
Proof.
  intros Hspr. revert i atlas coords.
  induction l as [|[n img] l IH]; intros i atlas coords; [done|].
  simpl. rewrite cell_of_ok by done. apply IH.
Qed.

Lemma placements_app cfg spr i l1 l2 :
  placements cfg spr i (l1 ++ l2) =
    placements cfg spr i l1 ++ placements cfg spr (i + Z.of_nat (length l1)) l2.
Proof.
  revert i. induction l1 as [|[n img] l1 IH]; intros i; simpl.
  - by rewrite Z.add_0_r.
  - rewrite IH. do 3 f_equal. lia.
Qed.

Lemma coords_of_placements_names cfg spr i l : (coords_of (placements cfg spr i l)).*1 = l.*1.
Proof. revert i. induction l as [|[n img] l IH]; intros i; simpl; [done|]. by rewrite IH. Qed.

Lemma elem_of_placements cfg spr i l p :
  p ∈ placements cfg spr i l ->
  exists k, i <= k < i + Z.of_nat (length l) /\ (p.1.1, p.1.2) ∈ l /\
    p.2 = ((k mod spr) * SPRITE_WIDTH cfg, (k / spr) * SPRITE_HEIGHT cfg).
Proof.
  revert i. induction l as [|[n img] l IH]; intros i Hp; simpl in *; [set_solver|].
  apply elem_of_cons in Hp as [->|Hp].
  - exists i. simpl. split; [lia|]. split; [set_solver|done].
  - destruct (IH _ Hp) as (k & Hk & Hin & Hxy). exists k. split; [lia|]. split; [set_solver|done].
Qed.

Lemma paste_all_size atlas ps :
  width (paste_all atlas ps) = width atlas /\ height (paste_all atlas ps) = height atlas.
Proof.
  revert atlas. induction ps as [|p ps IH]; intros atlas; [done|].
  simpl. by destruct (IH (paste atlas p.1.2 p.2.1 p.2.2)) as [-> ->].
Qed.

Lemma getpixel_paste_all_out atlas ps i j :
  (forall p, p ∈ ps -> ~ covers p i j) ->
  getpixel (paste_all atlas ps) i j = getpixel atlas i j.
Proof.
  revert atlas. induction ps as [|p ps IH]; intros atlas Hps; [done|]. simpl.
  rewrite IH by set_solver. apply getpixel_paste_out. apply (Hps p). set_solver.
Qed.

Lemma getpixel_paste_all_last atlas ps1 p ps2 i j :
  0 <= i < width atlas -> 0 <= j < height atlas -> covers p i j ->
  (forall q, q ∈ ps2 -> ~ covers q i j) ->
  getpixel (paste_all atlas (ps1 ++ p :: ps2)) i j = getpixel p.1.2 (i - p.2.1) (j - p.2.2).
Proof.
  intros Hi Hj Hp Hps2. unfold paste_all. rewrite fold_left_app. simpl.
  fold (paste_all (paste (fold_left (fun a p => paste a p.1.2 p.2.1 p.2.2) ps1 atlas)
                          p.1.2 p.2.1 p.2.2) ps2).
  rewrite getpixel_paste_all_out by done.
  pose proof (paste_all_size atlas ps1) as [Hw Hh]. unfold paste_all in Hw, Hh.
  destruct Hp. apply getpixel_paste_in; lia.
Qed.

(** Two sprite cells of different indices do not overlap. *)
Lemma cells_disjoint cfg `{!ConfigOk cfg} (spr k k' a b a' b' : Z) :
  0 < spr -> 0 <= k -> 0 <= k' -> k <> k' ->
  0 <= a < SPRITE_WIDTH cfg -> 0 <= b < SPRITE_HEIGHT cfg ->
  0 <= a' < SPRITE_WIDTH cfg -> 0 <= b' < SPRITE_HEIGHT cfg ->
  (k mod spr) * SPRITE_WIDTH cfg + a = (k' mod spr) * SPRITE_WIDTH cfg + a' ->
  (k / spr) * SPRITE_HEIGHT cfg + b = (k' / spr) * SPRITE_HEIGHT cfg + b' -> False.
Proof.
  intros Hspr Hk Hk' Hne Ha Hb Ha' Hb' Ex Ey.
  assert (k mod spr = k' mod spr) by nia. assert (k / spr = k' / spr) by nia.
  apply Hne. rewrite (Z.div_mod k spr), (Z.div_mod k' spr) by lia. congruence.
Qed.

Lemma pack_ok cfg (sprites : list (string * image)) :
  1 <= Z.of_nat (length sprites) <= 16384 ->
  let n := Z.of_nat (length sprites) in
  let ps := placements cfg (Z.sqrt_up n) 0 sprites in
  pack cfg sprites =
    inr (apply_min_size cfg (next_power_of_2 (Z.sqrt_up n * SPRITE_WIDTH cfg)),
         apply_min_size cfg (next_power_of_2 (cdiv n (Z.sqrt_up n) * SPRITE_HEIGHT cfg)),
         paste_all (image_new (apply_min_size cfg (next_power_of_2 (Z.sqrt_up n * SPRITE_WIDTH cfg)))
                              (apply_min_size cfg (next_power_of_2 (cdiv n (Z.sqrt_up n) * SPRITE_HEIGHT cfg)))
                              transparent) ps,
         insert_all ∅ (coords_of ps)).
Proof.
  intros Hn. cbv zeta. pose proof (sqrt_up_pos _ (proj1 Hn)).
  unfold pack. rewrite calculate_optimal_atlas_size_layout by lia.
  simpl. unfold atlas_layout. rewrite place_sprites_ok by lia. reflexivity.
Qed.

Definition sprite_sized (cfg : atlas_config) (s : string * image) : Prop :=
  width s.2 = SPRITE_WIDTH cfg /\ height s.2 = SPRITE_HEIGHT cfg.

Section Pack.
Context (cfg : atlas_config) `{!ConfigOk cfg}.

(** The placement of the sprite [(name, img)] that no later sprite renames:
    its coordinates are recorded under [name] and its pixels are in the
    atlas at those coordinates. *)
Lemma pack_places (s1 s2 : list (string * image)) (name : string) (img : image)
    (w h : Z) (atlas : image) (coords : gmap string (Z * Z)) :
  let sprites := s1 ++ (name, img) :: s2 in
  1 <= Z.of_nat (length sprites) <= 16384 ->
  Forall (sprite_sized cfg) sprites -> name ∉ s2.*1 ->
  pack cfg sprites = inr (w, h, atlas, coords) ->
  let k := Z.of_nat (length s1) in
  let spr := Z.sqrt_up (Z.of_nat (length sprites)) in
  coords !! name = Some ((k mod spr) * SPRITE_WIDTH cfg, (k / spr) * SPRITE_HEIGHT cfg) /\
  forall i j, 0 <= i < SPRITE_WIDTH cfg -> 0 <= j < SPRITE_HEIGHT cfg ->
    getpixel atlas ((k mod spr) * SPRITE_WIDTH cfg + i) ((k / spr) * SPRITE_HEIGHT cfg + j)
    = getpixel img i j.
Proof.
  intros sprites Hn Hsz Hlast Hpack k spr.
  rewrite pack_ok in Hpack by done. injection Hpack as <- <- <- <-.
  set (N := Z.of_nat (length sprites)) in *. fold spr.
  pose proof (sqrt_up_pos N ltac:(lia)) as Hspr. fold spr in Hspr.
  pose proof sprite_width_pos. pose proof sprite_height_pos.
  assert (Hlen : N = k + 1 + Z.of_nat (length s2))
    by (unfold N, sprites, k; rewrite length_app; simpl; lia).
  replace (placements cfg spr 0 sprites) with
    (placements cfg spr 0 s1 ++
       (name, img, ((k mod spr) * SPRITE_WIDTH cfg, (k / spr) * SPRITE_HEIGHT cfg))
       :: placements cfg spr (k + 1) s2)
    by (unfold sprites; rewrite placements_app; simpl; by rewrite Z.add_0_l).
  split.
  - unfold coords_of. rewrite map_app. simpl. apply lookup_insert_all_last.
    fold (coords_of (placements cfg spr (k + 1) s2)). by rewrite coords_of_placements_names.
  - intros i j Hi Hj.
    pose proof (layout_cell_inside cfg N k ltac:(lia) ltac:(lia)) as Hin. fold spr in Hin.
    assert (Himg : sprite_sized cfg (name, img))
      by (eapply Forall_forall; [exact Hsz|]; unfold sprites; set_solver).
    destruct Himg as [Hw Hh]. simpl in Hw, Hh.
    rewrite getpixel_paste_all_last; simpl.
    + f_equal; lia.
    + lia.
    + lia.
    + unfold covers. simpl. lia.
    + intros q Hq Hcov. apply elem_of_placements in Hq as (k' & Hk' & Hq & Hxy).
      assert (Hq' : sprite_sized cfg (q.1.1, q.1.2)).
      { eapply Forall_forall; [exact Hsz|]. unfold sprites. set_solver. }
      destruct Hq' as [Hqw Hqh]. simpl in Hqw, Hqh. unfold covers in Hcov.
      rewrite Hxy, Hqw, Hqh in Hcov. simpl in Hcov.
      apply (cells_disjoint cfg spr k k' i j (k mod spr * SPRITE_WIDTH cfg + i - k' mod spr * SPRITE_WIDTH cfg)
               (k / spr * SPRITE_HEIGHT cfg + j - k' / spr * SPRITE_HEIGHT cfg)); lia.
Qed.
End Pack.

Section WatermarkLemmas.
Context `{Font} `{!FontLaws}.

(** The box the watermark may draw in: the text box at the watermark
    position, widened by one pixel on each side for the outline. *)
Definition watermark_box (atlas : image) (text : string) : Z * Z * Z * Z :=
  let '(x, y) := watermark_position atlas text in
  let '(l, t, r, b) := text_box text in
  (x - 1 + l, y - 1 + t, x + 1 + r, y + 1 + b).

Definition in_box (box : Z * Z * Z * Z) (i j : Z) : Prop :=
  let '(x0, y0, x1, y1) := box in x0 <= i < x1 /\ y0 <= j < y1.

Lemma outline_offsets_small : Forall (fun d => -1 <= d.1 <= 1 /\ -1 <= d.2 <= 1) outline_offsets.
Proof. repeat constructor; simpl; lia. Qed.

Lemma fold_draw_text_local (offs : list (Z * Z)) (img : image) (x y : Z) (t : string) (c : pixel) i j :
  Forall (fun d => -1 <= d.1 <= 1 /\ -1 <= d.2 <= 1) offs ->
  ~ in_box (let '(l, tp, r, b) := text_box t in (x - 1 + l, y - 1 + tp, x + 1 + r, y + 1 + b)) i j ->
  getpixel (fold_left (fun img' '(dx, dy) => draw_text img' (x + dx) (y + dy) t c) offs img) i j
  = getpixel img i j.
Proof.
  intros Hoffs Hout. revert img. induction Hoffs as [|[dx dy] offs Hd Hoffs IH]; intros img; [done|].
  simpl. rewrite IH. pose proof (draw_text_local img (x + dx) (y + dy) t c i j) as Hl.
  destruct (text_box t) as [[[l tp] r] b]. apply Hl. simpl in *. lia.
Qed.

(** The watermark changes no pixel outside its box. *)
Lemma add_watermark_local (atlas : image) (i j : Z) :
  ~ in_box (watermark_box atlas WATERMARK) i j ->
  getpixel (add_watermark atlas WATERMARK) i j = getpixel atlas i j.
Proof.
  unfold watermark_box, add_watermark. destruct (watermark_position atlas WATERMARK) as [x y].
  intros Hout. pose proof (draw_text_local (fold_left (fun img' '(dx, dy) =>
    draw_text img' (x + dx) (y + dy) WATERMARK (mkPixel 0 0 0 255)) outline_offsets atlas)
    x y WATERMARK (mkPixel 255 255 255 255) i j) as Hl.
  destruct (text_box WATERMARK) as [[[l tp] r] b] eqn:Eb. rewrite Hl by (simpl in *; lia).
  apply fold_draw_text_local; [apply outline_offsets_small|by rewrite Eb].
Qed.
(** The watermark keeps the size of the image. *)
Lemma add_watermark_size (atlas : image) (text : string) :
  width (add_watermark atlas text) = width atlas /\ height (add_watermark atlas text) = height atlas.
Proof.
  unfold add_watermark. destruct (watermark_position atlas text) as [x y].
  rewrite (proj1 (draw_text_size _ _ _ _ _)), (proj2 (draw_text_size _ _ _ _ _)).
  generalize atlas. induction outline_offsets as [|[dx dy] offs IH]; intros img; [done|].
  simpl. destruct (IH (draw_text img (x + dx) (y + dy) text (mkPixel 0 0 0 255))) as [-> ->].
  apply draw_text_size.
Qed.
End WatermarkLemmas.

Section WorldAtlas.
Context `{Font}.

Definition world_kept (sprite_files : list (string * image)) (used : option (gset string))
  : list (string * image) :=
  filter_sprites (world_keep used) sprite_files ++ [("debug", create_debug_tile world_config)].

Lemma length_world_kept sprite_files used :
  (length (world_kept sprite_files used) <= S (length sprite_files))%nat.
Proof.
  unfold world_kept, filter_sprites. rewrite length_app. simpl.
  pose proof (filter_length_le (fun s => world_keep used s.1) sprite_files). lia.
Qed.

Lemma create_atlas_world_run sprite_files used o w h atlas coords :
  pack world_config (world_kept sprite_files used) = inr (w, h, atlas, coords) ->
  create_atlas_world sprite_files used o =
    (<["world_tiles.json" := JsonFile (mkMetadata [("tileSize", 16)] coords)]>
      (<["world_tiles.png" := PngFile (add_watermark atlas WATERMARK)]>
        (<["debug.png" := PngFile (create_debug_tile world_config)]> o)), inr true).
Proof. intros Hp. unfold create_atlas_world. simpl. unfold world_kept in Hp. by rewrite Hp. Qed.

Lemma pack_world_kept sprite_files used :
  Z.of_nat (length sprite_files) < 16384 ->
  exists w h atlas coords, pack world_config (world_kept sprite_files used) = inr (w, h, atlas, coords).
Proof.
  intros Hn. pose proof (length_world_kept sprite_files used).
  assert (1 <= length (world_kept sprite_files used))%nat
    by (unfold world_kept; rewrite length_app; simpl; lia).
  rewrite pack_ok by lia. eauto.
Qed.
End WorldAtlas.

(** The keys of the coordinate map of the world atlas: the kept sprites
    and the debug tile. *)
Lemma world_coords_dom sprite_files used w h atlas coords :
  Z.of_nat (length sprite_files) < 16384 ->
  pack world_config (world_kept sprite_files used) = inr (w, h, atlas, coords) ->
  dom coords = {["debug"]} ∪ list_to_set (filter_sprites (world_keep used) sprite_files).*1.
Proof.
  intros Hn Hp. pose proof (length_world_kept sprite_files used).
  rewrite pack_ok in Hp by (assert (1 <= length (world_kept sprite_files used))%nat
    by (unfold world_kept; rewrite length_app; simpl; lia); lia).
  injection Hp as _ _ _ <-. rewrite dom_insert_all, coords_of_placements_names.
  unfold world_kept. rewrite fmap_app, list_to_set_app_L. simpl. set_solver.
Qed.

(** ** Theorems *)

(** C6: [create_atlas] of gen_world.py returns [True] and writes
    world_tiles.json with [tileSize] 16 and a coordinate map whose keys are
    exactly the names of the sprites that pass the used-name filter, plus
    ["debug"]: no key without a drawn sprite, no drawn sprite without a key. *)
Theorem create_atlas_world_json_keys `{Font} (sprite_files : list (string * image))
    (used : option (gset string)) (o : output_dir) :
  Z.of_nat (length sprite_files) < 16384 ->
  (create_atlas_world sprite_files used o).2 = inr true /\
  exists coords,
    (create_atlas_world sprite_files used o).1 !! "world_tiles.json" =
      Some (JsonFile (mkMetadata [("tileSize", 16)] coords)) /\
    dom coords = {["debug"]} ∪ list_to_set (filter_sprites (world_keep used) sprite_files).*1.
Proof.
  intros Hn. destruct (pack_world_kept sprite_files used Hn) as (w & h & atlas & coords & Hp).
  rewrite (create_atlas_world_run _ _ _ _ _ _ _ Hp). cbn [fst snd]. split; [done|].
  exists coords. split; [by rewrite lookup_insert_eq|]. by eapply world_coords_dom.
Qed.

Lemma pack_coord cfg (s1 s2 : list (string * image)) name img w h atlas coords :
  let sprites := s1 ++ (name, img) :: s2 in
  1 <= Z.of_nat (length sprites) <= 16384 -> name ∉ s2.*1 ->
  pack cfg sprites = inr (w, h, atlas, coords) ->
  let k := Z.of_nat (length s1) in
  let spr := Z.sqrt_up (Z.of_nat (length sprites)) in
  coords !! name = Some ((k mod spr) * SPRITE_WIDTH cfg, (k / spr) * SPRITE_HEIGHT cfg).
Proof.
  intros sprites Hn Hlast Hpack k spr.
  rewrite pack_ok in Hpack by done. injection Hpack as <- <- <- <-. fold spr.
  replace (placements cfg spr 0 sprites) with
    (placements cfg spr 0 s1 ++
       (name, img, ((k mod spr) * SPRITE_WIDTH cfg, (k / spr) * SPRITE_HEIGHT cfg))
       :: placements cfg spr (k + 1) s2)
    by (unfold sprites; rewrite placements_app; simpl; by rewrite Z.add_0_l).
  unfold coords_of. rewrite map_app. simpl. apply lookup_insert_all_last.
  fold (coords_of (placements cfg spr (k + 1) s2)). by rewrite coords_of_placements_names.
Qed.

Lemma world_kept_sized sprite_files used :
  Forall (sprite_sized world_config) sprite_files ->
  Forall (sprite_sized world_config) (world_kept sprite_files used).
Proof.
  intros Hsz. unfold world_kept, filter_sprites. apply Forall_app. split.
  - apply Forall_forall. intros s Hs. apply list_elem_of_In, filter_In in Hs as [Hs _].
    by apply (proj1 (Forall_forall _ _) Hsz), list_elem_of_In.
  - repeat constructor.
Qed.

(** C3: reading a sprite back from what gen_world.py writes gives the
    sprite: for the last kept sprite of each name, world_tiles.json maps
    the name to [(x, y)] and the pixels of world_tiles.png at
    [(x + i, y + j)] are those of the sprite, wherever the watermark's box
    does not reach. *)
Theorem create_atlas_world_readback `{Font} `{!FontLaws} (sprite_files : list (string * image))
    (used : option (gset string)) (o : output_dir) s1 name img s2 :
  Z.of_nat (length sprite_files) < 16384 ->
  Forall (sprite_sized world_config) sprite_files ->
  world_kept sprite_files used = s1 ++ (name, img) :: s2 -> name ∉ s2.*1 ->
  exists atlas0 coords x y,
    (create_atlas_world sprite_files used o).1 !! "world_tiles.png" =
      Some (PngFile (add_watermark atlas0 WATERMARK)) /\
    (create_atlas_world sprite_files used o).1 !! "world_tiles.json" =
      Some (JsonFile (mkMetadata [("tileSize", 16)] coords)) /\
    coords !! name = Some (x, y) /\
    forall i j, 0 <= i < 16 -> 0 <= j < 16 ->
      ~ in_box (watermark_box atlas0 WATERMARK) (x + i) (y + j) ->
      getpixel (add_watermark atlas0 WATERMARK) (x + i) (y + j) = getpixel img i j.
Proof.
  intros Hn Hsz Hkept Hlast.
  destruct (pack_world_kept sprite_files used Hn) as (w & h & atlas & coords & Hp).
  rewrite (create_atlas_world_run _ _ _ _ _ _ _ Hp). cbn [fst].
  pose proof (length_world_kept sprite_files used) as Hl. rewrite Hkept in Hl, Hp.
  pose proof (world_kept_sized sprite_files used Hsz) as Hsz'. rewrite Hkept in Hsz'.
  assert (1 <= length (s1 ++ (name, img) :: s2))%nat by (rewrite length_app; simpl; lia).
  destruct (pack_places world_config s1 s2 name img w h atlas coords ltac:(lia) Hsz' Hlast Hp)
    as [Hc Hpix].
  eexists atlas, coords, _, _. split; [|split; [|split; [exact Hc|]]].
  - rewrite lookup_insert_ne by done. by rewrite lookup_insert_eq.
  - by rewrite lookup_insert_eq.
  - intros i j Hi Hj Hout. rewrite add_watermark_local by done. by apply Hpix.
Qed.

(** C23: the debug tile is always placed last: with [n] sprites kept plus
    the debug tile, world_tiles.json maps ["debug"] to the cell of index
    [n]; no extracted sprite can take its coordinates. *)
Theorem create_atlas_world_debug_last `{Font} (sprite_files : list (string * image))
    (used : option (gset string)) (o : output_dir) :
  Z.of_nat (length sprite_files) < 16384 ->
  let n := Z.of_nat (length (filter_sprites (world_keep used) sprite_files)) in
  let spr := Z.sqrt_up (n + 1) in
  exists coords,
    (create_atlas_world sprite_files used o).1 !! "world_tiles.json" =
      Some (JsonFile (mkMetadata [("tileSize", 16)] coords)) /\
    coords !! "debug" = Some ((n mod spr) * 16, (n / spr) * 16).
Proof.
  intros Hn n spr.
  destruct (pack_world_kept sprite_files used Hn) as (w & h & atlas & coords & Hp).
  rewrite (create_atlas_world_run _ _ _ _ _ _ _ Hp). cbn [fst].
  exists coords. split; [by rewrite lookup_insert_eq|].
  pose proof (length_world_kept sprite_files used) as Hl. unfold world_kept in Hl, Hp.
  rewrite length_app in Hl. simpl in Hl.
  pose proof (pack_coord world_config (filter_sprites (world_keep used) sprite_files) []
                "debug" _ w h atlas coords ltac:(rewrite length_app; simpl; lia)
                ltac:(set_solver) Hp) as Hc.
  rewrite length_app in Hc. simpl in Hc. fold n in Hc.
  rewrite Hc. unfold spr, n. by rewrite Nat2Z.inj_add.
Qed.

Lemma text_size_box `{Font} (text : string) :
  text_size text = let '(l, t, r, b) := text_box text in (r - l, b - t).
Proof.
  unfold text_size, text_box. destruct (textbbox text) as [[[[l t] r] b]|]; [done|].
  destruct (getsize text). by rewrite !Z.sub_0_r.
Qed.

(** A font for the examples: the box PIL's default font gives the watermark
    (174 x 9 pixels below a 2-pixel offset); it draws nothing. *)
#[export] Instance sample_font : Font := {|
  textbbox := fun _ => Some (0, 2, 174, 11);
  getsize := fun _ => (174, 9);
  draw_text := fun img _ _ _ _ => img
|}.

Definition opaque_tile : image := image_new 16 16 (mkPixel 10 10 10 255).

(** C22: the watermark is drawn over packed sprites. With 15 extracted
    world tiles and the debug tile, the 64 x 64 atlas is full, and for any
    font whose text box starts at the left edge and at most 3 pixels down
    (as PIL's default font does), the box the watermark is drawn in meets
    the cell world_tiles.json gives the debug tile. *)
Theorem watermark_overlaps_debug_cell `{Font} (sprite_files : list (string * image))
    (o : output_dir) (t r b : Z) :
  length sprite_files = 15%nat ->
  text_box WATERMARK = (0, t, r, b) -> 0 <= t <= 3 -> t < b -> 0 <= r ->
  exists atlas0 coords x y,
    (create_atlas_world sprite_files None o).1 !! "world_tiles.png" =
      Some (PngFile (add_watermark atlas0 WATERMARK)) /\
    (create_atlas_world sprite_files None o).1 !! "world_tiles.json" =
      Some (JsonFile (mkMetadata [("tileSize", 16)] coords)) /\
    coords !! "debug" = Some (x, y) /\
    exists i j, 0 <= i < 16 /\ 0 <= j < 16 /\
      in_box (watermark_box atlas0 WATERMARK) (x + i) (y + j).
Proof.
  intros Hlen Hbox Ht Hb Hr.
  destruct (pack_world_kept sprite_files None ltac:(lia)) as (w & h & atlas & coords & Hp).
  rewrite (create_atlas_world_run _ _ _ _ _ _ _ Hp). cbn [fst].
  assert (Hall : filter_sprites (world_keep None) sprite_files = sprite_files)
    by (unfold filter_sprites; apply forallb_filter_id, forallb_forall; done).
  unfold world_kept in Hp. rewrite Hall in Hp.
  pose proof (pack_coord world_config sprite_files [] "debug" _ w h atlas coords
                ltac:(rewrite length_app, Hlen; simpl; lia) ltac:(set_solver) Hp) as Hc.
  rewrite length_app, Hlen in Hc. simpl in Hc.
  assert (E1 : Z.of_nat 15 mod Z.sqrt_up (Z.of_nat 16) * 16 = 48) by reflexivity.
  assert (E2 : Z.of_nat 15 / Z.sqrt_up (Z.of_nat 16) * 16 = 48) by reflexivity.
  rewrite E1, E2 in Hc.
  rewrite pack_ok in Hp by (rewrite length_app, Hlen; simpl; lia).
  injection Hp as _ _ Ha _. rewrite length_app, Hlen in Ha. simpl in Ha.
  assert (Hsz : width atlas = 64 /\ height atlas = 64).
  { rewrite <- Ha. split; [rewrite (proj1 (paste_all_size _ _))|rewrite (proj2 (paste_all_size _ _))];
    reflexivity. }
  exists atlas, coords, 48, 48. split; [by rewrite lookup_insert_ne, lookup_insert_eq|].
  split; [by rewrite lookup_insert_eq|]. split; [exact Hc|].
  exists 12, (12 + t). split; [lia|]. split; [lia|].
  unfold watermark_box, watermark_position. rewrite text_size_box, Hbox.
  destruct Hsz as [-> ->]. simpl. unfold MARGIN. lia.
Qed.

Lemma watermark_overlaps_debug_cell_witness :
  (length (repeat ("tile-0", opaque_tile) 15) = 15%nat /\
   text_box WATERMARK = (0, 2, 174, 11) /\ 0 <= 2 <= 3 /\ 2 < 11 /\ 0 <= 174) /\
  exists atlas0 coords x y,
    (create_atlas_world (repeat ("tile-0", opaque_tile) 15) None ∅).1 !! "world_tiles.png" =
      Some (PngFile (add_watermark atlas0 WATERMARK)) /\
    (create_atlas_world (repeat ("tile-0", opaque_tile) 15) None ∅).1 !! "world_tiles.json" =
      Some (JsonFile (mkMetadata [("tileSize", 16)] coords)) /\
    coords !! "debug" = Some (x, y) /\
    exists i j, 0 <= i < 16 /\ 0 <= j < 16 /\
      in_box (watermark_box atlas0 WATERMARK) (x + i) (y + j).
Proof.
  split; [repeat split; lia|].
  apply (watermark_overlaps_debug_cell _ ∅ 2 174 11); [reflexivity|reflexivity|lia|lia|lia].
Defined.

Section ItemsAtlas.
Context `{Font}.

Definition items_kept (sprite_files : list (string * image)) (allowed : gset string)
  : list (string * image) :=
  filter_sprites (items_keep allowed) sprite_files ++ [("debug", create_debug_tile items_config)].

Lemma create_atlas_items_run sprite_files allowed o w h atlas coords :
  pack items_config (items_kept sprite_files allowed) = inr (w, h, atlas, coords) ->
  create_atlas_items sprite_files (inr allowed) o =
    (<["item_sprites.json" := JsonFile (mkMetadata [("spriteSize", 16)] coords)]>
      (<["item_sprites.png" := PngFile (add_watermark atlas WATERMARK)]>
        (<["debug.png" := PngFile (create_debug_tile items_config)]> o)), inr true).
Proof.
  intros Hp. unfold create_atlas_items, bind, lift, write_output, modify, ret.
  unfold items_kept in Hp. rewrite Hp. reflexivity.
Qed.
End ItemsAtlas.

Lemma names_filter_member (allowed : gset string) (l : list (string * image)) :
  list_to_set (filter_sprites (fun n => bool_decide (n ∈ allowed)) l).*1 =@{gset string}
  list_to_set l.*1 ∩ allowed.
Proof.
  unfold filter_sprites. induction l as [|[n img] l IH]; simpl; [set_solver|].
  case_bool_decide; simpl; set_solver.
Qed.

(** The files [create_atlas] of gen_items.py writes, and the keys of its
    coordinate map: the listed sprites and the debug tile. *)
Lemma items_coords_dom `{Font} (sprite_files : list (string * image))
    (allowed : gset string) (o : output_dir) :
  Z.of_nat (length sprite_files) < 16384 ->
  (create_atlas_items sprite_files (inr allowed) o).2 = inr true /\
  exists coords,
    (create_atlas_items sprite_files (inr allowed) o).1 !! "item_sprites.json" =
      Some (JsonFile (mkMetadata [("spriteSize", 16)] coords)) /\
    dom coords = {["debug"]} ∪ (list_to_set sprite_files.*1 ∩ allowed).
Proof.
  intros Hn.
  assert (Hl : (1 <= length (items_kept sprite_files allowed) <= S (length sprite_files))%nat).
  { unfold items_kept, filter_sprites. rewrite length_app. simpl.
    pose proof (filter_length_le (fun s => items_keep allowed s.1) sprite_files). lia. }
  pose proof (pack_ok items_config (items_kept sprite_files allowed) ltac:(lia)) as Hp.
  rewrite (create_atlas_items_run _ _ _ _ _ _ _ Hp). cbn [fst snd]. split; [done|].
  eexists. split; [by rewrite lookup_insert_eq|].
  rewrite dom_insert_all, coords_of_placements_names. unfold items_kept.
  rewrite fmap_app, list_to_set_app_L.
  assert (Hf : filter_sprites (items_keep allowed) sprite_files =
               filter_sprites (fun n => bool_decide (n ∈ allowed)) sprite_files)
    by (apply filter_ext; intros s; unfold items_keep; simpl; by destruct (bool_decide _)).
  rewrite Hf, names_filter_member. simpl. set_solver.
Qed.

(** C24: in gen_items.py the allow list is always applied
    ([SET_THIS_TO_FALSE_TO_GET_ALL_ITEMS] is [True]): item_sprites.json maps
    exactly the extracted names listed in items.csv, plus ["debug"]; an
    empty list keeps none. The comment on the flag (gen_items.py line 27)
    says that [True] extracts just 10 sprites per item type: the code has
    no such limit, and keeps every extracted sprite items.csv lists, however
    many of one type there are. *)
Theorem create_atlas_items_json_keys `{Font} (sprite_files : list (string * image))
    (allowed : gset string) (o : output_dir) :
  Z.of_nat (length sprite_files) < 16384 ->
  (create_atlas_items sprite_files (inr allowed) o).2 = inr true /\
  exists coords,
    (create_atlas_items sprite_files (inr allowed) o).1 !! "item_sprites.json" =
      Some (JsonFile (mkMetadata [("spriteSize", 16)] coords)) /\
    dom coords = {["debug"]} ∪ (list_to_set sprite_files.*1 ∩ allowed).
Proof. apply items_coords_dom. Qed.

(** ** Witnesses *)

#[export] Instance sample_font_laws : @FontLaws sample_font.
Proof.
  split.
  - intros. simpl. auto.
  - intros img x y t c i j. unfold text_box. simpl. intros _. reflexivity.
Qed.

Lemma create_atlas_world_json_keys_witness :
  Z.of_nat (length [("tile-0", opaque_tile)]) < 16384 /\
  (create_atlas_world [("tile-0", opaque_tile)] None ∅).2 = inr true /\
  exists coords,
    (create_atlas_world [("tile-0", opaque_tile)] None ∅).1 !! "world_tiles.json" =
      Some (JsonFile (mkMetadata [("tileSize", 16)] coords)) /\
    dom coords = {["debug"]} ∪ list_to_set (filter_sprites (world_keep None) [("tile-0", opaque_tile)]).*1.
Proof. split; [simpl; lia|]. apply create_atlas_world_json_keys. simpl. lia. Defined.

Lemma create_atlas_world_readback_witness :
  (Z.of_nat (length [("tile-0", opaque_tile)]) < 16384 /\
   Forall (sprite_sized world_config) [("tile-0", opaque_tile)] /\
   world_kept [("tile-0", opaque_tile)] None =
     [] ++ ("tile-0", opaque_tile) :: [("debug", create_debug_tile world_config)] /\
   "tile-0" ∉ [("debug", create_debug_tile world_config)].*1) /\
  exists atlas0 coords x y,
    (create_atlas_world [("tile-0", opaque_tile)] None ∅).1 !! "world_tiles.png" =
      Some (PngFile (add_watermark atlas0 WATERMARK)) /\
    (create_atlas_world [("tile-0", opaque_tile)] None ∅).1 !! "world_tiles.json" =
      Some (JsonFile (mkMetadata [("tileSize", 16)] coords)) /\
    coords !! "tile-0" = Some (x, y) /\
    forall i j, 0 <= i < 16 -> 0 <= j < 16 ->
      ~ in_box (watermark_box atlas0 WATERMARK) (x + i) (y + j) ->
      getpixel (add_watermark atlas0 WATERMARK) (x + i) (y + j) = getpixel opaque_tile i j.
Proof.
  assert (Hsz : Forall (sprite_sized world_config) [("tile-0", opaque_tile)])
    by (repeat constructor).
  assert (Hk : world_kept [("tile-0", opaque_tile)] None =
                 [] ++ ("tile-0", opaque_tile) :: [("debug", create_debug_tile world_config)])
    by reflexivity.
  assert (Hn : "tile-0" ∉ [("debug", create_debug_tile world_config)].*1) by (simpl; set_solver).
  split; [split; [simpl; lia|split; [exact Hsz|split; [exact Hk|exact Hn]]]|].
  exact (create_atlas_world_readback [("tile-0", opaque_tile)] None ∅ [] "tile-0" opaque_tile
           [("debug", create_debug_tile world_config)] ltac:(simpl; lia) Hsz Hk Hn).
Defined.

Lemma create_atlas_world_debug_last_witness :
  Z.of_nat (length [("tile-0", opaque_tile)]) < 16384 /\
  exists coords,
    (create_atlas_world [("tile-0", opaque_tile)] None ∅).1 !! "world_tiles.json" =
      Some (JsonFile (mkMetadata [("tileSize", 16)] coords)) /\
    coords !! "debug" = Some ((1 mod Z.sqrt_up (1 + 1)) * 16, (1 / Z.sqrt_up (1 + 1)) * 16).
Proof.
  split; [simpl; lia|].
  exact (create_atlas_world_debug_last [("tile-0", opaque_tile)] None ∅ ltac:(simpl; lia)).
Defined.

Lemma create_atlas_items_json_keys_witness :
  Z.of_nat (length [("sword-3", opaque_tile)]) < 16384 /\
  (create_atlas_items [("sword-3", opaque_tile)] (inr {["sword-3"]}) ∅).2 = inr true /\
  exists coords,
    (create_atlas_items [("sword-3", opaque_tile)] (inr {["sword-3"]}) ∅).1 !! "item_sprites.json" =
      Some (JsonFile (mkMetadata [("spriteSize", 16)] coords)) /\
    dom coords = {["debug"]} ∪ (list_to_set [("sword-3", opaque_tile)].*1 ∩ {["sword-3"]}).
Proof. split; [simpl; lia|]. apply create_atlas_items_json_keys. simpl. lia. Defined.
