(* ===== verification/Slicer.v ===== *)
(** * TileSlicer: the counter-named extraction loops

    [process_ground_png], [process_decor_png], [process_tile_png] and
    [process_doors_png] of gen_world.py, [process_item_png] of gen_items.py
    and [process_character_png] of gen_characters.py. Each walks the 16 x 16
    grid of a sheet row by row with a running [sprite_count] that grows for
    every cell, saved or not, and saves each kept cell as
    [f"{prefix}-{sprite_count}"] (characters add [f"-{frame}"]). *)

From S2P Require Import Prelude PyStr Image.

(** [for row in range(r0, r1): for col in range(cols)]. *)
Definition grid_positions (r0 r1 cols : Z) : list (Z * Z) :=
  concat (map (fun row => map (fun col => (row, col)) (range 0 cols)) (range r0 r1)).

(** The loop body shared by the six functions: crop the cell, skip it when
    transparent, skip it when a used-name set is given and does not hold
    its name (decor, tile and door sheets; the others pass [None] as they
    have no such test), otherwise save it; the counter grows in all three
    cases. *)
Definition counted_cell (name_of : Z -> string) (used : option (gset string)) (img : image)
  (sprite_count : Z) (pos : Z * Z) : PyM workspace Z :=
  let '(row, col) := pos in
  let tile := grid_tile img row col in
  skip <- lift (is_tile_transparent tile) ;;
  if skip then ret (sprite_count + 1) else
  let expected_tile_name := name_of sprite_count in
  if match used with
     | Some u => negb (bool_decide (expected_tile_name ∈ u))
     | None => false
     end
  then ret (sprite_count + 1) else
  save_tile expected_tile_name tile ;;
  ret (sprite_count + 1).

Definition counted_name (prefix : string) (sprite_count : Z) : string :=
  prefix +:+ "-" +:+ pretty sprite_count.

(** [process_ground_png(png_path, temp_dir)], gen_world.py lines 129-179. *)
Definition process_ground_png (png_path : string) (src : source) : PyM workspace unit :=
  guard_sheet png_path (
    img <- lift (image_open png_path src) ;;
    let cols := width img / TILE_SIZE in
    let rows := height img / TILE_SIZE in
    _ <- py_fold (grid_positions 0 rows cols) 0 (counted_cell (counted_name "ground") None img) ;;
    ret tt).

(** [process_decor_png(png_path, temp_dir, used_tile_names)], lines 321-383:
    rows 4 to [min(15, rows - 1)] only. *)
Definition process_decor_png (png_path : string) (src : source) (used : option (gset string))
  : PyM workspace unit :=
  guard_sheet png_path (
    img <- lift (image_open png_path src) ;;
    let cols := width img / TILE_SIZE in
    let rows := height img / TILE_SIZE in
    let start_row := 4 in
    let end_row := Z.min 15 (rows - 1) in
    _ <- py_fold (grid_positions start_row (end_row + 1) cols) 0
           (counted_cell (counted_name "decor") used img) ;;
    ret tt).

(** [process_tile_png(png_path, temp_dir, used_tile_names)], lines 385-441. *)
Definition process_tile_png (png_path : string) (src : source) (used : option (gset string))
  : PyM workspace unit :=
  guard_sheet png_path (
    img <- lift (image_open png_path src) ;;
    let cols := width img / TILE_SIZE in
    let rows := height img / TILE_SIZE in
    _ <- py_fold (grid_positions 0 rows cols) 0 (counted_cell (counted_name "tile") used img) ;;
    ret tt).

(** [process_doors_png(png_path, temp_dir, tile_type, used_tile_names)],
    lines 443-499. *)
Definition process_doors_png (png_path : string) (src : source) (tile_type : string)
  (used : option (gset string)) : PyM workspace unit :=
  guard_sheet png_path (
    img <- lift (image_open png_path src) ;;
    let cols := width img / TILE_SIZE in
    let rows := height img / TILE_SIZE in
    _ <- py_fold (grid_positions 0 rows cols) 0 (counted_cell (counted_name tile_type) used img) ;;
    ret tt).

(** [extract_item_name(filename)], gen_items.py lines 98-102. *)
Definition extract_item_name (filename : string) : string := str_lower (path_stem filename).

(** [process_item_png(png_path, temp_dir)], gen_items.py lines 104-155. *)
Definition process_item_png (png_path : string) (src : source) : PyM workspace unit :=
  guard_sheet png_path (
    img <- lift (image_open png_path src) ;;
    let item_name := extract_item_name png_path in
    let cols := width img / TILE_SIZE in
    let rows := height img / TILE_SIZE in
    _ <- py_fold (grid_positions 0 rows cols) 0 (counted_cell (counted_name item_name) None img) ;;
    ret tt).

(** The number of decimal digits at the start of a list of characters. *)
Fixpoint leading_digits (r : list ascii) : nat :=
  match r with
  | c :: r' => if is_digit c then S (leading_digits r') else O
  | [] => O
  end.

Definition trailing_digits (l : list ascii) : nat := leading_digits (List.rev l).

(** [extract_character_name(filename)], gen_characters.py lines 98-105: the
    match of [^(.+?)(\d+)$] on the stem, whose lazy first group leaves all
    trailing digits to the second group but keeps at least one character;
    without a match the frame is 0. *)
Definition extract_character_name (filename : string) : string * Z :=
  let name_without_ext := path_stem filename in
  let l := String.list_ascii_of_string name_without_ext in
  let k := trailing_digits l in
  let n := length l in
  if (k =? 0)%nat then (str_lower name_without_ext, 0)
  else if (k <? n)%nat then
    (str_lower (String.string_of_list_ascii (take (n - k) l)),
     parse_digits (String.string_of_list_ascii (drop (n - k) l)))
  else if (2 <=? n)%nat then
    (str_lower (String.string_of_list_ascii (take 1 l)),
     parse_digits (String.string_of_list_ascii (drop 1 l)))
  else (str_lower name_without_ext, 0).

Definition character_tile_name (char_name : string) (frame sprite_count : Z) : string :=
  char_name +:+ "-" +:+ pretty sprite_count +:+ "-" +:+ pretty frame.

(** [process_character_png(png_path, temp_dir)], gen_characters.py lines
    107-161. The summary [print] after the loop names [limit_msg], which is
    defined nowhere: it raises [NameError], which the [except] reports,
    after every tile of the sheet has been saved. *)
Definition process_character_png (png_path : string) (src : source) : PyM workspace unit :=
  guard_sheet png_path (
    img <- lift (image_open png_path src) ;;
    let '(char_name, frame) := extract_character_name png_path in
    let cols := width img / TILE_SIZE in
    let rows := height img / TILE_SIZE in
    _ <- py_fold (grid_positions 0 rows cols) 0
           (counted_cell (character_tile_name char_name frame) None img) ;;
    raise (NameError "limit_msg")).

(** ** The tiles a counted loop saves, as a comprehension *)

Definition used_ok (used : option (gset string)) (name : string) : bool :=
  match used with Some u => bool_decide (name ∈ u) | None => true end.

Fixpoint counted_entries (name_of : Z -> string) (used : option (gset string)) (img : image)
  (c : Z) (ps : list (Z * Z)) : list (string * image) :=
  match ps with
  | [] => []
  | (row, col) :: ps' =>
      (if tile_kept (grid_tile img row col) && used_ok used (name_of c)
       then [(name_of c, grid_tile img row col)] else [])
      ++ counted_entries name_of used img (c + 1) ps'
  end.

(** ** Lemmas *)

Lemma counted_cell_run name_of used img c row col w :
  counted_cell name_of used img c (row, col) w =
    (ws_save_all w (if tile_kept (grid_tile img row col) && used_ok used (name_of c)
                    then [(name_of c, grid_tile img row col)] else []), inr (c + 1)).
Proof.
  unfold counted_cell. rewrite run_bind. unfold lift. rewrite grid_tile_transparent_kept.
  destruct (tile_kept (grid_tile img row col)); simpl; [|by destruct w].
  destruct used as [u|]; simpl; [case_bool_decide; simpl|]; try by destruct w.
  all: rewrite run_bind, save_tile_run; reflexivity.
Qed.

Lemma counted_loop_run name_of used img ps c w :
  py_fold ps c (counted_cell name_of used img) w =
    (ws_save_all w (counted_entries name_of used img c ps), inr (c + Z.of_nat (length ps))).
Proof.
  revert c w. induction ps as [|[row col] ps IH]; intros c w.
  - simpl. rewrite Z.add_0_r. by destruct w.
  - cbn [py_fold]. rewrite run_bind, counted_cell_run, IH, ws_save_all_app.
    simpl. do 2 f_equal. lia.
Qed.

Lemma counted_entries_app name_of used img c ps1 ps2 :
  counted_entries name_of used img c (ps1 ++ ps2) =
    counted_entries name_of used img c ps1 ++
    counted_entries name_of used img (c + Z.of_nat (length ps1)) ps2.
Proof.
  revert c. induction ps1 as [|[row col] ps1 IH]; intros c; simpl.
  - by rewrite Z.add_0_r.
  - rewrite IH, app_assoc.
    by replace (c + 1 + Z.of_nat (length ps1)) with (c + Z.of_nat (S (length ps1))) by lia.
Qed.

Definition cell_saved (name_of : Z -> string) (used : option (gset string)) (img : image)
  (index row col : Z) (kv : string * image) : Prop :=
  kv = (name_of index, grid_tile img row col) /\
  tile_kept (grid_tile img row col) = true /\ used_ok used (name_of index) = true.

Lemma elem_of_counted_entries_row name_of used img c row a n kv :
  kv ∈ counted_entries name_of used img c (map (fun col => (row, col)) (range_from a n)) <->
  exists col, a <= col < a + Z.of_nat n /\ cell_saved name_of used img (c + (col - a)) row col kv.
Proof.
  revert a c. induction n as [|n IH]; intros a c; simpl.
  - split; [set_solver|]. intros (col & Hc & _). lia.
  - rewrite elem_of_app, IH. unfold cell_saved. split.
    + intros [Hh|(col & Hc & Hs)].
      * destruct (_ && _) eqn:E; [|set_solver]. apply andb_true_iff in E as [E1 E2].
        apply list_elem_of_singleton in Hh as ->. exists a.
        rewrite Z.sub_diag, Z.add_0_r. split; [lia|done].
      * exists col. replace (c + (col - a)) with (c + 1 + (col - (a + 1))) by lia.
        split; [lia|done].
    + intros (col & Hc & -> & Hk & Hu). destruct (Z.eq_dec col a) as [->|Hne].
      * left. rewrite Z.sub_diag, Z.add_0_r in *. rewrite Hk, Hu. simpl. set_solver.
      * right. exists col. replace (c + (col - a)) with (c + 1 + (col - (a + 1))) in * by lia.
        split; [lia|done].
Qed.

Lemma elem_of_counted_entries_grid name_of used img c r0 r1 cols kv :
  0 <= cols ->
  kv ∈ counted_entries name_of used img c (grid_positions r0 r1 cols) <->
  exists row col, r0 <= row < r1 /\ 0 <= col < cols /\
    cell_saved name_of used img (c + (row - r0) * cols + col) row col kv.
Proof.
  intros Hcols. unfold grid_positions, range.
  assert (Hm : r1 = r0 + Z.of_nat (Z.to_nat (r1 - r0)) \/ r1 - r0 < 0) by lia.
  remember (Z.to_nat (r1 - r0)) as m eqn:Em.
  assert (Hr : forall row, r0 <= row < r1 <-> r0 <= row < r0 + Z.of_nat m) by lia.
  setoid_rewrite Hr. clear Hm Hr Em. revert r0 c.
  induction m as [|m IH]; intros r0 c; simpl.
  - split; [set_solver|]. intros (row & col & Hr & _). lia.
  - rewrite counted_entries_app, elem_of_app, elem_of_counted_entries_row, IH.
    rewrite length_map, length_range_from. split.
    + intros [(col & Hc & Hs)|(row & col & Hr & Hc & Hs)].
      * exists r0, col. split; [lia|]. split; [lia|].
        by replace (c + (r0 - r0) * cols + col) with (c + (col - 0)) by lia.
      * exists row, col. split; [lia|]. split; [done|].
        by replace (c + (row - r0) * cols + col)
          with (c + Z.of_nat (Z.to_nat (cols - 0)) + (row - (r0 + 1)) * cols + col) by lia.
    + intros (row & col & Hr & Hc & Hs). destruct (Z.eq_dec row r0) as [->|Hne].
      * left. exists col. split; [lia|].
        by replace (c + (col - 0)) with (c + (r0 - r0) * cols + col) by lia.
      * right. exists row, col. split; [lia|]. split; [done|].
        by replace (c + Z.of_nat (Z.to_nat (cols - 0)) + (row - (r0 + 1)) * cols + col)
          with (c + (row - r0) * cols + col) by lia.
Qed.

Lemma counted_entries_index name_of used img c ps kv :
  kv ∈ counted_entries name_of used img c ps ->
  exists k, c <= k < c + Z.of_nat (length ps) /\ kv.1 = name_of k.
Proof.
  revert c. induction ps as [|[row col] ps IH]; intros c Hin; simpl in *; [set_solver|].
  apply elem_of_app in Hin as [Hh|Ht].
  - destruct (_ && _); [|set_solver]. apply list_elem_of_singleton in Hh as ->.
    exists c. split; [lia|done].
  - destruct (IH _ Ht) as (k & Hk & Hn). exists k. split; [lia|done].
Qed.

Lemma counted_entries_NoDup name_of used img c ps :
  (forall n m, name_of n = name_of m -> n = m) ->
  NoDup (counted_entries name_of used img c ps).*1.
Proof.
  intros Hinj. revert c. induction ps as [|[row col] ps IH]; intros c; simpl; [constructor|].
  rewrite fmap_app. destruct (_ && _); simpl; [|apply IH].
  constructor; [|apply IH]. intros Hin. apply list_elem_of_fmap in Hin as (kv & Hkv & Hin).
  destruct (counted_entries_index _ _ _ _ _ _ Hin) as (k & Hk & Hn).
  rewrite <- Hkv in Hn. apply Hinj in Hn. lia.
Qed.

Lemma counted_name_inj prefix n m : counted_name prefix n = counted_name prefix m -> n = m.
Proof.
  unfold counted_name. intros H. apply string_app_inv_l in H. injection H as H.
  simpl in H. by apply pretty_Z_inj.
Qed.

Section Sheet.
Context (name_of : Z -> string) (used : option (gset string)) (img : image).
Context (c r0 r1 cols : Z).
Hypothesis Hinj : forall n m, name_of n = name_of m -> n = m.
Hypothesis Hcols : 0 <= cols.

(** Every kept cell that passes the used-name test is found under the name
    of its running index. *)
Lemma counted_sheet_saved (m : gmap string image) row col :
  r0 <= row < r1 -> 0 <= col < cols ->
  tile_kept (grid_tile img row col) = true ->
  used_ok used (name_of (c + (row - r0) * cols + col)) = true ->
  insert_all m (counted_entries name_of used img c (grid_positions r0 r1 cols))
    !! name_of (c + (row - r0) * cols + col) = Some (grid_tile img row col).
Proof.
  intros Hr Hc Hk Hu. apply lookup_insert_all_NoDup; [by apply counted_entries_NoDup|].
  apply elem_of_counted_entries_grid; [done|]. exists row, col. done.
Qed.

(** Every file of the directory after the loop was there before or is such
    a cell. *)
Lemma counted_sheet_only (m : gmap string image) name tile :
  insert_all m (counted_entries name_of used img c (grid_positions r0 r1 cols)) !! name = Some tile ->
  m !! name = Some tile \/
  exists row col, r0 <= row < r1 /\ 0 <= col < cols /\
    cell_saved name_of used img (c + (row - r0) * cols + col) row col (name, tile).
Proof.
  intros H. apply lookup_insert_all_Some in H as [Hin|[_ Hm]]; [right|by left].
  by apply elem_of_counted_entries_grid.
Qed.
End Sheet.

Lemma process_ground_png_run path img w :
  process_ground_png path (Png img) w =
    (ws_save_all w (counted_entries (counted_name "ground") None img 0
                      (grid_positions 0 (height img / TILE_SIZE) (width img / TILE_SIZE))), inr tt).
Proof.
  unfold process_ground_png. apply guard_sheet_ok. cbn [bind lift image_open].
  rewrite run_bind, counted_loop_run. reflexivity.
Qed.

Lemma process_decor_png_run path img used w :
  process_decor_png path (Png img) used w =
    (ws_save_all w (counted_entries (counted_name "decor") used img 0
       (grid_positions 4 (Z.min 15 (height img / TILE_SIZE - 1) + 1) (width img / TILE_SIZE))), inr tt).
Proof.
  unfold process_decor_png. apply guard_sheet_ok. cbn [bind lift image_open].
  rewrite run_bind, counted_loop_run. reflexivity.
Qed.

Lemma process_doors_png_run path img tile_type used w :
  process_doors_png path (Png img) tile_type used w =
    (ws_save_all w (counted_entries (counted_name tile_type) used img 0
                      (grid_positions 0 (height img / TILE_SIZE) (width img / TILE_SIZE))), inr tt).
Proof.
  unfold process_doors_png. apply guard_sheet_ok. cbn [bind lift image_open].
  rewrite run_bind, counted_loop_run. reflexivity.
Qed.

(** ** The regular expression of [extract_character_name] *)

Lemma last_dot_from_app i l1 l2 f :
  last_dot_from i (l1 ++ l2) f = last_dot_from (i + length l1) l2 (last_dot_from i l1 f).
Proof.
  revert i f. induction l1 as [|c l1 IH]; intros i f; simpl; [by rewrite Nat.add_0_r|].
  rewrite IH. f_equal. lia.
Qed.

(** The stem of [f"{s}.png"] is [s], for a non-empty [s]. *)
Lemma path_stem_png (l : list ascii) :
  l <> [] -> path_stem (String.string_of_list_ascii l +:+ ".png") = String.string_of_list_ascii l.
Proof.
  intros Hl. unfold path_stem.
  rewrite list_ascii_of_string_app, String.list_ascii_of_string_of_list_ascii, last_dot_from_app.
  simpl. rewrite length_app. simpl.
  rewrite (proj2 (Nat.ltb_lt 0 (length l))) by (destruct l; simpl; [done|lia]).
  rewrite (proj2 (Nat.ltb_lt _ _)) by lia. simpl.
  by rewrite take_app_length.
Qed.

Lemma leading_digits_app d r :
  Forall (fun c => is_digit c = true) d -> leading_digits (d ++ r) = (length d + leading_digits r)%nat.
Proof. induction 1 as [|c d Hc Hd IH]; simpl; [done|]. by rewrite Hc, IH. Qed.

(** The trailing digit run of [p ++ d], where [p] does not end in a digit,
    is [d]. *)
Lemma trailing_digits_app p d :
  Forall (fun c => is_digit c = true) d -> (forall c, last p = Some c -> is_digit c = false) ->
  trailing_digits (p ++ d) = length d.
Proof.
  intros Hd Hp. unfold trailing_digits. rewrite rev_app_distr, leading_digits_app, length_rev
    by by apply Forall_rev.
  destruct (List.rev p) as [|c r] eqn:E; simpl; [lia|].
  rewrite (Hp c); [lia|]. rewrite <- (rev_involutive p), E. simpl. by rewrite last_snoc.
Qed.

(** ** The names of the character tiles *)

Lemma take_leading_digits r : Forall (fun c => is_digit c = true) (take (leading_digits r) r).
Proof.
  induction r as [|c r IH]; simpl; [constructor|].
  destruct (is_digit c) eqn:E; simpl; [by constructor|constructor].
Qed.

Lemma leading_digits_le r : (leading_digits r <= length r)%nat.
Proof. induction r as [|c r IH]; simpl; [lia|]. destruct (is_digit c); simpl; lia. Qed.

Lemma fold_digits_nonneg l a :
  Forall (fun c => is_digit c = true) l -> 0 <= a ->
  0 <= fold_left (fun acc c => acc * 10 + (Z.of_nat (nat_of_ascii c) - 48)) l a.
Proof.
  intros Hl. revert a. induction Hl as [|c l Hc Hl IH]; intros a Ha; simpl; [done|].
  apply IH. unfold is_digit in Hc. apply andb_prop in Hc as [Hc _]. apply Nat.leb_le in Hc. lia.
Qed.

(** [int] of a run of decimal digits is not negative. *)
Lemma parse_digits_nonneg l :
  Forall (fun c => is_digit c = true) l -> 0 <= parse_digits (String.string_of_list_ascii l).
Proof.
  unfold parse_digits. rewrite String.list_ascii_of_string_of_list_ascii.
  intros Hl. apply fold_digits_nonneg; [done|lia].
Qed.

(** The frame [extract_character_name] reads from the trailing digits of
    the stem is not negative. *)
Lemma extract_character_name_frame_nonneg filename : 0 <= (extract_character_name filename).2.
Proof.
  unfold extract_character_name. set (l := String.list_ascii_of_string (path_stem filename)).
  unfold trailing_digits. pose proof (take_leading_digits (List.rev l)) as Hd.
  pose proof (leading_digits_le (List.rev l)) as Hle. rewrite length_rev in Hle.
  destruct (Nat.eqb_spec (leading_digits (List.rev l)) 0); [simpl; lia|].
  destruct (Nat.ltb_spec (leading_digits (List.rev l)) (length l)).
  - apply parse_digits_nonneg. rewrite <- (rev_involutive (drop _ l)), <- firstn_rev.
    by apply Forall_rev.
  - destruct (Nat.leb_spec 2 (length l)); [|simpl; lia].
    apply parse_digits_nonneg. replace (leading_digits (List.rev l)) with (length (List.rev l)) in Hd
      by (rewrite length_rev; lia).
    rewrite take_ge in Hd by lia. apply Forall_rev in Hd. rewrite rev_involutive in Hd.
    by apply Forall_drop.
Qed.

(** A character sheet saves its counted entries when PIL opens it and
    nothing otherwise; either way the sheet loop goes on. *)
Lemma process_character_png_temp path src w :
  (process_character_png path src w).2 = inr tt /\
  temp_dir (process_character_png path src w).1 =
    insert_all (temp_dir w)
      (match src with
       | Png img => counted_entries (character_tile_name (extract_character_name path).1
                                      (extract_character_name path).2) None img 0
                      (grid_positions 0 (height img / TILE_SIZE) (width img / TILE_SIZE))
       | Unreadable => []
       end).
Proof.
  unfold process_character_png, guard_sheet, try_except.
  destruct src as [img|]; cbn [bind lift image_open]; destruct (extract_character_name path) as [c fr].
  - rewrite run_bind, counted_loop_run. split; reflexivity.
  - split; reflexivity.
Qed.

(** ** Theorems *)

(** C15: a Ground sheet of [rows x cols] cells is saved with stable names:
    each kept cell [(row, col)] is found under [f"ground-{row * cols + col}"]
    (the counter also counts the skipped cells), and every other file was
    already in the directory. *)
Theorem process_ground_png_names (img : image) (path : string) (w : workspace) :
  0 <= width img ->
  let rows := height img / TILE_SIZE in
  let cols := width img / TILE_SIZE in
  let saved := temp_dir (process_ground_png path (Png img) w).1 in
  (forall row col, 0 <= row < rows -> 0 <= col < cols ->
     tile_kept (grid_tile img row col) = true ->
     saved !! counted_name "ground" (row * cols + col) = Some (grid_tile img row col)) /\
  (forall name tile, saved !! name = Some tile ->
     temp_dir w !! name = Some tile \/
     exists row col, 0 <= row < rows /\ 0 <= col < cols /\
       tile_kept (grid_tile img row col) = true /\
       name = counted_name "ground" (row * cols + col) /\ tile = grid_tile img row col).
Proof.
  intros Hw rows cols saved. unfold saved. rewrite process_ground_png_run. simpl.
  assert (Hc : 0 <= cols) by (apply Z.div_pos; unfold TILE_SIZE; lia).
  split.
  - intros row col Hr Hcl Hk.
    pose proof (counted_sheet_saved (counted_name "ground") None img 0 0 rows cols
                  (counted_name_inj "ground") Hc (temp_dir w) row col Hr Hcl Hk eq_refl) as H.
    by rewrite Z.sub_0_r, Z.add_0_l in H.
  - intros name tile H.
    destruct (counted_sheet_only (counted_name "ground") None img 0 0 rows cols Hc _ _ _ H)
      as [Hold|(row & col & Hr & Hcl & [= -> ->] & Hk & _)]; [by left|right].
    exists row, col. rewrite Z.sub_0_r, Z.add_0_l. done.
Qed.

Lemma process_ground_png_names_witness :
  0 <= width (image_new 48 32 (mkPixel 1 1 1 255)) /\
  let img := image_new 48 32 (mkPixel 1 1 1 255) in
  let rows := height img / TILE_SIZE in
  let cols := width img / TILE_SIZE in
  let saved := temp_dir (process_ground_png "Ground0.png" (Png img) (mkWorkspace ∅ [])).1 in
  (forall row col, 0 <= row < rows -> 0 <= col < cols ->
     tile_kept (grid_tile img row col) = true ->
     saved !! counted_name "ground" (row * cols + col) = Some (grid_tile img row col)) /\
  (forall name tile, saved !! name = Some tile ->
     temp_dir (mkWorkspace ∅ []) !! name = Some tile \/
     exists row col, 0 <= row < rows /\ 0 <= col < cols /\
       tile_kept (grid_tile img row col) = true /\
       name = counted_name "ground" (row * cols + col) /\ tile = grid_tile img row col).
Proof. split; [simpl; lia|]. apply process_ground_png_names. simpl. lia. Defined.

(** C16: a Decor sheet is read from row 4 to row [min(15, rows - 1)] only,
    its counter starting at 0 on row 4: a kept cell [(row, col)] whose name
    [f"decor-{(row - 4) * cols + col}"] passes the used-name test is saved
    under it, and no other file is added. *)
Theorem process_decor_png_names (img : image) (path : string) (used : option (gset string))
    (w : workspace) :
  0 <= width img ->
  let rows := height img / TILE_SIZE in
  let cols := width img / TILE_SIZE in
  let saved := temp_dir (process_decor_png path (Png img) used w).1 in
  (forall row col, 4 <= row <= Z.min 15 (rows - 1) -> 0 <= col < cols ->
     tile_kept (grid_tile img row col) = true ->
     used_ok used (counted_name "decor" ((row - 4) * cols + col)) = true ->
     saved !! counted_name "decor" ((row - 4) * cols + col) = Some (grid_tile img row col)) /\
  (forall name tile, saved !! name = Some tile ->
     temp_dir w !! name = Some tile \/
     exists row col, 4 <= row <= Z.min 15 (rows - 1) /\ 0 <= col < cols /\
       tile_kept (grid_tile img row col) = true /\ used_ok used name = true /\
       name = counted_name "decor" ((row - 4) * cols + col) /\ tile = grid_tile img row col).
Proof.
  intros Hw rows cols saved. unfold saved. rewrite process_decor_png_run. simpl.
  assert (Hc : 0 <= cols) by (apply Z.div_pos; unfold TILE_SIZE; lia).
  split.
  - intros row col Hr Hcl Hk Hu. rewrite <- (Z.add_0_l ((row - 4) * cols + col)) in *.
    rewrite Z.add_assoc in *.
    by apply (counted_sheet_saved (counted_name "decor") used img 0 4 _ cols
                (counted_name_inj "decor") Hc); [lia|..].
  - intros name tile H.
    destruct (counted_sheet_only (counted_name "decor") used img 0 4 _ cols Hc _ _ _ H)
      as [Hold|(row & col & Hr & Hcl & [= -> ->] & Hk & Hu)]; [by left|right].
    exists row, col. rewrite Z.add_0_l in *. repeat split; try done; lia.
Qed.

Lemma process_decor_png_names_witness :
  0 <= width (image_new 48 128 (mkPixel 1 1 1 255)) /\
  let img := image_new 48 128 (mkPixel 1 1 1 255) in
  let rows := height img / TILE_SIZE in
  let cols := width img / TILE_SIZE in
  let saved := temp_dir (process_decor_png "Decor0.png" (Png img) None (mkWorkspace ∅ [])).1 in
  (forall row col, 4 <= row <= Z.min 15 (rows - 1) -> 0 <= col < cols ->
     tile_kept (grid_tile img row col) = true ->
     used_ok None (counted_name "decor" ((row - 4) * cols + col)) = true ->
     saved !! counted_name "decor" ((row - 4) * cols + col) = Some (grid_tile img row col)) /\
  (forall name tile, saved !! name = Some tile ->
     temp_dir (mkWorkspace ∅ []) !! name = Some tile \/
     exists row col, 4 <= row <= Z.min 15 (rows - 1) /\ 0 <= col < cols /\
       tile_kept (grid_tile img row col) = true /\ used_ok None name = true /\
       name = counted_name "decor" ((row - 4) * cols + col) /\ tile = grid_tile img row col).
Proof. split; [simpl; lia|]. apply process_decor_png_names. simpl. lia. Defined.

(** C17: a Door sheet with a used-name set saves a kept cell exactly when
    its stable name [f"{tile_type}-{row * cols + col}"] is in the set; the
    counter counts the cells it skips, so the names do not depend on the
    set. *)
Theorem process_doors_png_used (img : image) (path tile_type : string) (u : gset string)
    (w : workspace) :
  0 <= width img ->
  let rows := height img / TILE_SIZE in
  let cols := width img / TILE_SIZE in
  let saved := temp_dir (process_doors_png path (Png img) tile_type (Some u) w).1 in
  (forall row col, 0 <= row < rows -> 0 <= col < cols ->
     tile_kept (grid_tile img row col) = true ->
     counted_name tile_type (row * cols + col) ∈ u ->
     saved !! counted_name tile_type (row * cols + col) = Some (grid_tile img row col)) /\
  (forall name tile, saved !! name = Some tile ->
     temp_dir w !! name = Some tile \/
     (name ∈ u /\ exists row col, 0 <= row < rows /\ 0 <= col < cols /\
       tile_kept (grid_tile img row col) = true /\
       name = counted_name tile_type (row * cols + col) /\ tile = grid_tile img row col)).
Proof.
  intros Hw rows cols saved. unfold saved. rewrite process_doors_png_run. simpl.
  assert (Hc : 0 <= cols) by (apply Z.div_pos; unfold TILE_SIZE; lia).
  split.
  - intros row col Hr Hcl Hk Hu.
    pose proof (counted_sheet_saved (counted_name tile_type) (Some u) img 0 0 rows cols
                  (counted_name_inj tile_type) Hc (temp_dir w) row col Hr Hcl Hk) as H.
    rewrite Z.sub_0_r, Z.add_0_l in H. apply H. simpl. by apply bool_decide_eq_true.
  - intros name tile H.
    destruct (counted_sheet_only (counted_name tile_type) (Some u) img 0 0 rows cols Hc _ _ _ H)
      as [Hold|(row & col & Hr & Hcl & [= -> ->] & Hk & Hu)]; [by left|right].
    simpl in Hu. apply bool_decide_eq_true in Hu. rewrite Z.sub_0_r, Z.add_0_l in *.
    split; [done|]. exists row, col. done.
Qed.

Lemma process_doors_png_used_witness :
  0 <= width (image_new 48 32 (mkPixel 1 1 1 255)) /\
  let img := image_new 48 32 (mkPixel 1 1 1 255) in
  let rows := height img / TILE_SIZE in
  let cols := width img / TILE_SIZE in
  let saved := temp_dir (process_doors_png "Door0.png" (Png img) "doors0" (Some {["doors0-4"]})
                           (mkWorkspace ∅ [])).1 in
  (forall row col, 0 <= row < rows -> 0 <= col < cols ->
     tile_kept (grid_tile img row col) = true ->
     counted_name "doors0" (row * cols + col) ∈ ({["doors0-4"]} : gset string) ->
     saved !! counted_name "doors0" (row * cols + col) = Some (grid_tile img row col)) /\
  (forall name tile, saved !! name = Some tile ->
     temp_dir (mkWorkspace ∅ []) !! name = Some tile \/
     (name ∈ ({["doors0-4"]} : gset string) /\ exists row col, 0 <= row < rows /\ 0 <= col < cols /\
       tile_kept (grid_tile img row col) = true /\
       name = counted_name "doors0" (row * cols + col) /\ tile = grid_tile img row col)).
Proof. split; [simpl; lia|]. apply process_doors_png_used. simpl. lia. Defined.

(** C8: every readable character sheet ends in an error: after all its
    kept tiles are saved as [f"{char_name}-{sprite_count}-{frame}"], the
    summary line names the undefined [limit_msg], and the [except] reports
    [NameError] for the sheet. The tiles stay saved, so the atlas is not
    affected, but the run reports every character sheet as failed. *)
Theorem process_character_png_name_error (path : string) (img : image) (w : workspace) :
  let '(char_name, frame) := extract_character_name path in
  process_character_png path (Png img) w =
    (mkWorkspace
       (insert_all (temp_dir w)
          (counted_entries (character_tile_name char_name frame) None img 0
             (grid_positions 0 (height img / TILE_SIZE) (width img / TILE_SIZE))))
       (errors w ++ [(path, NameError "limit_msg")]), inr tt).
Proof.
  unfold process_character_png, guard_sheet, try_except. cbn [bind lift image_open].
  destruct (extract_character_name path) as [char_name frame].
  rewrite run_bind, counted_loop_run. reflexivity.
Qed.

(** C36: [extract_character_name] follows the regular expression
    [^(.+?)(\d+)$]: for a sheet [f"{p}{d}.png"], [d] a non-empty run of
    digits and [p] a non-empty name that does not end in a digit, the lazy
    first group stops where the trailing digits start, so the character is
    [p.lower()] and the frame [int(d)]: Rat12.png gives [("rat", 12)], not
    [("rat1", 2)]. *)
Theorem extract_character_name_split (p d : list ascii) :
  p <> [] -> d <> [] -> Forall (fun c => is_digit c = true) d ->
  (forall c, last p = Some c -> is_digit c = false) ->
  extract_character_name (String.string_of_list_ascii (p ++ d) +:+ ".png") =
    (str_lower (String.string_of_list_ascii p), parse_digits (String.string_of_list_ascii d)).
Proof.
  intros Hp Hd Hdig Hlast. unfold extract_character_name.
  rewrite path_stem_png by (by destruct p).
  rewrite String.list_ascii_of_string_of_list_ascii, trailing_digits_app by done.
  rewrite length_app, (proj2 (Nat.eqb_neq (length d) 0)) by (destruct d; simpl; [done|lia]).
  rewrite (proj2 (Nat.ltb_lt (length d) (length p + length d))) by (destruct p; simpl; [done|lia]).
  replace (length p + length d - length d)%nat with (length p) by lia.
  by rewrite take_app_length, drop_app_length.
Qed.

Lemma extract_character_name_split_witness :
  (["R"; "a"; "t"]%char <> [] /\ ["1"; "2"]%char <> [] /\
   Forall (fun c => is_digit c = true) ["1"; "2"]%char /\
   (forall c, last ["R"; "a"; "t"]%char = Some c -> is_digit c = false)) /\
  extract_character_name (String.string_of_list_ascii (["R"; "a"; "t"] ++ ["1"; "2"])%char +:+ ".png") =
    (str_lower (String.string_of_list_ascii ["R"; "a"; "t"]%char),
     parse_digits (String.string_of_list_ascii ["1"; "2"]%char)).
Proof.
  assert (Hd : Forall (fun c => is_digit c = true) ["1"; "2"]%char) by (repeat constructor).
  assert (Hl : forall c, last ["R"; "a"; "t"]%char = Some c -> is_digit c = false)
    by (intros c [= <-]; reflexivity).
  split; [split; [done|split; [done|split; [exact Hd|exact Hl]]]|].
  by apply extract_character_name_split.
Defined.
