(* ===== verification/Frames.v ===== *)
(** * FrameCombiner: the two-frame character sprites of gen_characters.py

    [collect_sprite_pairs] groups the tiles [process_character_png] saved
    as [f"{char_name}-{sprite_count}-{frame}.png"] by their first two
    dash-separated fields; [create_atlas] pastes the two frames of a group
    side by side into one 32 x 16 sprite ([create_double_width_sprite]),
    keeps the groups [monsters.csv] lists, and packs them with a debug tile
    into character_tiles.png and character_tiles.json. *)

From S2P Require Import Prelude PyStr Image Atlas Packer Slicer.

Local Open Scope string_scope.

(** ** Grouping the temporary files *)

(** A file of the temporary directory is named by its stem; the listing of
    [temp_dir.glob("*.png")] is a list of stems in the order the file
    system gives. The loop body of [collect_sprite_pairs], gen_characters.py
    lines 170-175: [parts = stem.split('-')]; with at least three parts,
    the group is [f"{parts[0]}-{parts[1]}"] and the frame [int(parts[2])],
    which raises [ValueError] on a non-number. *)
Definition sprite_key (stem : string) : exn + option (string * Z) :=
  match py_split stem "-" with
  | char_name :: sprite_num :: frame :: _ =>
      let? f := py_int frame in inr (Some (char_name +:+ "-" +:+ sprite_num, f))
  | _ => inr None
  end.

(** [sprite_groups[key].append(v)] on a [defaultdict(list)]: the groups in
    the order their keys first appear, each with its values in order. *)
Fixpoint group_append {A} (key : string) (v : A) (g : list (string * list A))
  : list (string * list A) :=
  match g with
  | [] => [(key, [v])]
  | (k, vs) :: r => if decide (k = key) then (k, (vs ++ [v])%list) :: r else (k, vs) :: group_append key v r
  end.

Fixpoint collect_go (sprite_files : list string) (sprite_groups : list (string * list (Z * string)))
  : exn + list (string * list (Z * string)) :=
  match sprite_files with
  | [] => inr sprite_groups
  | sprite_file :: rest =>
      let? k := sprite_key sprite_file in
      collect_go rest (match k with
                       | Some (key, frame) => group_append key (frame, sprite_file) sprite_groups
                       | None => sprite_groups
                       end)
  end.

(** [collect_sprite_pairs(temp_dir)], lines 163-177. *)
Definition collect_sprite_pairs (sprite_files : list string) : exn + list (string * list (Z * string)) :=
  collect_go sprite_files [].

(** ** Combining the frames *)

(** [Image.open(path).convert('RGBA')] of a file of the temporary
    directory. *)
Definition open_sprite (temp_dir : gmap string image) (stem : string) : exn + image :=
  match temp_dir !! stem with Some img => inr img | None => inl (FileNotFoundError stem) end.

(** [create_double_width_sprite(frame_0_path, frame_1_path)], lines 179-192. *)
Definition create_double_width_sprite (temp_dir : gmap string image) (frame_0_path frame_1_path : string)
  : exn + image :=
  let? frame_0 := open_sprite temp_dir frame_0_path in
  let? frame_1 := open_sprite temp_dir frame_1_path in
  let combined := image_new (SPRITE_WIDTH characters_config) (SPRITE_HEIGHT characters_config) transparent in
  inr (paste (paste combined frame_0 0 0) frame_1 TILE_SIZE 0).

Definition SET_THIS_TO_FALSE_TO_GET_ALL_CHARACTERS : bool := true.

(** [if SET_THIS_TO_FALSE_TO_GET_ALL_CHARACTERS and sprite_name not in
    allowed_sprite_names: continue]. *)
Definition characters_keep (allowed_sprite_names : gset string) (sprite_name : string) : bool :=
  negb (SET_THIS_TO_FALSE_TO_GET_ALL_CHARACTERS && negb (bool_decide (sprite_name ∈ allowed_sprite_names))).

(** [frames.sort(key=lambda x: x[0])]. *)
Definition frame_le (a b : Z * string) : bool := (a.1 <=? b.1)%Z.

(** [sorted(sprite_groups.items())]: the keys are distinct, so the tuples
    are ordered by their keys. *)
Definition group_le (a b : string * list (Z * string)) : bool := py_str_le a.1 b.1.

(** The body of the loop over the sorted groups, lines 235-250: two frames
    are combined side by side, one frame is doubled, other counts are
    skipped; the sprite is built before the allow-list test. *)
Definition combine_group (temp_dir : gmap string image) (allowed_sprite_names : gset string)
  (sprite_name : string) (frames : list (Z * string)) : exn + list (string * image) :=
  let frames := sort_by frame_le frames in
  let keep c := inr (if characters_keep allowed_sprite_names sprite_name then [(sprite_name, c)] else []) in
  match frames with
  | [frame_0; frame_1] =>
      let? combined_sprite := create_double_width_sprite temp_dir frame_0.2 frame_1.2 in
      keep combined_sprite
  | [frame] =>
      let? combined_sprite := create_double_width_sprite temp_dir frame.2 frame.2 in
      keep combined_sprite
  | _ => inr []
  end.

Fixpoint combine_groups (temp_dir : gmap string image) (allowed_sprite_names : gset string)
  (groups : list (string * list (Z * string))) : exn + list (string * image) :=
  match groups with
  | [] => inr []
  | (sprite_name, frames) :: rest =>
      let? here := combine_group temp_dir allowed_sprite_names sprite_name frames in
      let? rest' := combine_groups temp_dir allowed_sprite_names rest in
      inr (here ++ rest')%list
  end.

Section CreateAtlas.
Context `{Font}.

(** [create_atlas(sprite_groups)] of gen_characters.py, lines 224-302; the
    allow list is [read_allowed_sprite_names_from_csv()], read before the
    loop. Unlike the world and item scripts, no debug.png is written. *)
Definition create_atlas_characters (sprite_groups : list (string * list (Z * string)))
  (temp_dir : gmap string image) (read_allowed : exn + gset string) : PyM output_dir bool :=
  allowed_sprite_names <- lift read_allowed ;;
  atlas_sprites <- lift (combine_groups temp_dir allowed_sprite_names (sort_by group_le sprite_groups)) ;;
  let debug_tile := create_debug_tile characters_config in
  let atlas_sprites := (atlas_sprites ++ [("debug", debug_tile)])%list in
  packed <- lift (pack characters_config atlas_sprites) ;;
  let '(atlas_width, atlas_height, atlas, coordinates) := packed in
  let atlas := add_watermark atlas WATERMARK in
  write_output "character_tiles.png" (PngFile atlas) ;;
  write_output "character_tiles.json"
    (JsonFile (mkMetadata [("tileWidth", SPRITE_WIDTH characters_config);
                           ("tileHeight", SPRITE_HEIGHT characters_config)] coordinates)) ;;
  ret true.
End CreateAtlas.

(** ** Lemmas on the grouping *)

(** [sprite_groups.get(key, [])]. *)
Fixpoint group_lookup {A} (key : string) (g : list (string * list A)) : list A :=
  match g with
  | [] => []
  | (k, vs) :: r => if decide (k = key) then vs else group_lookup key r
  end.

(** The files of the listing that fall in group [key], in listing order,
    with their frames. *)
Definition members (key : string) (sprite_files : list string) : list (Z * string) :=
  omap (fun f => match sprite_key f with
                 | inr (Some (k, frame)) => if decide (k = key) then Some (frame, f) else None
                 | _ => None
                 end) sprite_files.

Section GroupAppend.
Context {A : Type}.

Lemma group_lookup_append (key key' : string) (v : A) g :
  group_lookup key' (group_append key v g) =
    (group_lookup key' g ++ if decide (key = key') then [v] else [])%list.
Proof.
  induction g as [|[k vs] r IH]; simpl; [by case_decide|].
  destruct (decide (k = key)) as [<-|Hk]; simpl;
    repeat case_decide; subst; rewrite ?app_nil_r; first [congruence|rewrite IH; by rewrite ?app_nil_r].
Qed.

Lemma group_append_keys (key : string) (v : A) g :
  (group_append key v g).*1 = (g.*1 ++ if bool_decide (key ∈ g.*1) then [] else [key])%list.
Proof.
  induction g as [|[k vs] r IH]; [done|]. cbn [group_append].
  destruct (decide (k = key)) as [<-|Hk]; rewrite !fmap_cons; cbn [fst].
  - rewrite bool_decide_true by set_solver. by rewrite app_nil_r.
  - rewrite IH. simpl. do 2 f_equal. rewrite (bool_decide_ext (key ∈ k :: r.*1) (key ∈ r.*1)); [done|set_solver].
Qed.

Lemma group_append_NoDup (key : string) (v : A) g :
  NoDup g.*1 -> NoDup (group_append key v g).*1.
Proof.
  intros Hnd. rewrite group_append_keys. case_bool_decide; [by rewrite app_nil_r|].
  apply NoDup_app. split; [done|]. split; [set_solver|]. apply NoDup_singleton.
Qed.

Lemma group_lookup_elem (key : string) (g : list (string * list A)) :
  key ∈ g.*1 -> (key, group_lookup key g) ∈ g.
Proof.
  induction g as [|[k vs] r IH]; simpl; [set_solver|].
  intros Hk. case_decide; subst; [set_solver|]. apply elem_of_cons. right. apply IH. set_solver.
Qed.
End GroupAppend.

Lemma members_cons key f fs :
  members key (f :: fs) =
    ((match sprite_key f with
      | inr (Some (k, frame)) => if decide (k = key) then [(frame, f)] else []
      | _ => []
      end) ++ members key fs)%list.
Proof. unfold members. simpl. destruct (sprite_key f) as [e|[[k fr]|]]; simpl; try case_decide; done. Qed.

(** The grouping loop: each key collects its members in order, keys stay
    distinct, and a key with a member is a key of the result. *)
Lemma collect_go_spec files g g' :
  collect_go files g = inr g' ->
  (forall key, group_lookup key g' = (group_lookup key g ++ members key files)%list) /\
  (NoDup g.*1 -> NoDup g'.*1) /\
  (forall key, key ∈ g'.*1 <-> key ∈ g.*1 \/ members key files <> []).
Proof.
  revert g. induction files as [|f fs IH]; intros g Hc; simpl in Hc.
  - injection Hc as <-. split; [intros; by rewrite app_nil_r|]. split; [done|].
    intros key. split; [by left|]. intros [?|[]]; done.
  - destruct (sprite_key f) as [e|[[key0 fr]|]] eqn:Hk; simpl in Hc; [done| |].
    + destruct (IH _ Hc) as (Hl & Hnd & Hin). split; [|split].
      * intros key. rewrite Hl, group_lookup_append, members_cons, Hk, <- app_assoc. done.
      * intros Hg. apply Hnd, group_append_NoDup, Hg.
      * intros key. rewrite Hin, group_append_keys, members_cons, Hk.
        case_decide; subst; case_bool_decide; set_solver.
    + destruct (IH _ Hc) as (Hl & Hnd & Hin). split; [|split]; [|done|].
      * intros key. by rewrite Hl, members_cons, Hk.
      * intros key. by rewrite Hin, members_cons, Hk.
Qed.

(** The grouping makes at most one group per listed file. *)
Lemma collect_go_length files g g' :
  collect_go files g = inr g' -> (length g' <= length g + length files)%nat.
Proof.
  revert g. induction files as [|f fs IH]; intros g Hc; simpl in Hc.
  - injection Hc as <-. lia.
  - destruct (sprite_key f) as [e|[[key0 fr]|]]; simpl in Hc; [done| |].
    + apply IH in Hc. rewrite <- (length_fmap fst (group_append _ _ _)), group_append_keys,
        length_app, length_fmap in Hc. simpl. case_bool_decide; simpl in Hc; lia.
    + apply IH in Hc. simpl. lia.
Qed.

Lemma collect_go_ok files g :
  (forall f, f ∈ files -> exists o, sprite_key f = inr o) -> exists g', collect_go files g = inr g'.
Proof.
  revert g. induction files as [|f fs IH]; intros g Hok; simpl; [eauto|].
  destruct (Hok f ltac:(set_solver)) as [o ->]. simpl. apply IH. set_solver.
Qed.

Lemma group_lookup_NoDup {A} (g : list (string * list A)) k vs :
  NoDup g.*1 -> (k, vs) ∈ g -> group_lookup k g = vs.
Proof.
  induction g as [|[k' vs'] r IH]; simpl; [set_solver|]. rewrite NoDup_cons.
  intros [Hk' Hnd] Hin. apply elem_of_cons in Hin as [[= <- <-]|Hin]; [by rewrite decide_True|].
  rewrite decide_False; [by apply IH|]. intros ->. apply Hk', (list_elem_of_fmap_2 fst _ _ Hin).
Qed.

Lemma elem_of_members key files fr :
  fr ∈ members key files -> fr.2 ∈ files /\ sprite_key fr.2 = inr (Some (key, fr.1)).
Proof.
  unfold members. intros (f & Hf & Hm)%list_elem_of_omap.
  destruct (sprite_key f) as [e|[[k frame]|]] eqn:Hk; try done.
  case_decide; [|done]. injection Hm as <-. subst. done.
Qed.

Local Open Scope Z_scope.

(** ** Lemmas on the combined sprites *)

Lemma sort_two_frames s0 s1 frames :
  frames ≡ₚ [(0, s0); (1, s1)] -> sort_by frame_le frames = [(0, s0); (1, s1)].
Proof. intros Hp. symmetry in Hp. apply Permutation_length_2_inv in Hp as [-> | ->]; reflexivity. Qed.

(** The left half of a combined sprite is frame 0 and the right half
    frame 1. *)
Lemma double_width_pixel f0 f1 i j :
  width f0 = TILE_SIZE -> height f0 = TILE_SIZE -> width f1 = TILE_SIZE -> height f1 = TILE_SIZE ->
  0 <= i < 32 -> 0 <= j < 16 ->
  getpixel (paste (paste (image_new 32 16 transparent) f0 0 0) f1 TILE_SIZE 0) i j =
    if i <? 16 then getpixel f0 i j else getpixel f1 (i - 16) j.
Proof.
  unfold TILE_SIZE. intros Hw0 Hh0 Hw1 Hh1 Hi Hj. destruct (Z.ltb_spec i 16).
  - rewrite getpixel_paste_out by lia. rewrite getpixel_paste_in; simpl; try lia.
    by rewrite !Z.sub_0_r.
  - rewrite getpixel_paste_in; simpl; try lia. by rewrite Z.sub_0_r.
Qed.

Lemma length_sort_by {A} (le : A -> A -> bool) l : length (sort_by le l) = length l.
Proof. apply Permutation_length, sort_by_perm. Qed.

Lemma combine_group_names temp allowed name frames here :
  combine_group temp allowed name frames = inr here -> here.*1 = [] \/ here.*1 = [name].
Proof.
  unfold combine_group. destruct (sort_by frame_le frames) as [|a [|b [|c l]]]; simpl; try by intros [= <-]; left.
  all: destruct (create_double_width_sprite _ _ _); simpl; [done|].
  all: intros [= <-]; destruct (characters_keep allowed name); [right|left]; done.
Qed.

Lemma combine_groups_names temp allowed gs out :
  combine_groups temp allowed gs = inr out ->
  (length out <= length gs)%nat /\ (forall n, n ∈ out.*1 -> n ∈ gs.*1) /\
  (NoDup gs.*1 -> NoDup out.*1).
Proof.
  revert out. induction gs as [|[n frames] gs IH]; intros out; simpl.
  - intros [= <-]. simpl. split; [lia|]. split; [set_solver|done].
  - destruct (combine_group temp allowed n frames) as [e|here] eqn:Hg; simpl; [done|].
    destruct (combine_groups temp allowed gs) as [e|rest] eqn:Hr; simpl; [done|].
    intros [= <-]. destruct (IH _ eq_refl) as (Hlen & Hn & Hnd).
    pose proof (length_fmap fst here) as Hlh. rewrite length_app, fmap_app.
    destruct (combine_group_names _ _ _ _ _ Hg) as [Hh|Hh]; rewrite Hh in *; simpl in Hlh.
    + split; [|split]; [lia| |].
      * intros m Hm. apply elem_of_cons. right. by apply Hn.
      * rewrite NoDup_cons. tauto.
    + split; [|split]; [lia| |].
      * intros m [->|Hm]%elem_of_cons; apply elem_of_cons; [by left|right; by apply Hn].
      * intros Hnd0. apply NoDup_cons in Hnd0 as [Hn0 Hgs]. apply NoDup_cons.
        split; [|by apply Hnd]. intros Hm. by apply Hn0, Hn.
Qed.

Lemma combine_group_ok temp allowed name frames :
  (forall fr, fr ∈ frames -> is_Some (temp !! fr.2)) ->
  exists here, combine_group temp allowed name frames = inr here /\
    Forall (sprite_sized characters_config) here.
Proof.
  intros Hopen. unfold combine_group.
  assert (Hs : forall fr, fr ∈ sort_by frame_le frames -> exists img, temp !! fr.2 = Some img).
  { intros fr Hfr. apply Hopen. by rewrite <- (sort_by_perm frame_le frames). }
  unfold create_double_width_sprite, open_sprite.
  destruct (sort_by frame_le frames) as [|a [|b [|c l]]]; [by eauto| | |by eauto].
  - destruct (Hs a ltac:(set_solver)) as [ia ->]. simpl.
    eexists; split; [done|]. destruct (characters_keep allowed name); repeat constructor.
  - destruct (Hs a ltac:(set_solver)) as [ia ->]. destruct (Hs b ltac:(set_solver)) as [ib ->]. simpl.
    eexists; split; [done|]. destruct (characters_keep allowed name); repeat constructor.
Qed.

Lemma combine_groups_ok temp allowed gs :
  (forall g fr, g ∈ gs -> fr ∈ g.2 -> is_Some (temp !! fr.2)) ->
  exists out, combine_groups temp allowed gs = inr out /\ Forall (sprite_sized characters_config) out.
Proof.
  induction gs as [|[n frames] gs IH]; intros Hopen; simpl; [by eauto|].
  destruct (combine_group_ok temp allowed n frames) as (here & -> & Hh);
    [intros fr; apply (Hopen (n, frames)); set_solver|].
  destruct IH as (rest & -> & Hr); [intros g fr Hg; apply Hopen; set_solver|].
  eexists; split; [done|]. by apply Forall_app.
Qed.

(** A group whose combined sprite is kept appears once in the loop's
    output, and no later sprite has its name. *)
Lemma combine_groups_member temp allowed gs out name frames c :
  combine_groups temp allowed gs = inr out -> NoDup gs.*1 -> (name, frames) ∈ gs ->
  combine_group temp allowed name frames = inr [(name, c)] ->
  exists o1 o2, out = (o1 ++ (name, c) :: o2)%list /\ name ∉ o2.*1.
Proof.
  revert out. induction gs as [|[n fs] gs IH]; intros out; simpl; [set_solver|].
  destruct (combine_group temp allowed n fs) as [e|here] eqn:Hg; simpl; [done|].
  destruct (combine_groups temp allowed gs) as [e|rest] eqn:Hr; simpl; [done|].
  intros [= <-] Hnd Hin Hc. apply NoDup_cons in Hnd as [Hn Hnd].
  destruct (combine_groups_names _ _ _ _ Hr) as (_ & Hnames & _).
  apply elem_of_cons in Hin as [[= <- <-]|Hin].
  - rewrite Hc in Hg. injection Hg as <-. exists [], rest. split; [done|]. naive_solver.
  - destruct (IH _ eq_refl Hnd Hin Hc) as (o1 & o2 & -> & Ho2).
    exists (here ++ o1)%list, o2. split; [by rewrite <- app_assoc|done].
Qed.

Lemma pretty_no_dash (n : Z) : 0 <= n -> has_char "-" (pretty n) = false.
Proof. intros Hn. apply digits_no_char; [done|by apply pretty_digits]. Qed.

Lemma sprite_key_group f key frame :
  sprite_key f = inr (Some (key, frame)) -> exists a b, key = a +:+ "-" +:+ b.
Proof.
  unfold sprite_key. destruct (py_split f "-") as [|a [|b [|fr l]]]; try done.
  destruct (py_int fr); simpl; [done|]. intros [= <- _]. eauto.
Qed.

Lemma has_char_app sep a b : has_char sep (a +:+ b) = has_char sep a || has_char sep b.
Proof.
  unfold has_char. induction a as [|c a IH]; simpl; [done|].
  rewrite !negb_andb, IH, negb_involutive. by rewrite orb_assoc.
Qed.

Lemma group_not_debug f key frame : sprite_key f = inr (Some (key, frame)) -> key <> "debug".
Proof.
  intros Hk ->. destruct (sprite_key_group _ _ _ Hk) as (a & b & Hab).
  assert (Hc : has_char "-" "debug" = true) by (rewrite Hab, !has_char_app; simpl; by rewrite orb_true_r).
  done.
Qed.

Section CreateAtlasLemmas.
Context `{Font}.

Lemma create_atlas_characters_run groups temp allowed o out w h atlas coords :
  combine_groups temp allowed (sort_by group_le groups) = inr out ->
  pack characters_config (out ++ [("debug", create_debug_tile characters_config)])%list =
    inr (w, h, atlas, coords) ->
  create_atlas_characters groups temp (inr allowed) o =
    (<["character_tiles.json" := JsonFile (mkMetadata [("tileWidth", 32); ("tileHeight", 16)] coords)]>
      (<["character_tiles.png" := PngFile (add_watermark atlas WATERMARK)]> o), inr true).
Proof.
  intros Hc Hp. unfold create_atlas_characters, bind, lift, write_output, modify, ret.
  cbn beta iota. rewrite Hc. cbn beta iota. by rewrite Hp.
Qed.
End CreateAtlasLemmas.

(** Whether the loop over the sorted groups keeps a group: one or two
    frames, and a name the allow list has. *)
Definition group_kept (allowed : gset string) (g : string * list (Z * string)) : bool :=
  ((length g.2 =? 1)%nat || (length g.2 =? 2)%nat) && characters_keep allowed g.1.

Lemma combine_group_keys temp allowed name frames here :
  combine_group temp allowed name frames = inr here ->
  here.*1 = if group_kept allowed (name, frames) then [name] else [].
Proof.
  unfold combine_group, group_kept. cbn [fst snd]. rewrite <- (length_sort_by frame_le frames).
  destruct (sort_by frame_le frames) as [|a [|b [|c l]]]; simpl; try by intros [= <-].
  all: destruct (create_double_width_sprite _ _ _); simpl; [done|].
  all: intros [= <-]; by destruct (characters_keep allowed name).
Qed.

Lemma combine_groups_keys temp allowed gs out :
  combine_groups temp allowed gs = inr out -> out.*1 = (List.filter (group_kept allowed) gs).*1.
Proof.
  revert out. induction gs as [|[n frames] gs IH]; intros out; simpl; [by intros [= <-]|].
  destruct (combine_group temp allowed n frames) as [e|here] eqn:Hg; simpl; [done|].
  destruct (combine_groups temp allowed gs) as [e|rest] eqn:Hr; simpl; [done|].
  intros [= <-]. rewrite fmap_app, (combine_group_keys _ _ _ _ _ Hg), (IH _ eq_refl).
  destruct (group_kept allowed (n, frames)); reflexivity.
Qed.

Lemma members_perm key l1 l2 : l1 ≡ₚ l2 -> members key l1 ≡ₚ members key l2.
Proof. intros Hp. unfold members. by rewrite Hp. Qed.

(** Every frame of a group comes from the listing, so it opens when every
    listed file does. *)
Lemma collect_groups_open files (temp : gmap string image) groups :
  collect_sprite_pairs files = inr groups ->
  (forall f, f ∈ files -> is_Some (temp !! f)) ->
  forall g fr, g ∈ sort_by group_le groups -> fr ∈ g.2 -> is_Some (temp !! fr.2).
Proof.
  intros Hcol Hopen [k vs] fr Hkv Hfr.
  destruct (collect_go_spec files [] groups Hcol) as (Hl & Hnd & _).
  rewrite sort_by_perm in Hkv. simpl in Hfr.
  rewrite <- (group_lookup_NoDup groups k vs (Hnd NoDup_nil_2) Hkv), Hl in Hfr. simpl in Hfr.
  apply Hopen, (elem_of_members _ _ _ Hfr).
Qed.

(** The names the loop over the sorted groups keeps: the groups with one
    or two frames that the allow list has. *)
Lemma character_groups_keys files temp allowed groups out :
  collect_sprite_pairs files = inr groups ->
  combine_groups temp allowed (sort_by group_le groups) = inr out ->
  forall n, n ∈ out.*1 <->
    n ∈ allowed /\ (length (members n files) = 1 \/ length (members n files) = 2)%nat.
Proof.
  intros Hcol Hout n. destruct (collect_go_spec files [] groups Hcol) as (Hl & Hnd & Hin).
  specialize (Hnd NoDup_nil_2). rewrite (combine_groups_keys _ _ _ _ Hout), list_elem_of_fmap.
  unfold group_kept, characters_keep, SET_THIS_TO_FALSE_TO_GET_ALL_CHARACTERS. split.
  - intros ([n' fs] & -> & Hg). rewrite list_elem_of_In, filter_In, <- list_elem_of_In, sort_by_perm in Hg.
    destruct Hg as [Hg Hk]. pose proof (group_lookup_NoDup groups n' fs Hnd Hg) as Hfs.
    rewrite Hl in Hfs. simpl in Hfs, Hk. subst fs.
    apply andb_true_iff in Hk as [Hlen Hkeep]. case_bool_decide; [|done].
    split; [done|]. apply orb_true_iff in Hlen as [?|?]; [left|right]; by apply Nat.eqb_eq.
  - intros [Ha Hlen].
    assert (Hk : n ∈ groups.*1) by (apply Hin; right; intros E; rewrite E in Hlen; simpl in Hlen; lia).
    exists (n, members n files). split; [done|].
    rewrite list_elem_of_In, filter_In, <- list_elem_of_In, sort_by_perm. split.
    + pose proof (group_lookup_elem n groups Hk) as Hg. by rewrite Hl in Hg.
    + simpl. rewrite bool_decide_true by done. by destruct Hlen as [-> | ->].
Qed.

(** [collect_sprite_pairs] on a name of three dash-free fields groups it
    by the first two and reads the frame from the third with [int]. *)
Lemma sprite_key_fields (a b c : string) :
  has_char "-" a = false -> has_char "-" b = false -> has_char "-" c = false ->
  sprite_key (a +:+ "-" +:+ b +:+ "-" +:+ c) = (let? f := py_int c in inr (Some (a +:+ "-" +:+ b, f))).
Proof.
  intros Ha Hb Hc. unfold sprite_key. rewrite !string_char_app.
  by rewrite (py_split_app a), (py_split_app b), py_split_no_sep.
Qed.

(** ** Theorems *)

(** C13: the names [process_character_png] writes are read back by
    [collect_sprite_pairs]: for a character name without a dash and
    non-negative counter and frame, the file [f"{char_name}-{count}-{frame}"]
    falls in group [f"{char_name}-{count}"] with frame [frame]; [int]
    reads back what [f"{n}"] printed. *)
Theorem sprite_key_character_tile_name (char_name : string) (frame sprite_count : Z) :
  has_char "-" char_name = false -> 0 <= sprite_count -> 0 <= frame ->
  sprite_key (character_tile_name char_name frame sprite_count) =
    inr (Some (char_name +:+ "-" +:+ pretty sprite_count, frame)).
Proof.
  intros Hc Hn Hf. unfold character_tile_name.
  rewrite sprite_key_fields by (apply pretty_no_dash || done; lia). simpl. by rewrite py_int_pretty.
Qed.

Lemma sprite_key_character_tile_name_witness :
  has_char "-" "player" = false /\ 0 <= 3 /\ 0 <= 1 /\
  sprite_key (character_tile_name "player" 1 3) = inr (Some ("player" +:+ "-" +:+ pretty 3, 1)).
Proof.
  split; [reflexivity|]. split; [lia|]. split; [lia|].
  apply sprite_key_character_tile_name; [reflexivity|lia|lia].
Defined.

(** C26: a character sheet whose name has a dash, such as [Fire-Imp0.png]
    (character ["fire-imp"]), is grouped wrongly: the group of tile
    [f"fire-imp-{count}-{frame}"] is ["fire-imp"] and its frame is the
    counter, so all tiles of the sheet fall in one group with one frame per
    tile, and the pair test [len(frames) == 2] drops it. *)
Theorem sprite_key_dashed_name (a b : string) (frame sprite_count : Z) :
  has_char "-" a = false -> has_char "-" b = false -> 0 <= sprite_count ->
  sprite_key (character_tile_name (a +:+ "-" +:+ b) frame sprite_count) =
    inr (Some (a +:+ "-" +:+ b, sprite_count)).
Proof.
  intros Ha Hb Hn. unfold sprite_key, character_tile_name. rewrite <- !string_app_assoc.
  rewrite !string_char_app.
  rewrite (py_split_app a), (py_split_app b), (py_split_app (pretty sprite_count))
    by (apply pretty_no_dash || done; lia).
  simpl. by rewrite py_int_pretty.
Qed.

Lemma sprite_key_dashed_name_witness :
  extract_character_name "Fire-Imp0.png" = ("fire-imp", 0) /\
  has_char "-" "fire" = false /\ has_char "-" "imp" = false /\ 0 <= 7 /\
  sprite_key (character_tile_name ("fire" +:+ "-" +:+ "imp") 0 7) =
    inr (Some ("fire" +:+ "-" +:+ "imp", 7)).
Proof.
  split; [vm_compute; reflexivity|]. split; [reflexivity|]. split; [reflexivity|]. split; [lia|].
  apply sprite_key_dashed_name; [reflexivity|reflexivity|lia].
Defined.

(** The loop over the sorted groups succeeds when every listed file opens,
    and a group with frames 0 and 1 that the allow list keeps is in its
    output once, as the side-by-side sprite. *)
Lemma combine_sorted_groups files temp allowed groups key s0 s1 f0 f1 :
  collect_sprite_pairs files = inr groups ->
  (forall f, f ∈ files -> is_Some (temp !! f)) ->
  members key files ≡ₚ [(0, s0); (1, s1)] ->
  temp !! s0 = Some f0 -> temp !! s1 = Some f1 -> key ∈ allowed ->
  exists o1 o2, combine_groups temp allowed (sort_by group_le groups) =
      inr ((o1 ++ (key, paste (paste (image_new 32 16 transparent) f0 0 0) f1 TILE_SIZE 0) :: o2)%list) /\
    (key ∉ o2.*1) /\ (length (o1 ++ o2) < length groups)%nat /\
    Forall (sprite_sized characters_config) (o1 ++ o2).
Proof.
  intros Hcol Hopen Hmem H0 H1 Hkey.
  destruct (collect_go_spec files [] groups Hcol) as (Hl & Hnd & Hin).
  specialize (Hnd (NoDup_nil_2)).
  assert (Hperm : sort_by group_le groups ≡ₚ groups) by apply sort_by_perm.
  assert (Hndsg : NoDup (sort_by group_le groups).*1) by (by rewrite Hperm).
  assert (Hk : key ∈ groups.*1).
  { apply (proj2 (Hin key)). right. intros E. rewrite E in Hmem. by apply Permutation_nil_cons in Hmem. }
  pose proof (group_lookup_elem key groups Hk) as Hg. rewrite Hl in Hg. simpl in Hg.
  destruct (combine_groups_ok temp allowed (sort_by group_le groups)) as (out & Hout & Hsz);
    [by apply (collect_groups_open files)|].
  assert (Hcg : combine_group temp allowed key (members key files) =
            inr [(key, paste (paste (image_new 32 16 transparent) f0 0 0) f1 TILE_SIZE 0)]).
  { unfold combine_group. rewrite (sort_two_frames _ _ _ Hmem). simpl.
    unfold create_double_width_sprite, open_sprite. rewrite H0, H1. simpl.
    unfold characters_keep. by rewrite bool_decide_true. }
  destruct (combine_groups_member _ _ _ _ _ _ _ Hout Hndsg ltac:(by rewrite Hperm) Hcg)
    as (o1 & o2 & -> & Ho2).
  destruct (combine_groups_names _ _ _ _ Hout) as (Hlout & _ & _).
  rewrite (Permutation_length Hperm), !length_app in Hlout. simpl in Hlout.
  exists o1, o2. split; [done|]. split; [done|]. split; [rewrite length_app; lia|].
  apply Forall_app in Hsz as [Hs1 Hs2]. apply Forall_cons in Hs2 as [_ Hs2]. by apply Forall_app.
Qed.

Lemma debug_tile_sized cfg : sprite_sized cfg ("debug", create_debug_tile cfg).
Proof. done. Qed.

(** C4: what gen_characters.py writes for a two-frame character: when the
    temporary directory holds exactly the files [s0] (frame 0) and [s1]
    (frame 1) of group [key], every listed file opens, and monsters.csv
    lists [key], [create_atlas] returns [True], character_tiles.json maps
    [key] to [(x, y)], and the atlas has frame 0 at [(x, y)] and frame 1 at
    [(x + 16, y)], wherever the watermark does not reach. *)
Theorem create_atlas_characters_readback `{Font} `{!FontLaws} (files : list string)
    (temp : gmap string image) (allowed : gset string) (o : output_dir)
    (groups : list (string * list (Z * string))) (key s0 s1 : string) (f0 f1 : image) :
  collect_sprite_pairs files = inr groups ->
  (forall f, f ∈ files -> is_Some (temp !! f)) ->
  members key files ≡ₚ [(0, s0); (1, s1)] ->
  temp !! s0 = Some f0 -> temp !! s1 = Some f1 ->
  width f0 = TILE_SIZE -> height f0 = TILE_SIZE -> width f1 = TILE_SIZE -> height f1 = TILE_SIZE ->
  key ∈ allowed -> Z.of_nat (length groups) < 16384 ->
  exists atlas0 coords x y,
    create_atlas_characters groups temp (inr allowed) o =
      (<["character_tiles.json" := JsonFile (mkMetadata [("tileWidth", 32); ("tileHeight", 16)] coords)]>
        (<["character_tiles.png" := PngFile (add_watermark atlas0 WATERMARK)]> o), inr true) /\
    coords !! key = Some (x, y) /\
    forall i j, 0 <= i < 32 -> 0 <= j < 16 ->
      ~ in_box (watermark_box atlas0 WATERMARK) (x + i) (y + j) ->
      getpixel (add_watermark atlas0 WATERMARK) (x + i) (y + j) =
        if i <? 16 then getpixel f0 i j else getpixel f1 (i - 16) j.
Proof.
  intros Hcol Hopen Hmem Hi0 Hi1 Hw0 Hh0 Hw1 Hh1 Hkey Hlen.
  destruct (combine_sorted_groups files temp allowed groups key s0 s1 f0 f1 Hcol Hopen Hmem Hi0 Hi1 Hkey)
    as (o1 & o2 & Hout & Ho2 & Hlo & Hsz).
  assert (Hdbg : key <> "debug").
  { destruct (elem_of_members key files (0, s0)) as [_ Hk]; [rewrite Hmem; set_solver|].
    exact (group_not_debug _ _ _ Hk). }
  set (c := paste (paste (image_new 32 16 transparent) f0 0 0) f1 TILE_SIZE 0).
  assert (Hs : ((o1 ++ (key, c) :: o2) ++ [("debug", create_debug_tile characters_config)])%list =
               (o1 ++ (key, c) :: (o2 ++ [("debug", create_debug_tile characters_config)]))%list)
    by (by rewrite <- app_assoc).
  rewrite length_app in Hlo.
  set (sprites := (o1 ++ (key, c) :: (o2 ++ [("debug", create_debug_tile characters_config)]))%list).
  assert (Hn : 1 <= Z.of_nat (length sprites) <= 16384)
    by (unfold sprites; rewrite !length_app; simpl; rewrite length_app; simpl; lia).
  pose proof (pack_ok characters_config sprites Hn) as Hp. cbv zeta in Hp.
  destruct (pack characters_config sprites) as [e|[[[w h] atlas] coords]] eqn:Ep; [done|].
  destruct (pack_places characters_config o1 (o2 ++ [("debug", create_debug_tile characters_config)])
              key c w h atlas coords) as [Hc Hpix]; try done.
  - apply Forall_app in Hsz as [Hs1 Hs2]. apply Forall_app. split; [done|].
    constructor; [unfold sprite_sized; simpl; lia|]. apply Forall_app. split; [done|].
    constructor; [apply debug_tile_sized|constructor].
  - rewrite fmap_app. simpl. set_solver.
  - eexists atlas, coords, _, _. split; [|split; [exact Hc|]].
    + apply (create_atlas_characters_run _ _ _ _ (o1 ++ (key, c) :: o2)%list w h). { exact Hout. } rewrite Hs. exact Ep.
    + intros i j Hi Hj Hout'. rewrite add_watermark_local by done. rewrite Hpix by (simpl; lia).
      apply double_width_pixel; done || lia.
Qed.

(** A temporary directory with the two frames of one character tile. *)
Definition frame_tile (shade : Z) : image := image_new 16 16 (mkPixel shade shade shade 255).
Definition sample_listing : list string := ["player-0-1"; "player-0-0"].
Definition sample_temp : gmap string image :=
  {[ "player-0-0" := frame_tile 10; "player-0-1" := frame_tile 20 ]}.
Definition sample_groups : list (string * list (Z * string)) :=
  [("player-0", [(1, "player-0-1"); (0, "player-0-0")])].

Lemma create_atlas_characters_readback_witness :
  (collect_sprite_pairs sample_listing = inr sample_groups /\
   (forall f, f ∈ sample_listing -> is_Some (sample_temp !! f)) /\
   members "player-0" sample_listing ≡ₚ [(0, "player-0-0"); (1, "player-0-1")] /\
   sample_temp !! "player-0-0" = Some (frame_tile 10) /\ sample_temp !! "player-0-1" = Some (frame_tile 20) /\
   width (frame_tile 10) = TILE_SIZE /\ height (frame_tile 10) = TILE_SIZE /\
   width (frame_tile 20) = TILE_SIZE /\ height (frame_tile 20) = TILE_SIZE /\
   "player-0" ∈ ({["player-0"]} : gset string) /\ Z.of_nat (length sample_groups) < 16384) /\
  exists atlas0 coords x y,
    create_atlas_characters sample_groups sample_temp (inr {["player-0"]}) ∅ =
      (<["character_tiles.json" := JsonFile (mkMetadata [("tileWidth", 32); ("tileHeight", 16)] coords)]>
        (<["character_tiles.png" := PngFile (add_watermark atlas0 WATERMARK)]> ∅), inr true) /\
    coords !! "player-0" = Some (x, y) /\
    forall i j, 0 <= i < 32 -> 0 <= j < 16 ->
      ~ in_box (watermark_box atlas0 WATERMARK) (x + i) (y + j) ->
      getpixel (add_watermark atlas0 WATERMARK) (x + i) (y + j) =
        if i <? 16 then getpixel (frame_tile 10) i j else getpixel (frame_tile 20) (i - 16) j.
Proof.
  assert (Hc : collect_sprite_pairs sample_listing = inr sample_groups) by (vm_compute; reflexivity).
  assert (Ho : forall f, f ∈ sample_listing -> is_Some (sample_temp !! f)).
  { intros f Hf. repeat apply elem_of_cons in Hf as [->|Hf]; [by eexists..|set_solver]. }
  assert (Hm : members "player-0" sample_listing ≡ₚ [(0, "player-0-0"); (1, "player-0-1")])
    by (vm_compute; apply perm_swap).
  assert (Hk : "player-0" ∈ ({["player-0"]} : gset string)) by set_solver.
  split; [split; [exact Hc|split; [exact Ho|split; [exact Hm|]]]; repeat split; done || (simpl; lia)|].
  exact (create_atlas_characters_readback sample_listing sample_temp {["player-0"]} ∅ sample_groups
           "player-0" "player-0-0" "player-0-1" (frame_tile 10) (frame_tile 20)
           Hc Ho Hm eq_refl eq_refl eq_refl eq_refl eq_refl eq_refl Hk ltac:(simpl; lia)).
Defined.

(** C27: a group with three or more frames (or none) is skipped without a
    message: neither [len(frames) == 2] nor [len(frames) == 1] holds, so
    no sprite is built or kept for it. *)
Theorem combine_group_many_frames temp allowed name (frames : list (Z * string)) :
  (3 <= length frames)%nat -> combine_group temp allowed name frames = inr [].
Proof.
  intros Hlen. unfold combine_group. pose proof (length_sort_by frame_le frames) as Hs.
  destruct (sort_by frame_le frames) as [|a [|b [|c l]]]; simpl in Hs; [lia..|done].
Qed.

Lemma combine_group_many_frames_witness :
  (3 <= length [(0, "a-1-0"); (1, "a-1-1"); (2, "a-1-2")])%nat /\
  combine_group ∅ ∅ "a-1" [(0, "a-1-0"); (1, "a-1-1"); (2, "a-1-2")] = inr [].
Proof. split; [simpl; lia|]. apply combine_group_many_frames. simpl. lia. Defined.

(** C28: a file whose third dash-separated field is not a number stops the
    grouping with [ValueError] from [int(frame)]; [collect_sprite_pairs]
    is called outside any [try], so the script ends there. *)
Theorem collect_sprite_pairs_value_error (pre post : list string) (f a b frame : string) (rest : list string) :
  (forall p, p ∈ pre -> exists o, sprite_key p = inr o) ->
  py_split f "-" = a :: b :: frame :: rest -> py_int frame = inl (ValueError "invalid literal for int() with base 10") ->
  collect_sprite_pairs (pre ++ f :: post)%list = inl (ValueError "invalid literal for int() with base 10").
Proof.
  intros Hpre Hsplit Hint. unfold collect_sprite_pairs. generalize (@nil (string * list (Z * string))).
  induction pre as [|p pre IH]; intros g; simpl.
  - unfold sprite_key. by rewrite Hsplit, Hint.
  - destruct (Hpre p ltac:(set_solver)) as [o ->]. simpl. apply IH. set_solver.
Qed.

Lemma collect_sprite_pairs_value_error_witness :
  (forall p, p ∈ ["player-0-0"] -> exists o, sprite_key p = inr o) /\
  py_split "notes-a-b" "-" = ["notes"; "a"; "b"] /\
  py_int "b" = inl (ValueError "invalid literal for int() with base 10") /\
  collect_sprite_pairs (["player-0-0"] ++ "notes-a-b" :: [])%list =
    inl (ValueError "invalid literal for int() with base 10").
Proof.
  assert (Hp : forall p, p ∈ ["player-0-0"] -> exists o, sprite_key p = inr o).
  { intros p Hp. apply list_elem_of_singleton in Hp as ->. eexists. vm_compute. reflexivity. }
  split; [exact Hp|]. split; [reflexivity|]. split; [reflexivity|].
  apply (collect_sprite_pairs_value_error ["player-0-0"] [] "notes-a-b" "notes" "a" "b" []);
    [exact Hp|reflexivity|reflexivity].
Defined.

(** C14: a group with one frame [A] is doubled: the sprite kept for it
    has [A] in both halves. *)
Theorem combine_group_single_frame temp allowed name (frame : Z) (s : string) (img : image) :
  temp !! s = Some img -> width img = TILE_SIZE -> height img = TILE_SIZE -> name ∈ allowed ->
  exists c, combine_group temp allowed name [(frame, s)] = inr [(name, c)] /\
    width c = 32 /\ height c = 16 /\
    forall i j, 0 <= i < 32 -> 0 <= j < 16 -> getpixel c i j = getpixel img (i mod 16) j.
Proof.
  intros Hs Hw Hh Hn. eexists. split.
  - unfold combine_group, create_double_width_sprite, open_sprite, characters_keep. simpl.
    rewrite Hs. simpl. by rewrite bool_decide_true.
  - split; [done|]. split; [done|]. intros i j Hi Hj.
    rewrite double_width_pixel by done. destruct (Z.ltb_spec i 16).
    + by rewrite Z.mod_small by lia.
    + f_equal. apply Z.mod_unique_pos with 1; lia.
Qed.

Lemma combine_group_single_frame_witness :
  sample_temp !! "player-0-0" = Some (frame_tile 10) /\ width (frame_tile 10) = TILE_SIZE /\
  height (frame_tile 10) = TILE_SIZE /\ "player-0" ∈ ({["player-0"]} : gset string) /\
  exists c, combine_group sample_temp {["player-0"]} "player-0" [(0, "player-0-0")] = inr [("player-0", c)] /\
    width c = 32 /\ height c = 16 /\
    forall i j, 0 <= i < 32 -> 0 <= j < 16 -> getpixel c i j = getpixel (frame_tile 10) (i mod 16) j.
Proof.
  assert (Hk : "player-0" ∈ ({["player-0"]} : gset string)) by set_solver.
  split; [reflexivity|]. split; [reflexivity|]. split; [reflexivity|]. split; [exact Hk|].
  exact (combine_group_single_frame sample_temp {["player-0"]} "player-0" 0 "player-0-0" (frame_tile 10)
           eq_refl eq_refl eq_refl Hk).
Defined.
