(* ===== verification/AllowList.v ===== *)
(** * AllowListFilter: where the allow lists come from

    [read_allowed_sprite_names_from_csv] of gen_characters.py (the
    comma-separated [appearance] column of assets/data/monsters.csv) and of
    gen_items.py (the [sprite] column of assets/data/items.csv), both through
    [csv.DictReader]; and [extract_used_tile_names] of gen_world.py, the
    StringName literals of src/map_renderer.gd (an ampersand, then a name
    in double quotes) found by [re.findall] with the pattern of line 63.
    The split of a CSV text into
    records (quoting, delimiters, line ends) is the csv library's and the
    records are an input here; what [DictReader] makes of them is modelled,
    since a short record gives a [None] field the scripts then [strip]. *)

From Equations Require Import Equations.
From S2P Require Import Prelude PyStr.

Local Open Scope string_scope.

(** ** [csv.DictReader] *)

(** A row of [DictReader]: a field name maps to its value, or to [None]
    (the default [restval]) when the record is shorter than the header.
    Extra values go under the key [None] ([restkey]), which no [row.get]
    with a string key reaches, so they are left out. *)
Abbreviation csv_row := (gmap string (option string)).

(** [d = dict(zip(fieldnames, row))], then [d[key] = restval] for the
    field names past the end of the record. *)
Definition dict_row (fieldnames values : list string) : csv_row :=
  fold_left (fun d key => <[key := None]> d) (drop (length values) fieldnames)
    (insert_all ∅ (zip fieldnames (map Some values))).

(** [csv.DictReader(csvfile)]: the first record is the header, empty
    records are skipped. *)
Definition dict_reader (records : list (list string)) : list csv_row :=
  match records with
  | [] => []
  | fieldnames :: rest =>
      map (dict_row fieldnames) (List.filter (fun r => negb (bool_decide (r = []))) rest)
  end.

(** [row.get(key, default)]; [None] is Python's [None]. *)
Definition row_get (row : csv_row) (key default : string) : option string :=
  match row !! key with Some v => v | None => Some default end.

(** [value.strip()], which raises on [None]. *)
Definition strip_value (v : option string) : exn + string :=
  match v with
  | Some s => inr (py_strip s)
  | None => inl (AttributeError "'NoneType' object has no attribute 'strip'")
  end.

(** ** monsters.csv and items.csv *)

(** The loop of [read_allowed_sprite_names_from_csv] in gen_characters.py,
    lines 41-45: [appearance = row.get('appearance', '').strip()]; a
    non-empty one is split on commas and each name stripped. *)
Fixpoint monsters_names (rows : list csv_row) (allowed_sprite_names : gset string) : exn + gset string :=
  match rows with
  | [] => inr allowed_sprite_names
  | row :: rest =>
      let? appearance := strip_value (row_get row "appearance" "") in
      monsters_names rest
        (if bool_decide (appearance = "") then allowed_sprite_names
         else allowed_sprite_names ∪ list_to_set (map py_strip (py_split appearance ",")))
  end.

(** [read_allowed_sprite_names_from_csv()] of gen_characters.py, lines
    34-52; [None] is a missing file. *)
Definition read_allowed_monsters (monsters_csv : option (list (list string))) : exn + gset string :=
  match monsters_csv with
  | None => inl (FileNotFoundError "assets/data/monsters.csv")
  | Some records => monsters_names (dict_reader records) ∅
  end.

(** The loop of [read_allowed_sprite_names_from_csv] in gen_items.py,
    lines 42-45: [sprite = row.get('sprite', '').strip()], added when
    non-empty. *)
Fixpoint items_names (rows : list csv_row) (allowed_sprite_names : gset string) : exn + gset string :=
  match rows with
  | [] => inr allowed_sprite_names
  | row :: rest =>
      let? sprite := strip_value (row_get row "sprite" "") in
      items_names rest
        (if bool_decide (sprite = "") then allowed_sprite_names else allowed_sprite_names ∪ {[sprite]})
  end.

(** [read_allowed_sprite_names_from_csv()] of gen_items.py, lines 35-52. *)
Definition read_allowed_items (items_csv : option (list (list string))) : exn + gset string :=
  match items_csv with
  | None => inl (FileNotFoundError "assets/data/items.csv")
  | Some records => items_names (dict_reader records) ∅
  end.

(** ** The [re.findall] of [extract_used_tile_names] *)

(** The double quote, character 34. *)
Definition QUOTE : ascii := Ascii.ascii_of_nat 34.

(** The longest run of characters other than the quote: what the group
    of the pattern (one or more non-quote characters) takes greedily;
    backtracking cannot help, as the run must be followed by a quote. *)
Fixpoint quote_run (s : list ascii) : list ascii * list ascii :=
  match s with
  | c :: r => if Ascii.eqb c QUOTE then ([], s) else let '(run, rest) := quote_run r in (c :: run, rest)
  | [] => ([], [])
  end.

(** The match of the pattern at the start of [s]: its group and what
    follows the closing quote. *)
Definition match_at (s : list ascii) : option (string * list ascii) :=
  match s with
  | a :: q :: t =>
      if Ascii.eqb a "&" && Ascii.eqb q QUOTE then
        match quote_run t with
        | (c :: run, _ :: rest) => Some (String.string_of_list_ascii (c :: run), rest)
        | _ => None
        end
      else None
  | _ => None
  end.

Lemma quote_run_length s : (length (quote_run s).2 <= length s)%nat.
Proof.
  induction s as [|c r IH]; simpl; [lia|].
  destruct (Ascii.eqb c QUOTE); simpl; [lia|]. destruct (quote_run r); simpl in *; lia.
Qed.

Lemma match_at_length s n rest : match_at s = Some (n, rest) -> (length rest < length s)%nat.
Proof.
  unfold match_at. destruct s as [|a [|q t]]; try done.
  destruct (Ascii.eqb a "&" && Ascii.eqb q QUOTE); [|done].
  pose proof (quote_run_length t). destruct (quote_run t) as [[|c run] [|x rest']]; try done.
  intros [= _ <-]. simpl in *. lia.
Qed.

Definition inspect {A} (a : A) : {b | a = b} := exist _ a eq_refl.

(** [findall] scans left to right: after a match it goes on after the
    match, otherwise one character further. *)
Equations? findall_names (s : list ascii) : list string by wf (length s) lt :=
findall_names [] := [];
findall_names (c :: r) with inspect (match_at (c :: r)) := {
  | exist _ (Some (name, rest)) H => name :: findall_names rest;
  | exist _ None _ => findall_names r }.
Proof.
  - eapply match_at_length. eassumption.
  - simpl. lia.
Qed.

(** [extract_used_tile_names()] of gen_world.py, lines 53-75: [None] when
    src/map_renderer.gd is missing (all tiles are then used), otherwise
    the set of names found. *)
Definition extract_used_tile_names (map_renderer_gd : option string) : option (gset string) :=
  match map_renderer_gd with
  | None => None
  | Some content => Some (list_to_set (findall_names (String.list_ascii_of_string content)))
  end.

(** ** Lemmas *)

Lemma findall_names_cons c r :
  findall_names (c :: r) =
    match match_at (c :: r) with
    | Some (name, rest) => name :: findall_names rest
    | None => findall_names r
    end.
Proof.
  remember (c :: r) as s eqn:Es. revert c r Es.
  funelim (findall_names s); intros c' r' [= <- <-]; simp findall_names;
    match goal with Hm : match_at _ = _ |- _ => by rewrite Hm end.
Qed.

Lemma has_char_cons sep c s : has_char sep (String c s) = Ascii.eqb c sep || has_char sep s.
Proof. unfold has_char. simpl. by destruct (Ascii.eqb c sep). Qed.

Lemma quote_run_spec t run rest :
  quote_run t = (run, rest) ->
  t = (run ++ rest)%list /\ Forall (fun c => c <> QUOTE) run /\
  (rest = [] \/ exists r, rest = QUOTE :: r).
Proof.
  revert run rest. induction t as [|c t IH]; intros run rest; simpl.
  - intros [= <- <-]. split; [done|]. split; [constructor|by left].
  - destruct (Ascii.eqb_spec c QUOTE) as [->|Hc].
    + intros [= <- <-]. split; [done|]. split; [constructor|eauto].
    + destruct (quote_run t) as [run' rest'] eqn:E. intros [= <- <-].
      destruct (IH _ _ eq_refl) as (-> & Hrun & Hrest). split; [done|]. split; [by constructor|done].
Qed.

Lemma quote_free_string_of l :
  Forall (fun c => c <> QUOTE) l -> has_char QUOTE (String.string_of_list_ascii l) = false.
Proof.
  induction 1 as [|c l Hc Hl IH]; [done|]. simpl. rewrite has_char_cons, IH.
  destruct (Ascii.eqb_spec c QUOTE); [done|]. done.
Qed.

(** A name the scan finds is non-empty and has no quote. *)
Lemma match_at_name s n rest :
  match_at s = Some (n, rest) -> n <> "" /\ has_char QUOTE n = false.
Proof.
  unfold match_at. destruct s as [|a [|q t]]; try done.
  destruct (Ascii.eqb a "&" && Ascii.eqb q QUOTE); [|done].
  destruct (quote_run t) as [run rest'] eqn:E. apply quote_run_spec in E as (_ & Hrun & _).
  destruct run as [|c run]; [done|]. destruct rest' as [|x r]; [done|].
  intros [= <- _]. split; [done|]. exact (quote_free_string_of (c :: run) Hrun).
Qed.

(** [re.findall] gives up at a position whose next character is not a
    quote, so a quote-free stretch adds no name. *)
Lemma match_at_no_quote c l :
  (forall r, l <> QUOTE :: r) -> match_at (c :: l) = None.
Proof.
  intros Hl. unfold match_at. destruct l as [|q t]; [done|].
  destruct (Ascii.eqb_spec q QUOTE) as [->|Hq]; [by destruct (Hl t)|]. by rewrite andb_false_r.
Qed.

Lemma findall_names_skip sep rest :
  Forall (fun c => c <> QUOTE) sep -> (forall r, rest <> QUOTE :: r) ->
  findall_names (sep ++ rest) = findall_names rest.
Proof.
  intros Hsep Hrest. induction Hsep as [|c sep Hc Hsep IH]; [done|].
  simpl. rewrite findall_names_cons, match_at_no_quote; [done|].
  intros r E. destruct sep as [|d sep]; simpl in E; [by apply (Hrest r)|]. injection E as -> _.
  by inversion Hsep.
Qed.

(** A StringName literal [&"n"] of GDScript. *)
Definition string_name_ref (n : string) : list ascii :=
  "&"%char :: QUOTE :: String.list_ascii_of_string n ++ [QUOTE].

Lemma string_quote_free n :
  has_char QUOTE n = false -> Forall (fun c => c <> QUOTE) (String.list_ascii_of_string n).
Proof.
  induction n as [|c n IH]; simpl; [constructor|]. rewrite has_char_cons.
  intros [Hc Hn]%orb_false_iff. constructor; [|by apply IH]. intros ->. by rewrite Ascii.eqb_refl in Hc.
Qed.

Lemma findall_names_ref n rest :
  n <> "" -> has_char QUOTE n = false ->
  findall_names (string_name_ref n ++ rest) = n :: findall_names rest.
Proof.
  intros Hne Hq. unfold string_name_ref. simpl. rewrite findall_names_cons.
  assert (Hrun : quote_run (String.list_ascii_of_string n ++ QUOTE :: rest) =
                   (String.list_ascii_of_string n, QUOTE :: rest)).
  { apply string_quote_free in Hq. clear Hne. induction Hq as [|c l Hc Hl IH]; simpl.
    - done.
    - rewrite IH.
      destruct (Ascii.eqb_spec c QUOTE); done. }
  unfold match_at. rewrite Ascii.eqb_refl. simpl. rewrite <- app_assoc. simpl. rewrite Hrun.
  destruct n as [|c n]; [done|]. simpl. by rewrite String.string_of_list_ascii_of_string.
Qed.

Lemma findall_names_nil : findall_names [] = [].
Proof. by simp findall_names. Qed.

Lemma findall_names_valid l n :
  n ∈ findall_names l -> n <> "" /\ has_char QUOTE n = false.
Proof.
  funelim (findall_names l); simp findall_names; [set_solver|].
  intros [->|Hn]%elem_of_cons; [by eapply match_at_name|].
  match goal with IH : forall n, n ∈ findall_names _ -> _ |- _ => by apply IH end.
Qed.

(** GDScript source made of quote-free stretches, each followed by a
    StringName literal, then a quote-free tail. *)
Definition render_refs (parts : list (list ascii * string)) (tail : list ascii) : list ascii :=
  foldr (fun p acc => p.1 ++ string_name_ref p.2 ++ acc)%list tail parts.

Lemma findall_names_render parts tail :
  (forall p, p ∈ parts -> Forall (fun c => c <> QUOTE) p.1 /\ p.2 <> "" /\ has_char QUOTE p.2 = false) ->
  Forall (fun c => c <> QUOTE) tail ->
  findall_names (render_refs parts tail) = parts.*2.
Proof.
  intros Hparts Htail. induction parts as [|[sep n] parts IH].
  - simpl. rewrite <- (app_nil_r tail), findall_names_skip; [apply findall_names_nil|done|done].
  - destruct (Hparts (sep, n) ltac:(set_solver)) as (Hsep & Hn & Hq).
    change (findall_names (sep ++ string_name_ref n ++ render_refs parts tail)%list = n :: parts.*2).
    rewrite findall_names_skip, findall_names_ref, IH by (done || set_solver). done.
Qed.

(** ** Theorems *)

(** C11: [extract_used_tile_names] reads back the StringName literals of
    map_renderer.gd: for a source made of quote-free stretches each
    followed by a literal [&"n"] with a non-empty quote-free name, and a
    quote-free tail, the used names are exactly those names. *)
Theorem extract_used_tile_names_render (parts : list (list ascii * string)) (tail : list ascii) :
  (forall p, p ∈ parts -> Forall (fun c => c <> QUOTE) p.1 /\ p.2 <> "" /\ has_char QUOTE p.2 = false) ->
  Forall (fun c => c <> QUOTE) tail ->
  extract_used_tile_names (Some (String.string_of_list_ascii (render_refs parts tail))) =
    Some (list_to_set parts.*2).
Proof.
  intros Hparts Htail. unfold extract_used_tile_names.
  rewrite String.list_ascii_of_string_of_list_ascii, findall_names_render by done. done.
Qed.

Lemma extract_used_tile_names_render_witness :
  (forall p, p ∈ [(String.list_ascii_of_string "var t = ", "floor-1-wall");
                 (String.list_ascii_of_string ", ", "doors0-3")] ->
     Forall (fun c => c <> QUOTE) p.1 /\ p.2 <> "" /\ has_char QUOTE p.2 = false) /\
  Forall (fun c => c <> QUOTE) (String.list_ascii_of_string "]") /\
  extract_used_tile_names (Some (String.string_of_list_ascii
    (render_refs [(String.list_ascii_of_string "var t = ", "floor-1-wall");
                  (String.list_ascii_of_string ", ", "doors0-3")] (String.list_ascii_of_string "]")))) =
    Some (list_to_set [(String.list_ascii_of_string "var t = ", "floor-1-wall");
                       (String.list_ascii_of_string ", ", "doors0-3")].*2).
Proof.
  assert (Hp : forall p, p ∈ [(String.list_ascii_of_string "var t = ", "floor-1-wall");
                             (String.list_ascii_of_string ", ", "doors0-3")] ->
     Forall (fun c => c <> QUOTE) p.1 /\ p.2 <> "" /\ has_char QUOTE p.2 = false).
  { intros p Hp. repeat apply elem_of_cons in Hp as [->|Hp]; [..|set_solver];
      (split; [repeat constructor; discriminate|split; [discriminate|reflexivity]]). }
  assert (Ht : Forall (fun c => c <> QUOTE) (String.list_ascii_of_string "]"))
    by (repeat constructor; discriminate).
  split; [exact Hp|]. split; [exact Ht|]. exact (extract_used_tile_names_render _ _ Hp Ht).
Defined.

(** C31: every name [extract_used_tile_names] returns is non-empty and has
    no quote, whatever map_renderer.gd holds. *)
Theorem extract_used_tile_names_valid (content : string) (names : gset string) (n : string) :
  extract_used_tile_names (Some content) = Some names -> n ∈ names ->
  n <> "" /\ has_char QUOTE n = false.
Proof.
  intros [= <-] Hn. apply elem_of_list_to_set in Hn. by eapply findall_names_valid.
Qed.

Lemma extract_used_tile_names_valid_witness :
  let names := list_to_set (findall_names (String.list_ascii_of_string "t = &a, b")) in
  extract_used_tile_names (Some "t = &a, b") = Some names /\
  (forall n, n ∈ names -> n <> "" /\ has_char QUOTE n = false).
Proof.
  split; [reflexivity|]. intros n Hn.
  exact (extract_used_tile_names_valid "t = &a, b" _ n eq_refl Hn).
Defined.

(** ** Lemmas on the CSV readers *)

Lemma fold_insert_none_lookup (keys : list string) (d : csv_row) k :
  k ∈ keys \/ d !! k = Some None ->
  fold_left (fun d key => <[key := None]> d) keys d !! k = Some None.
Proof.
  revert d. induction keys as [|key keys IH]; intros d Hk; simpl; [set_solver|].
  apply IH. destruct (decide (key = k)) as [->|Hne]; [right; apply lookup_insert_eq|].
  rewrite lookup_insert_ne by done. set_solver.
Qed.

(** A field past the end of a short record reads as [None]. *)
Lemma dict_row_missing fieldnames values k :
  k ∈ drop (length values) fieldnames -> dict_row fieldnames values !! k = Some None.
Proof. intros Hk. apply fold_insert_none_lookup. by left. Qed.

Lemma dict_row_two (f1 f2 v1 v2 : string) :
  f1 <> f2 -> dict_row [f1; f2] [v1; v2] !! f2 = Some (Some v2).
Proof. intros Hne. unfold dict_row. simpl. by rewrite lookup_insert_eq. Qed.

(** The names one [appearance] value contributes. *)
Definition appearance_names (appearance : string) : list string :=
  let a := py_strip appearance in
  if bool_decide (a = "") then [] else map py_strip (py_split a ",").

Lemma monsters_names_ok rows acc (apps : list string) :
  Forall2 (fun row a => row_get row "appearance" "" = Some a) rows apps ->
  monsters_names rows acc = inr (acc ∪ list_to_set (concat (map appearance_names apps))).
Proof.
  intros Hrows. revert acc. induction Hrows as [|row a rows apps Ha Hrows IH]; intros acc; simpl.
  - f_equal. set_solver.
  - rewrite Ha. simpl. rewrite IH. unfold appearance_names. f_equal.
    case_bool_decide; rewrite list_to_set_app_L; set_solver.
Qed.

Lemma items_names_ok rows acc (sprites : list string) :
  Forall2 (fun row s => row_get row "sprite" "" = Some s) rows sprites ->
  items_names rows acc =
    inr (acc ∪ list_to_set (List.filter (fun s => negb (String.eqb s "")) (map py_strip sprites))).
Proof.
  intros Hrows. revert acc. induction Hrows as [|row s rows sprites Hs Hrows IH]; intros acc; simpl.
  - f_equal. set_solver.
  - rewrite Hs. simpl. rewrite IH. f_equal.
    destruct (String.eqb_spec (py_strip s) ""); case_bool_decide; simpl; set_solver.
Qed.

Lemma dict_reader_two_columns (f1 f2 : string) (rows : list (string * string)) :
  dict_reader ([f1; f2] :: map (fun r => [r.1; r.2]) rows) = map (fun r => dict_row [f1; f2] [r.1; r.2]) rows.
Proof. simpl. induction rows as [|r rows IH]; simpl; [done|]. by rewrite IH. Qed.

Lemma two_columns_get (f1 f2 : string) (rows : list (string * string)) :
  f1 <> f2 ->
  Forall2 (fun row v => row_get row f2 "" = Some v) (map (fun r => dict_row [f1; f2] [r.1; r.2]) rows) rows.*2.
Proof.
  intros Hne. induction rows as [|r rows IH]; simpl; constructor; [|done].
  unfold row_get. by rewrite dict_row_two.
Qed.

(** C29: for a monsters.csv with columns [name, appearance],
    [read_allowed_sprite_names_from_csv] of gen_characters.py returns the
    names of every non-empty stripped [appearance], split on commas and
    each stripped, in one set. *)
Theorem read_allowed_monsters_two_columns (rows : list (string * string)) :
  read_allowed_monsters (Some (["name"; "appearance"] :: map (fun r => [r.1; r.2]) rows)) =
    inr (list_to_set (concat (map appearance_names rows.*2))).
Proof.
  unfold read_allowed_monsters. rewrite dict_reader_two_columns.
  rewrite (monsters_names_ok _ _ rows.*2) by (by apply two_columns_get). f_equal. set_solver.
Qed.

(** C30: for an items.csv with columns [name, sprite],
    [read_allowed_sprite_names_from_csv] of gen_items.py returns the
    stripped [sprite] values that are not empty. *)
Theorem read_allowed_items_two_columns (rows : list (string * string)) :
  read_allowed_items (Some (["name"; "sprite"] :: map (fun r => [r.1; r.2]) rows)) =
    inr (list_to_set (List.filter (fun s => negb (String.eqb s "")) (map py_strip rows.*2))).
Proof.
  unfold read_allowed_items. rewrite dict_reader_two_columns.
  rewrite (items_names_ok _ _ rows.*2) by (by apply two_columns_get). f_equal. set_solver.
Qed.

Lemma fold_insert_none_notin (keys : list string) (d : csv_row) k :
  k ∉ keys -> fold_left (fun d key => <[key := None]> d) keys d !! k = d !! k.
Proof.
  revert d. induction keys as [|key keys IH]; intros d Hk; simpl; [done|].
  rewrite IH by set_solver. apply lookup_insert_ne. set_solver.
Qed.

Lemma elem_of_zip_r {A B} (l1 : list A) (l2 : list B) x y : (x, y) ∈ zip l1 l2 -> y ∈ l2.
Proof.
  revert l2. induction l1 as [|a l1 IH]; intros [|b l2]; simpl; try set_solver.
Qed.

(** A field within the record reads as a string (or is absent), never as
    [None]. *)
Lemma dict_row_present fieldnames values k :
  k ∉ drop (length values) fieldnames -> dict_row fieldnames values !! k <> Some None.
Proof.
  intros Hk. unfold dict_row. rewrite fold_insert_none_notin by done.
  intros [Hin|[_ Hm]]%lookup_insert_all_Some; [|done].
  apply elem_of_zip_r, list_elem_of_fmap in Hin as (v & ? & _). done.
Qed.

(** The rows [DictReader] gives for records that are empty or reach the
    field [k]: none reads [k] as [None]. *)
Lemma dict_reader_present k fieldnames pre :
  Forall (fun r => r = [] \/ k ∉ drop (length r) fieldnames) pre ->
  Forall (fun row => row !! k <> Some None) (dict_reader (fieldnames :: pre)).
Proof.
  intros Hpre. simpl. induction Hpre as [|r pre Hr Hpre IH]; simpl; [constructor|].
  case_bool_decide as E; simpl; [done|].
  constructor; [|done]. destruct Hr as [->|Hr]; [done|]. by apply dict_row_present.
Qed.

Lemma dict_reader_split fieldnames pre values rest :
  values <> [] ->
  dict_reader (fieldnames :: pre ++ values :: rest) =
    (dict_reader (fieldnames :: pre) ++ dict_row fieldnames values :: dict_reader (fieldnames :: rest))%list.
Proof.
  intros Hv. simpl. rewrite List.filter_app, map_app. simpl.
  by rewrite bool_decide_false by done.
Qed.

Lemma strip_value_present row k default :
  row !! k <> Some None -> exists v, strip_value (row_get row k default) = inr v.
Proof. unfold row_get. destruct (row !! k) as [[v|]|]; simpl; by eauto. Qed.

Lemma monsters_names_app rows1 rows2 acc :
  monsters_names (rows1 ++ rows2) acc = (let? acc' := monsters_names rows1 acc in monsters_names rows2 acc').
Proof.
  revert acc. induction rows1 as [|row rows1 IH]; intros acc; simpl; [done|].
  destruct (strip_value _); simpl; [done|apply IH].
Qed.

Lemma monsters_names_present rows acc :
  Forall (fun row => row !! "appearance" <> Some None) rows -> exists s, monsters_names rows acc = inr s.
Proof.
  intros Hrows. revert acc. induction Hrows as [|row rows Hrow Hrows IH]; intros acc; simpl; [by eauto|].
  destruct (strip_value_present row "appearance" "" Hrow) as [v ->]. simpl. apply IH.
Qed.

(** C12: a monsters.csv record shorter than the header, so that it has no
    [appearance] field, makes [DictReader] give [None] for it, and
    [None.strip()] raises [AttributeError], wherever the record stands:
    the records before it (empty ones, or ones that reach the
    [appearance] field) are read without error, and the exception leaves
    the reader, so no allow list is read and the character atlas is not
    built. *)
Theorem read_allowed_monsters_short_record (fieldnames values : list string)
    (pre rest : list (list string)) :
  Forall (fun r => r = [] \/ "appearance" ∉ drop (length r) fieldnames) pre ->
  values <> [] -> "appearance" ∈ drop (length values) fieldnames ->
  read_allowed_monsters (Some (fieldnames :: pre ++ values :: rest)) =
    inl (AttributeError "'NoneType' object has no attribute 'strip'").
Proof.
  intros Hpre Hv Hk. unfold read_allowed_monsters. rewrite dict_reader_split, monsters_names_app by done.
  destruct (monsters_names_present (dict_reader (fieldnames :: pre)) ∅) as [s ->];
    [by apply dict_reader_present|].
  simpl. unfold row_get. by rewrite dict_row_missing.
Qed.

Lemma read_allowed_monsters_short_record_witness :
  Forall (fun r => r = [] \/ "appearance" ∉ drop (length r) ["name"; "appearance"; "hp"])
    [["Bat"; "bat-0"; "2"]; []] /\
  ["Rat"] <> [] /\ "appearance" ∈ drop (length ["Rat"]) ["name"; "appearance"; "hp"] /\
  read_allowed_monsters (Some (["name"; "appearance"; "hp"] :: [["Bat"; "bat-0"; "2"]; []] ++
                               ["Rat"] :: [["Imp"; "imp-0"; "3"]])) =
    inl (AttributeError "'NoneType' object has no attribute 'strip'").
Proof.
  assert (Hpre : Forall (fun r => r = [] \/ "appearance" ∉ drop (length r) ["name"; "appearance"; "hp"])
                   [["Bat"; "bat-0"; "2"]; []]).
  { constructor; [right; simpl; set_solver|]. constructor; [left; reflexivity|constructor]. }
  assert (Hk : "appearance" ∈ drop (length ["Rat"]) ["name"; "appearance"; "hp"]) by (simpl; set_solver).
  split; [exact Hpre|]. split; [done|]. split; [exact Hk|].
  by apply read_allowed_monsters_short_record.
Defined.
