(* ===== verification/Pipeline.v ===== *)
(** * Pipelines: the [main] of each script

    [main] of gen_world.py, gen_characters.py and gen_items.py: the
    directory checks and exits, the per-sheet loop over a fresh temporary
    directory, the listing of the saved tiles ([glob], sorted where the
    script sorts) and the call of [create_atlas]; and [main] of gen_ui.py,
    which copies GUI0.png onto a 512 x 512 canvas and watermarks it.

    A path is represented by its file name: the scripts use a path only to
    open the file, in messages, and through [Path.stem], which keeps the
    last component. The order of [glob] is the file system's: it is a
    parameter, any permutation of the directory's files. *)

From S2P Require Import Prelude PyStr Image Atlas Pattern Packer Slicer Frames AllowList.

Local Open Scope string_scope.

(** How a script ends: normally, by [sys.exit(code)], or by an exception
    that nothing catches. *)
Inductive outcome := Completed | SysExit (code : Z) | Raised (e : exn).

Definition outcome_of (r : exn + bool) : outcome :=
  match r with
  | inr true => Completed
  | inr false => SysExit 1
  | inl e => Raised e
  end.

(** [sorted(temp_dir.glob("*.png"))] compares the paths, which share their
    directory: the file names [f"{stem}.png"] in code-point order. *)
Definition png_le (a b : string) : bool := py_str_le (a +:+ ".png") (b +:+ ".png").

(** The sorted sprite files with the images [Image.open(...)] reads. *)
Definition sprites_of (temp_dir : gmap string image) (stems : list string) : list (string * image) :=
  omap (fun stem => (fun img => (stem, img)) <$> temp_dir !! stem) stems.

Section Main.
Context `{Font}.
(** The order in which [glob] lists a directory. *)
Variable glob : gmap string image -> list string.

(** ** gen_world.py *)

Definition world_files : list (string * string) :=
  [("Ground0.png", "ground"); ("Floor.png", "floor"); ("Wall.png", "wall");
   ("Decor0.png", "decor"); ("Tile.png", "tile"); ("Door0.png", "doors0"); ("Door1.png", "doors1")].

(** The dispatch on [tile_type] in [main], lines 660-670. *)
Definition process_world_file (used_tile_names : option (gset string)) (filename tile_type : string)
  (src : source) : PyM workspace unit :=
  if String.eqb tile_type "ground" then process_ground_png filename src
  else if String.eqb tile_type "decor" then process_decor_png filename src used_tile_names
  else if String.eqb tile_type "tile" then process_tile_png filename src used_tile_names
  else if String.eqb tile_type "doors0" || String.eqb tile_type "doors1"
  then process_doors_png filename src tile_type used_tile_names
  else process_floor_wall_png filename src tile_type used_tile_names.

(** The loop over [world_files] in [main], lines 653-671, on a fresh
    temporary directory. *)
Definition process_world_files (used_tile_names : option (gset string)) (objs : gmap string source)
  : workspace :=
  (py_for world_files (fun '(filename, tile_type) =>
     process_world_file used_tile_names filename tile_type (default Unreadable (objs !! filename)))
     (mkWorkspace ∅ [])).1.

(** [collect_world_sprites(temp_dir)], lines 501-504. *)
Definition collect_world_sprites (temp_dir : gmap string image) : list (string * image) :=
  sprites_of temp_dir (sort_by png_le (glob temp_dir)).

(** The sheets of the Objects directory, by file name; [None] when the
    directory is missing. *)
Definition objects_dir := option (gmap string source).

(** [main()] of gen_world.py, lines 601-691, from map_renderer.gd (if
    present) and the Objects directory, writing into [OUTPUT_DIR]. *)
Definition main_world (objects : objects_dir) (map_renderer_gd : option string) (o : output_dir)
  : output_dir * outcome :=
  let used_tile_names := extract_used_tile_names map_renderer_gd in
  match objects with
  | None => (o, SysExit 1)
  | Some objs =>
      let missing_files := List.filter (fun f => bool_decide (objs !! f = None)) world_files.*1 in
      if bool_decide (missing_files <> []) then (o, SysExit 1) else
      let w := process_world_files used_tile_names objs in
      let sprite_files := collect_world_sprites (temp_dir w) in
      if bool_decide (sprite_files = []) then (o, Completed) else
      let '(o', r) := create_atlas_world sprite_files used_tile_names o in
      (o', outcome_of r)
  end.

(** ** gen_characters.py *)

(** The loop over the sorted character sheets in [main], lines 349-354. *)
Definition process_character_files (png_files : list (string * source)) : workspace :=
  (py_for (sort_by (fun a b => py_str_le a.1 b.1) png_files)
     (fun '(png_file, src) => process_character_png png_file src) (mkWorkspace ∅ [])).1.

(** [main()] of gen_characters.py, lines 304-368: the sheets of the
    Characters directory (by file name, [None] when it is missing) in
    sorted order, then [collect_sprite_pairs], which raises outside any
    [try], and [create_atlas] when a group was found. *)
Definition main_characters (characters : option (list (string * source)))
  (monsters_csv : option (list (list string))) (o : output_dir) : output_dir * outcome :=
  match characters with
  | None => (o, SysExit 1)
  | Some png_files =>
      if bool_decide (png_files = []) then (o, Completed) else
      let w := process_character_files png_files in
      match collect_sprite_pairs (glob (temp_dir w)) with
      | inl e => (o, Raised e)
      | inr sprite_groups =>
          if bool_decide (sprite_groups = []) then (o, Completed) else
          let '(o', r) := create_atlas_characters sprite_groups (temp_dir w)
                            (read_allowed_monsters monsters_csv) o in
          (o', outcome_of r)
      end
  end.

(** ** gen_items.py *)

(** The loop over the sorted item sheets in [main], lines 296-306. *)
Definition process_item_files (png_files : list (string * source)) : workspace :=
  (py_for (sort_by (fun a b => py_str_le a.1 b.1) png_files)
     (fun '(png_file, src) => process_item_png png_file src) (mkWorkspace ∅ [])).1.

(** [collect_item_sprites(temp_dir)], lines 157-160. *)
Definition collect_item_sprites (temp_dir : gmap string image) : list (string * image) :=
  sprites_of temp_dir (sort_by png_le (glob temp_dir)).

(** [main()] of gen_items.py, lines 263-327. *)
Definition main_items (items : option (list (string * source)))
  (items_csv : option (list (list string))) (o : output_dir) : output_dir * outcome :=
  match items with
  | None => (o, SysExit 1)
  | Some png_files =>
      if bool_decide (png_files = []) then (o, Completed) else
      let w := process_item_files png_files in
      let sprite_files := collect_item_sprites (temp_dir w) in
      if bool_decide (sprite_files = []) then (o, Completed) else
      let '(o', r) := create_atlas_items sprite_files (read_allowed_items items_csv) o in
      (o', outcome_of r)
  end.
End Main.

(** ** gen_ui.py *)

Definition TARGET_SIZE : Z * Z := (512, 512).

Section Ui.
Context `{Font}.

(** [add_watermark(image, text)] of gen_ui.py, lines 38-56: the same steps
    as the watermark of [create_atlas]. *)
Definition add_watermark_ui (img : image) (text : string) : image := add_watermark img text.

(** [main()] of gen_ui.py, lines 57-78: [None] when GUI0.png is missing;
    [Image.open] raises on an undecodable file, outside any [try]. *)
Definition main_ui (gui0 : option source) (o : output_dir) : output_dir * outcome :=
  match gui0 with
  | None => (o, Completed)
  | Some src =>
      match image_open "GUI0.png" src with
      | inl e => (o, Raised e)
      | inr img =>
          let canvas := image_new TARGET_SIZE.1 TARGET_SIZE.2 transparent in
          let canvas := paste canvas img 0 0 in
          let canvas := add_watermark_ui canvas WATERMARK in
          (<["ui.png" := PngFile canvas]> o, Completed)
      end
  end.
End Ui.

(** ** Lemmas *)

Lemma png_le_trans a b c : png_le a b = true -> png_le b c = true -> png_le a c = true.
Proof. apply py_str_le_trans. Qed.

Lemma png_le_total a b : png_le a b = false -> png_le b a = true.
Proof. apply py_str_le_total. Qed.

Lemma png_le_antisym a b : png_le a b = true -> png_le b a = true -> a = b.
Proof. intros Hab Hba. apply (string_app_inv_r _ _ ".png"). by apply String.leb_antisym. Qed.

(** Whatever order [glob] lists the directory in, the sorted listing is
    the same. *)
Lemma sorted_listing (l : list string) (d : gmap string image) :
  l ≡ₚ elements (dom d) -> sort_by png_le l = sort_by png_le (elements (dom d)).
Proof. apply sort_by_unique; [apply png_le_trans|apply png_le_total|apply png_le_antisym]. Qed.

Lemma sprites_of_names d l :
  (forall s, s ∈ l -> is_Some (d !! s)) -> (sprites_of d l).*1 = l.
Proof.
  induction l as [|s l IH]; intros Hl; [done|]. simpl.
  destruct (Hl s ltac:(set_solver)) as [img ->]. simpl. f_equal. apply IH. set_solver.
Qed.

Lemma sorted_dom_names d :
  (sprites_of d (sort_by png_le (elements (dom d)))).*1 = sort_by png_le (elements (dom d)).
Proof.
  apply sprites_of_names. intros s Hs. rewrite sort_by_perm, elem_of_elements in Hs.
  by apply elem_of_dom.
Qed.

Lemma length_sprites_of d l : (length (sprites_of d l) <= length l)%nat.
Proof.
  induction l as [|s l IH]; simpl; [lia|]. destruct (d !! s); simpl; lia.
Qed.

Lemma filter_sprites_names keep (l : list (string * image)) :
  (filter_sprites keep l).*1 = List.filter keep l.*1.
Proof.
  unfold filter_sprites. induction l as [|[n img] l IH]; [done|].
  rewrite fmap_cons. cbn [List.filter fst]. destruct (keep n); [rewrite fmap_cons|]; by rewrite IH.
Qed.

Lemma filter_all_false {A} (p : A -> bool) l : (forall x, x ∈ l -> p x = false) -> List.filter p l = [].
Proof. induction l as [|x l IH]; intros Hl; simpl; [done|]. rewrite Hl by set_solver. apply IH. set_solver. Qed.

Lemma elem_of_list_filter_bool {A} (p : A -> bool) l x : x ∈ List.filter p l <-> x ∈ l /\ p x = true.
Proof. rewrite !list_elem_of_In. apply filter_In. Qed.

Lemma collect_world_sprites_sorted glob d :
  (forall d, glob d ≡ₚ elements (dom d)) ->
  collect_world_sprites glob d = sprites_of d (sort_by png_le (elements (dom d))).
Proof. intros Hglob. unfold collect_world_sprites. by rewrite (sorted_listing _ d (Hglob d)). Qed.

(** Every file the character sheet loop writes is named
    [f"{char_name}-{count}-{frame}"] and is read back by
    [collect_sprite_pairs], when no character name has a dash. *)
Lemma process_character_files_names png_files :
  Forall (fun f => has_char "-" (extract_character_name f.1).1 = false) png_files ->
  forall s, s ∈ dom (temp_dir (process_character_files png_files)) ->
  exists key frame, sprite_key s = inr (Some (key, frame)).
Proof.
  intros Hok. unfold process_character_files.
  apply (py_for_inv (fun w => forall s, s ∈ dom (temp_dir w) ->
                              exists key frame, sprite_key s = inr (Some (key, frame)))).
  { intros s Hs. simpl in Hs. set_solver. }
  intros [f src] w Hf Hw. cbv beta iota. rewrite sort_by_perm in Hf.
  destruct (process_character_png_temp f src w) as [Hr Ht]. split; [done|].
  intros s. rewrite Ht, dom_insert_all. intros [Hs|Hs]%elem_of_union; [by apply Hw|].
  destruct src as [img|]; [|simpl in Hs; set_solver].
  apply elem_of_list_to_set, list_elem_of_fmap in Hs as (kv & -> & Hkv).
  destruct (counted_entries_index _ _ _ _ _ _ Hkv) as (k & Hk & ->).
  rewrite Forall_forall in Hok. unfold character_tile_name.
  rewrite sprite_key_fields; [|apply (Hok (f, Png img) Hf)|apply pretty_no_dash; lia|
    apply pretty_no_dash, extract_character_name_frame_nonneg].
  rewrite py_int_pretty by apply extract_character_name_frame_nonneg. simpl. by eauto.
Qed.

Lemma process_character_files_nil : temp_dir (process_character_files []) = ∅.
Proof. reflexivity. Qed.

(** A non-empty directory of such files gives at least one group. *)
Lemma collect_sprite_pairs_nonempty files groups s key frame :
  collect_sprite_pairs files = inr groups -> s ∈ files ->
  sprite_key s = inr (Some (key, frame)) -> groups <> [].
Proof.
  intros Hcol Hs Hk ->. destruct (collect_go_spec files [] [] Hcol) as (_ & _ & Hin).
  enough (Hm : members key files <> []) by (pose proof (proj2 (Hin key) (or_intror Hm)); set_solver).
  intros E. assert (Hm : (frame, s) ∈ members key files).
  { apply list_elem_of_omap. exists s. rewrite Hk. by rewrite decide_True. }
  rewrite E in Hm. set_solver.
Qed.

Lemma collect_item_sprites_sorted glob d :
  (forall d, glob d ≡ₚ elements (dom d)) ->
  collect_item_sprites glob d = sprites_of d (sort_by png_le (elements (dom d))).
Proof. intros Hglob. unfold collect_item_sprites. by rewrite (sorted_listing _ d (Hglob d)). Qed.

(** ** Theorems *)

(** C5: [main] of gen_world.py, with all seven sheets present: whatever
    order [glob] lists the temporary directory in, it ends normally and
    world_tiles.json maps exactly the saved tiles that pass the used-name
    filter of map_renderer.gd, and ["debug"]. *)
Theorem main_world_json_keys `{Font} (glob : gmap string image -> list string) (objs : gmap string source)
    (map_renderer_gd : option string) (o : output_dir) :
  (forall d, glob d ≡ₚ elements (dom d)) ->
  (forall f, f ∈ world_files.*1 -> is_Some (objs !! f)) ->
  let used := extract_used_tile_names map_renderer_gd in
  let temp := temp_dir (process_world_files used objs) in
  temp <> ∅ -> Z.of_nat (base.size temp) < 16384 ->
  (main_world glob (Some objs) map_renderer_gd o).2 = Completed /\
  exists coords,
    (main_world glob (Some objs) map_renderer_gd o).1 !! "world_tiles.json" =
      Some (JsonFile (mkMetadata [("tileSize", 16)] coords)) /\
    forall n, n ∈ dom coords <-> n = "debug" \/ (n ∈ dom temp /\ world_keep used n = true).
Proof.
  intros Hglob Hfiles used temp Hne Hsize. unfold main_world. fold used.
  rewrite filter_all_false; cycle 1.
  { intros f Hf. apply bool_decide_eq_false. destruct (Hfiles f Hf) as [src Hs]. by rewrite Hs. }
  rewrite bool_decide_false by (intros Hn; by apply Hn). fold temp. rewrite collect_world_sprites_sorted by done.
  set (L := sort_by png_le (elements (dom temp))).
  assert (HL : L ≡ₚ elements (dom temp)) by apply sort_by_perm.
  pose proof (sorted_dom_names temp) as Hnames. fold L in Hnames.
  assert (Hlen : length (sprites_of temp L) = base.size temp).
  { rewrite <- (length_fmap fst), Hnames, HL, <- size_dom. reflexivity. }
  rewrite bool_decide_false; cycle 1.
  { intros Hnil. apply Hne. rewrite Hnil in Hlen. simpl in Hlen. symmetry in Hlen.
    by apply map_size_empty_inv in Hlen. }
  destruct (pack_world_kept (sprites_of temp L) used ltac:(lia)) as (w & h & atlas & coords & Hp).
  rewrite (create_atlas_world_run _ _ _ _ _ _ _ Hp). simpl. split; [done|].
  exists coords. split; [by rewrite lookup_insert_eq|]. intros n.
  rewrite (world_coords_dom (sprites_of temp L) used w h atlas coords ltac:(lia) Hp), filter_sprites_names, Hnames.
  rewrite elem_of_union, elem_of_singleton, elem_of_list_to_set, elem_of_list_filter_bool, HL,
    elem_of_elements. done.
Qed.

(** A listing in the order of [elements], and an Objects directory with
    one readable Ground sheet of a single opaque tile. *)
Definition sample_glob (d : gmap string image) : list string := elements (dom d).
Definition sample_objects : gmap string source :=
  {[ "Ground0.png" := Png (image_new 16 16 (mkPixel 1 1 1 255)); "Floor.png" := Unreadable;
     "Wall.png" := Unreadable; "Decor0.png" := Unreadable; "Tile.png" := Unreadable;
     "Door0.png" := Unreadable; "Door1.png" := Unreadable ]}.

Lemma main_world_json_keys_witness :
  (forall d, sample_glob d ≡ₚ elements (dom d)) /\
  (forall f, f ∈ world_files.*1 -> is_Some (sample_objects !! f)) /\
  temp_dir (process_world_files (extract_used_tile_names None) sample_objects) <> ∅ /\
  Z.of_nat (base.size (temp_dir (process_world_files (extract_used_tile_names None) sample_objects))) < 16384 /\
  (main_world sample_glob (Some sample_objects) None ∅).2 = Completed /\
  exists coords,
    (main_world sample_glob (Some sample_objects) None ∅).1 !! "world_tiles.json" =
      Some (JsonFile (mkMetadata [("tileSize", 16)] coords)) /\
    forall n, n ∈ dom coords <-> n = "debug" \/
      (n ∈ dom (temp_dir (process_world_files (extract_used_tile_names None) sample_objects)) /\
       world_keep (extract_used_tile_names None) n = true).
Proof.
  assert (Hg : forall d, sample_glob d ≡ₚ elements (dom d)) by done.
  assert (Hf : forall f, f ∈ world_files.*1 -> is_Some (sample_objects !! f)).
  { intros f Hf. repeat apply elem_of_cons in Hf as [->|Hf]; [by eexists..|set_solver]. }
  assert (Hne : temp_dir (process_world_files (extract_used_tile_names None) sample_objects) <> ∅).
  { intros E. apply (f_equal (lookup "ground-0")) in E. revert E. vm_compute. discriminate. }
  assert (Hs : Z.of_nat (base.size (temp_dir (process_world_files (extract_used_tile_names None)
                  sample_objects))) < 16384) by (vm_compute; reflexivity).
  split; [exact Hg|]. split; [exact Hf|]. split; [exact Hne|]. split; [exact Hs|].
  exact (main_world_json_keys sample_glob sample_objects None ∅ Hg Hf Hne Hs).
Defined.

Lemma getpixel_outside img i j :
  ~ (0 <= i < width img /\ 0 <= j < height img) -> getpixel img i j = transparent.
Proof.
  intros Hout. unfold getpixel, in_bounds.
  destruct (Z.leb_spec 0 i), (Z.ltb_spec i (width img)), (Z.leb_spec 0 j), (Z.ltb_spec j (height img));
    simpl; try done; lia.
Qed.

(** Pasting at [(0, 0)] on a transparent canvas copies the image, and
    leaves the rest of the canvas transparent, as [getpixel] reads outside
    an image. *)
Lemma getpixel_paste_canvas w h img i j :
  0 <= i < w -> 0 <= j < h ->
  getpixel (paste (image_new w h transparent) img 0 0) i j = getpixel img i j.
Proof.
  intros Hi Hj. destruct (decide (0 <= i < width img /\ 0 <= j < height img)) as [Hin|Hout].
  - rewrite getpixel_paste_in; simpl; [by rewrite !Z.sub_0_r|lia..].
  - rewrite getpixel_paste_out by lia. rewrite (getpixel_outside img i j Hout).
    unfold getpixel, in_bounds. simpl. by repeat case_match.
Qed.

(** C10: [main] of gen_ui.py on a readable GUI0.png ends normally and
    writes ui.png: a 512 x 512 canvas that holds GUI0.png pixel for pixel
    at the top left and is transparent beyond its edges, wherever the
    watermark does not reach. *)
Theorem main_ui_readback `{Font} `{!FontLaws} (img : image) (o : output_dir) :
  (main_ui (Some (Png img)) o).2 = Completed /\
  exists canvas,
    (main_ui (Some (Png img)) o).1 !! "ui.png" = Some (PngFile (add_watermark canvas WATERMARK)) /\
    width (add_watermark canvas WATERMARK) = 512 /\ height (add_watermark canvas WATERMARK) = 512 /\
    forall i j, 0 <= i < 512 -> 0 <= j < 512 ->
      ~ in_box (watermark_box canvas WATERMARK) i j ->
      getpixel (add_watermark canvas WATERMARK) i j = getpixel img i j.
Proof.
  unfold main_ui, add_watermark_ui, TARGET_SIZE. cbn [image_open fst snd].
  split; [done|]. eexists. split; [by rewrite lookup_insert_eq|].
  pose proof (add_watermark_size (paste (image_new 512 512 transparent) img 0 0) WATERMARK) as [Hw Hh].
  split; [by rewrite Hw|]. split; [by rewrite Hh|].
  intros i j Hi Hj Hout. rewrite add_watermark_local by done. by apply getpixel_paste_canvas.
Qed.

Lemma let_outcome (p : output_dir * (exn + bool)) :
  (let '(o', r) := p in (o', outcome_of r)) = (p.1, outcome_of p.2).
Proof. by destruct p. Qed.

(** C9: [main] of gen_items.py with an items.csv of columns [name,
    sprite]: whatever order [glob] lists the temporary directory in, it
    ends normally and item_sprites.json maps exactly the extracted tiles
    whose name is a non-empty stripped [sprite] value of items.csv, and
    ["debug"]. No per-type limit applies, although the comment on
    [SET_THIS_TO_FALSE_TO_GET_ALL_ITEMS] (gen_items.py line 27) says the
    flag limits extraction to 10 sprites per item type. *)
Theorem main_items_json_keys `{F : Font} (glob : gmap string image -> list string)
    (png_files : list (string * source)) (rows : list (string * string)) (o : output_dir) :
  (forall d, glob d ≡ₚ elements (dom d)) ->
  let temp := temp_dir (process_item_files png_files) in
  temp <> ∅ -> Z.of_nat (base.size temp) < 16384 ->
  let items_csv := ["name"; "sprite"] :: map (fun r => [r.1; r.2]) rows in
  (main_items glob (Some png_files) (Some items_csv) o).2 = Completed /\
  exists coords,
    (main_items glob (Some png_files) (Some items_csv) o).1 !! "item_sprites.json" =
      Some (JsonFile (mkMetadata [("spriteSize", 16)] coords)) /\
    forall n, n ∈ dom coords <-> n = "debug" \/
      (n ∈ dom temp /\ n <> "" /\ n ∈ map py_strip rows.*2).
Proof.
  intros Hglob temp Hne Hsize items_csv. unfold main_items.
  assert (Hpng : png_files <> []).
  { intros E. apply Hne. unfold temp. by rewrite E. }
  rewrite bool_decide_false by done. fold temp. unfold collect_item_sprites.
  rewrite (sorted_listing _ temp (Hglob temp)).
  set (L := sort_by png_le (elements (dom temp))).
  assert (HL : L ≡ₚ elements (dom temp)) by apply sort_by_perm.
  pose proof (sorted_dom_names temp) as Hnames. fold L in Hnames.
  assert (Hlen : length (sprites_of temp L) = base.size temp).
  { rewrite <- (length_fmap fst), Hnames, HL, <- size_dom. reflexivity. }
  rewrite bool_decide_false; cycle 1.
  { intros Hnil. apply Hne. rewrite Hnil in Hlen. simpl in Hlen. symmetry in Hlen.
    by apply map_size_empty_inv in Hlen. }
  unfold items_csv. rewrite read_allowed_items_two_columns.
  destruct (@items_coords_dom F (sprites_of temp L)
              (list_to_set (List.filter (fun s => negb (String.eqb s "")) (map py_strip rows.*2)))
              o ltac:(lia)) as [Hr (coords & Hj & Hdom)].
  rewrite let_outcome. simpl. rewrite Hr.
  split; [done|]. exists coords. split; [done|]. intros n.
  rewrite Hdom, Hnames, elem_of_union, elem_of_singleton, elem_of_intersection, !elem_of_list_to_set,
    HL, elem_of_elements, elem_of_list_filter_bool.
  rewrite negb_true_iff, String.eqb_neq. tauto.
Qed.

Lemma main_items_json_keys_witness :
  let png_files := [("Sword.png", Png (image_new 16 16 (mkPixel 1 1 1 255)))] in
  let rows := [("Sword", " sword-0 ")] in
  (forall d, sample_glob d ≡ₚ elements (dom d)) /\
  temp_dir (process_item_files png_files) <> ∅ /\
  Z.of_nat (base.size (temp_dir (process_item_files png_files))) < 16384 /\
  (main_items sample_glob (Some png_files) (Some (["name"; "sprite"] :: map (fun r => [r.1; r.2]) rows)) ∅).2
    = Completed /\
  exists coords,
    (main_items sample_glob (Some png_files) (Some (["name"; "sprite"] :: map (fun r => [r.1; r.2]) rows)) ∅).1
      !! "item_sprites.json" = Some (JsonFile (mkMetadata [("spriteSize", 16)] coords)) /\
    forall n, n ∈ dom coords <-> n = "debug" \/
      (n ∈ dom (temp_dir (process_item_files png_files)) /\ n <> "" /\ n ∈ map py_strip rows.*2).
Proof.
  intros png_files rows.
  assert (Hg : forall d, sample_glob d ≡ₚ elements (dom d)) by done.
  assert (Hne : temp_dir (process_item_files png_files) <> ∅).
  { intros E. apply (f_equal (lookup "sword-0")) in E. revert E. vm_compute. discriminate. }
  assert (Hs : Z.of_nat (base.size (temp_dir (process_item_files png_files))) < 16384)
    by (vm_compute; reflexivity).
  split; [exact Hg|]. split; [exact Hne|]. split; [exact Hs|].
  exact (main_items_json_keys sample_glob png_files rows ∅ Hg Hne Hs).
Defined.

(** C32: [main] of gen_world.py stops with [sys.exit(1)] before writing
    anything when the Objects directory is missing or lacks one of the
    seven sheets it needs. *)
Theorem main_world_missing_sheet `{Font} (glob : gmap string image -> list string)
    (objects : objects_dir) (map_renderer_gd : option string) (o : output_dir) :
  objects = None \/ (exists objs f, objects = Some objs /\ f ∈ world_files.*1 /\ objs !! f = None) ->
  main_world glob objects map_renderer_gd o = (o, SysExit 1).
Proof.
  intros [->|(objs & f & -> & Hf & Hnone)]; [done|]. unfold main_world.
  rewrite bool_decide_true; [done|]. intros Hnil.
  assert (Hin : f ∈ List.filter (fun f => bool_decide (objs !! f = None)) world_files.*1)
    by (apply elem_of_list_filter_bool; split; [done|by apply bool_decide_eq_true]).
  by rewrite Hnil in Hin; apply not_elem_of_nil in Hin.
Qed.

Lemma main_world_missing_sheet_witness :
  (Some (delete "Wall.png" sample_objects) = None \/
   (exists objs f, Some (delete "Wall.png" sample_objects) = Some objs /\ f ∈ world_files.*1 /\
                   objs !! f = None)) /\
  main_world sample_glob (Some (delete "Wall.png" sample_objects)) None ∅ = (∅, SysExit 1).
Proof.
  assert (H : exists objs f, Some (delete "Wall.png" sample_objects) = Some objs /\ f ∈ world_files.*1 /\
                             objs !! f = None).
  { exists (delete "Wall.png" sample_objects), "Wall.png". split; [done|].
    split; [simpl; set_solver|apply lookup_delete_eq]. }
  split; [by right|]. apply main_world_missing_sheet. by right.
Defined.

Lemma main_ui_readback_witness :
  (main_ui (Some (Png (image_new 16 16 (mkPixel 1 1 1 255)))) ∅).2 = Completed /\
  exists canvas,
    (main_ui (Some (Png (image_new 16 16 (mkPixel 1 1 1 255)))) ∅).1 !! "ui.png" =
      Some (PngFile (add_watermark canvas WATERMARK)) /\
    width (add_watermark canvas WATERMARK) = 512 /\ height (add_watermark canvas WATERMARK) = 512 /\
    forall i j, 0 <= i < 512 -> 0 <= j < 512 ->
      ~ in_box (watermark_box canvas WATERMARK) i j ->
      getpixel (add_watermark canvas WATERMARK) i j = getpixel (image_new 16 16 (mkPixel 1 1 1 255)) i j.
Proof. exact (main_ui_readback (image_new 16 16 (mkPixel 1 1 1 255)) ∅). Defined.

(** C25: [main] of gen_characters.py, when no character name has a dash
    and monsters.csv reads: whatever order [glob] lists the temporary
    directory in, every tile name the sheet loop writes is parsed back by
    [collect_sprite_pairs] (no [ValueError]), every frame of a group opens,
    the script ends normally, and character_tiles.json maps exactly the
    groups [f"{char_name}-{count}"] of the temporary directory that have
    one or two frames and that monsters.csv lists, plus ["debug"]. *)
Theorem main_characters_json_keys `{Font} (glob : gmap string image -> list string)
    (png_files : list (string * source)) (monsters_csv : option (list (list string)))
    (allowed : gset string) (o : output_dir) :
  (forall d, glob d ≡ₚ elements (dom d)) ->
  Forall (fun f => has_char "-" (extract_character_name f.1).1 = false) png_files ->
  read_allowed_monsters monsters_csv = inr allowed ->
  let temp := temp_dir (process_character_files png_files) in
  temp <> ∅ -> Z.of_nat (base.size temp) < 16384 ->
  (main_characters glob (Some png_files) monsters_csv o).2 = Completed /\
  exists coords,
    (main_characters glob (Some png_files) monsters_csv o).1 !! "character_tiles.json" =
      Some (JsonFile (mkMetadata [("tileWidth", 32); ("tileHeight", 16)] coords)) /\
    forall n, n ∈ dom coords <-> n = "debug" \/
      (n ∈ allowed /\ (length (members n (elements (dom temp))) = 1 \/
                       length (members n (elements (dom temp))) = 2)%nat).
Proof.
  intros Hglob Hok Hallowed temp Hne Hsize. unfold main_characters.
  rewrite bool_decide_false by (intros ->; by apply Hne). fold temp.
  pose proof (Hglob temp) as HL. set (L := glob temp) in *.
  assert (Hnames : forall f, f ∈ L -> exists key frame, sprite_key f = inr (Some (key, frame)))
    by (intros f Hf; rewrite HL, elem_of_elements in Hf; by apply (process_character_files_names png_files Hok)).
  destruct (collect_go_ok L []) as [groups Hcol]; [intros f (? & ? & ?)%Hnames; by eexists|].
  fold (collect_sprite_pairs L) in Hcol. rewrite Hcol.
  destruct (map_choose temp Hne) as (s & img & Hs).
  assert (HsL : s ∈ L) by (rewrite HL, elem_of_elements; by apply elem_of_dom_2 in Hs).
  destruct (Hnames s HsL) as (key & frame & Hk).
  rewrite bool_decide_false by exact (collect_sprite_pairs_nonempty _ _ _ _ _ Hcol HsL Hk).
  rewrite Hallowed.
  destruct (combine_groups_ok temp allowed (sort_by group_le groups)) as (out & Hout & _).
  { apply (collect_groups_open L temp groups Hcol). intros f Hf.
    rewrite HL, elem_of_elements in Hf. by apply elem_of_dom. }
  destruct (combine_groups_names _ _ _ _ Hout) as (Hlout & _ & _).
  pose proof (collect_go_length _ _ _ Hcol) as Hlg. rewrite length_sort_by in Hlout.
  assert (HlL : length L = base.size temp) by (rewrite HL, <- size_dom; reflexivity).
  set (sprites := (out ++ [("debug", create_debug_tile characters_config)])%list).
  assert (Hn : 1 <= Z.of_nat (length sprites) <= 16384)
    by (unfold sprites; rewrite length_app; simpl in *; lia).
  pose proof (pack_ok characters_config sprites Hn) as Hp. cbv zeta in Hp.
  rewrite (create_atlas_characters_run _ _ _ _ out _ _ _ _ Hout Hp). cbn [fst snd outcome_of].
  split; [done|]. eexists. split; [by rewrite lookup_insert_eq|]. intros n.
  rewrite dom_insert_all, coords_of_placements_names. unfold sprites.
  rewrite fmap_app, list_to_set_app_L, dom_empty_L, union_empty_l_L. simpl.
  rewrite union_empty_r_L, elem_of_union, elem_of_list_to_set, elem_of_singleton,
    (character_groups_keys L temp allowed groups out Hcol Hout n), (members_perm n _ _ HL).
  tauto.
Qed.

(** Two frames of one character: Player0.png and Player1.png, with a
    monsters.csv that lists the group. *)
Definition sample_character : source := Png (image_new 16 16 (mkPixel 1 1 1 255)).
Definition sample_characters : list (string * source) :=
  [("Player1.png", sample_character); ("Player0.png", sample_character)].
Definition sample_monsters : list (list string) := [["name"; "appearance"]; ["Hero"; "player-0"]].

Lemma main_characters_json_keys_witness :
  (forall d, sample_glob d ≡ₚ elements (dom d)) /\
  Forall (fun f => has_char "-" (extract_character_name f.1).1 = false) sample_characters /\
  read_allowed_monsters (Some sample_monsters) = inr {["player-0"]} /\
  temp_dir (process_character_files sample_characters) <> ∅ /\
  Z.of_nat (base.size (temp_dir (process_character_files sample_characters))) < 16384 /\
  (main_characters sample_glob (Some sample_characters) (Some sample_monsters) ∅).2 = Completed /\
  exists coords,
    (main_characters sample_glob (Some sample_characters) (Some sample_monsters) ∅).1
      !! "character_tiles.json" =
      Some (JsonFile (mkMetadata [("tileWidth", 32); ("tileHeight", 16)] coords)) /\
    forall n, n ∈ dom coords <-> n = "debug" \/
      (n ∈ ({["player-0"]} : gset string) /\
       (length (members n (elements (dom (temp_dir (process_character_files sample_characters))))) = 1 \/
        length (members n (elements (dom (temp_dir (process_character_files sample_characters))))) = 2)%nat).
Proof.
  assert (Hg : forall d, sample_glob d ≡ₚ elements (dom d)) by done.
  assert (Hok : Forall (fun f => has_char "-" (extract_character_name f.1).1 = false) sample_characters)
    by (repeat constructor; vm_compute; reflexivity).
  assert (Ha : read_allowed_monsters (Some sample_monsters) = inr {["player-0"]})
    by (vm_compute; reflexivity).
  assert (Hne : temp_dir (process_character_files sample_characters) <> ∅).
  { intros E. apply (f_equal (lookup "player-0-0")) in E. revert E. vm_compute. discriminate. }
  assert (Hs : Z.of_nat (base.size (temp_dir (process_character_files sample_characters))) < 16384)
    by (vm_compute; reflexivity).
  split; [exact Hg|]. split; [exact Hok|]. split; [exact Ha|]. split; [exact Hne|]. split; [exact Hs|].
  exact (main_characters_json_keys sample_glob sample_characters (Some sample_monsters) {["player-0"]} ∅
           Hg Hok Ha Hne Hs).
Defined.

(** C34: what gen_world.py and gen_items.py write, and how they end, does
    not depend on the order in which the file system lists the temporary
    directory: any two listings give the same atlas, pixel for pixel, and
    the same JSON, since the listing is sorted by file name and a sort
    into code-point order has one result for each set of names. *)
Theorem main_glob_order_independent `{Font} (glob1 glob2 : gmap string image -> list string) :
  (forall d, glob1 d ≡ₚ elements (dom d)) -> (forall d, glob2 d ≡ₚ elements (dom d)) ->
  (forall objects map_renderer_gd o,
     main_world glob1 objects map_renderer_gd o = main_world glob2 objects map_renderer_gd o) /\
  (forall items items_csv o, main_items glob1 items items_csv o = main_items glob2 items items_csv o).
Proof.
  intros H1 H2. split.
  - intros [objs|] gd o; [|done]. unfold main_world.
    by rewrite !collect_world_sprites_sorted by done.
  - intros [png|] csv o; [|done]. unfold main_items.
    by rewrite !collect_item_sprites_sorted by done.
Qed.

Definition reverse_glob (d : gmap string image) : list string := List.rev (elements (dom d)).

Lemma main_glob_order_independent_witness :
  ((forall d, sample_glob d ≡ₚ elements (dom d)) /\ (forall d, reverse_glob d ≡ₚ elements (dom d))) /\
  main_world sample_glob (Some sample_objects) None ∅ = main_world reverse_glob (Some sample_objects) None ∅.
Proof.
  assert (H1 : forall d, sample_glob d ≡ₚ elements (dom d)) by done.
  assert (H2 : forall d, reverse_glob d ≡ₚ elements (dom d))
    by (intros d; unfold reverse_glob; symmetry; apply Permutation_rev).
  split; [split; [exact H1|exact H2]|].
  apply (proj1 (main_glob_order_independent sample_glob reverse_glob H1 H2)).
Defined.
